(** * Smart Face Attendance System: session/attendance controller and
      liveness challenges

    A shallow embedding of

    - [backend/controllers/attendanceController.js]: [startSession],
      [markAttendance], [manualOverride], [endSession];
    - [frontend/src/ai/livenessChallenges.js]: the blink, head-turn and
      smile detectors and the challenge runner;
    - [frontend/src/components/LivenessChallenge.jsx]: the detection loop,
      the countdown and the retry handler;

    followed by the properties of the specification that concern them.

    Conventions of the embedding.

    - MongoDB collections are lists of documents in insertion order; the
      in-process [activeSessions] [Map] is a [gmap] keyed by the session id.
    - An [ObjectId] is an opaque number.  An instant ([Date]) is its number
      of milliseconds since the epoch, in [Z].  A calendar day (the string
      [toISOString().split('T')[0]]) is the number of the UTC day: the
      order of these strings is the order of the days.
    - An optional field of a request body is an [option]; a string field
      is falsy when it is missing or empty.
    - JavaScript numbers that are not integers (landmark coordinates,
      ratios) are rationals: rounding of doubles is not modelled. *)

From Stdlib Require Import ZArith QArith Qabs Qminmax Qround Sorted Lia Lqa.
From stdpp Require Import base strings list gmap pretty.

Set Default Proof Using "Type".

(* ===================================================================== *)
(** * Part I: the program                                                 *)
(* ===================================================================== *)

Abbreviation ObjectId := N (only parsing).

(** Truthiness of an optional string field ([!x], [x || d]). *)
Definition truthy (x : option string) : bool :=
  match x with
  | Some s => negb (s =? "")%string
  | None => false
  end.

(** [x || d] on an optional string field. *)
Definition orElse (x : option string) (d : string) : string :=
  match x with
  | Some s => if (s =? "")%string then d else s
  | None => d
  end.

(** [x === v] on an optional string field. *)
Definition isValue (x : option string) (v : string) : bool :=
  match x with
  | Some s => (s =? v)%string
  | None => false
  end.

(** [a < b] on rationals, as a boolean. *)
Definition Qlt_bool (a b : Q) : bool := negb (Qle_bool b a).

(** What the server clock gives when [new Date()] is evaluated: the
    instant, and the local time of day as [toTimeString().split(' ')[0]]
    prints it. *)
Record Clock := { now : Z; timeString : string }.

(** [new Date().toISOString().split('T')[0]]. *)
Definition isoDate (ms : Z) : Z := (ms / 86400000)%Z.

Inductive Role := superadmin | admin | lecturer | viewer.

#[export] Instance Role_eq_dec : EqDecision Role.
Proof. solve_decision. Defined.

(** [req.user] *)
Record User := { user_id : ObjectId; role : Role }.

(* --------------------------------------------------------------------- *)
(** ** The models                                                         *)
(* --------------------------------------------------------------------- *)

Module Class.
Record doc := { _id : ObjectId; lecturerId : ObjectId }.

Definition findById (coll : list doc) (id : ObjectId) : option doc :=
  List.find (fun c => (_id c =? id)%N) coll.
End Class.

Module Student.
Record doc := { _id : ObjectId; classId : ObjectId }.

Definition countDocuments (coll : list doc) (cid : ObjectId) : nat :=
  length (List.filter (fun s => (classId s =? cid)%N) coll).
End Student.

Module AttendanceSession.
Record doc := {
  sessionId : string;
  classId : ObjectId;
  lecturerId : ObjectId;
  startTime : Z;
  endTime : option Z;
  date : Z;
  totalStudents : nat;
  status : string;
  presentCount : nat;
  absentCount : nat;
  lateCount : nat
}.

Definition findOne (coll : list doc) (sid : string) : option doc :=
  List.find (fun d => (sessionId d =? sid)%string) coll.

(** [sessionDoc.save()]: the document found by [findOne] is written back
    in its place. *)
Fixpoint save (coll : list doc) (d : doc) : list doc :=
  match coll with
  | [] => []
  | x :: rest =>
      if (sessionId x =? sessionId d)%string then d :: rest
      else x :: save rest d
  end.
End AttendanceSession.

Module AuditLog.
Record doc := {
  actorUserId : ObjectId;
  action : string;
  sessionId : string;
  classId : option ObjectId;
  count : option nat
}.
End AuditLog.

Module Attendance.
Record doc := {
  _id : ObjectId;
  studentId : ObjectId;
  classId : ObjectId;
  lecturerId : ObjectId;
  date : Z;
  time : string;
  lastScanTime : Z;
  status : string;
  consecutiveLateCount : nat;
  capturedOffline : bool;
  sessionId : string;
  remark : option string
}.

(** The statuses an attendance may carry (the list [manualOverride]
    checks a request against). *)
Definition statusEnum : list string := ["present"; "absent"; "late"; "excused"].

(** Modelled from the spec: the schema of [models/Attendance.js], which
    is not among the sources.  Section 3 gives
    [status ∈ {present, late, absent, excused}]; [runValidators] rejects
    a document whose status is outside it. *)
Definition runValidators (st : string) : bool :=
  bool_decide (st ∈ statusEnum).

(** The filter [{studentId, classId, date, sessionId}]. *)
Definition matches (sid cid : ObjectId) (d : Z) (sess : string) (a : doc) : bool :=
  (studentId a =? sid)%N && (classId a =? cid)%N && (date a =? d)%Z
  && (sessionId a =? sess)%string.

(** The filter [{studentId, classId, date: {$lt: today}}]. *)
Definition isPrior (sid cid : ObjectId) (today : Z) (a : doc) : bool :=
  (studentId a =? sid)%N && (classId a =? cid)%N && (date a <? today)%Z.

(** [.sort({date: -1})]: most recent day first.  Records of the same
    day keep the order of the collection; MongoDB leaves the order of
    such ties open. *)
Fixpoint insertByDateDesc (a : doc) (l : list doc) : list doc :=
  match l with
  | [] => [a]
  | b :: rest =>
      if (date b <=? date a)%Z then a :: l else b :: insertByDateDesc a rest
  end.

Definition sortByDateDesc (l : list doc) : list doc :=
  foldr insertByDateDesc [] l.

(** Every earlier-day record of the student in the class, most recent
    first: the query of [markAttendance] before its [.limit(3)]. *)
Definition priorRecords (coll : list doc) (sid cid : ObjectId) (today : Z) : list doc :=
  sortByDateDesc (List.filter (isPrior sid cid today) coll).

(** [Attendance.find({...}).sort({date: -1}).limit(3)] *)
Definition findPrevious (coll : list doc) (sid cid : ObjectId) (today : Z) : list doc :=
  take 3 (priorRecords coll sid cid today).

(** The fields [markAttendance] passes as the update document. *)
Record update := {
  u_lecturerId : ObjectId;
  u_time : string;
  u_lastScanTime : Z;
  u_status : string;
  u_consecutiveLateCount : nat;
  u_capturedOffline : bool
}.

Definition applyUpdate (sid cid : ObjectId) (d : Z) (sess : string)
    (u : update) (a : doc) : doc :=
  {| _id := _id a; studentId := sid; classId := cid;
     lecturerId := u_lecturerId u; date := d; time := u_time u;
     lastScanTime := u_lastScanTime u; status := u_status u;
     consecutiveLateCount := u_consecutiveLateCount u;
     capturedOffline := u_capturedOffline u; sessionId := sess;
     remark := remark a |}.

Definition newDoc (id sid cid : ObjectId) (d : Z) (sess : string) (u : update) : doc :=
  {| _id := id; studentId := sid; classId := cid;
     lecturerId := u_lecturerId u; date := d; time := u_time u;
     lastScanTime := u_lastScanTime u; status := u_status u;
     consecutiveLateCount := u_consecutiveLateCount u;
     capturedOffline := u_capturedOffline u; sessionId := sess;
     remark := None |}.

(** The first document that satisfies [p] is replaced by its image. *)
Fixpoint updateFirst (p : doc -> bool) (f : doc -> doc) (coll : list doc)
    : option (list doc * doc) :=
  match coll with
  | [] => None
  | a :: rest =>
      if p a then Some (f a :: rest, f a)
      else match updateFirst p f rest with
           | Some (rest', a') => Some (a :: rest', a')
           | None => None
           end
  end.

(** [findOneAndUpdate(filter, update, {upsert: true, new: true,
    runValidators: true})]: [None] is the validation error; otherwise
    the collection after the write, the document written, and whether
    it was inserted. *)
Definition findOneAndUpdate (coll : list doc) (fresh : ObjectId)
    (sid cid : ObjectId) (d : Z) (sess : string) (u : update)
    : option (list doc * doc * bool) :=
  if negb (runValidators (u_status u)) then None
  else match updateFirst (matches sid cid d sess) (applyUpdate sid cid d sess u) coll with
       | Some (coll', a) => Some (coll', a, false)
       | None =>
           let a := newDoc fresh sid cid d sess u in
           Some (coll ++ [a], a, true)
       end.

(** [findByIdAndUpdate(id, {status, remark}, {new: true,
    runValidators: true})]; a request without a remark leaves the stored
    remark as it is. *)
Definition setStatusRemark (st : string) (rm : option string) (a : doc) : doc :=
  {| _id := _id a; studentId := studentId a; classId := classId a;
     lecturerId := lecturerId a; date := date a; time := time a;
     lastScanTime := lastScanTime a; status := st;
     consecutiveLateCount := consecutiveLateCount a;
     capturedOffline := capturedOffline a; sessionId := sessionId a;
     remark := match rm with Some r => Some r | None => remark a end |}.

Definition findByIdAndUpdate (coll : list doc) (id : ObjectId)
    (st : string) (rm : option string) : option (list doc * doc) :=
  updateFirst (fun a => (_id a =? id)%N) (setStatusRemark st rm) coll.

Definition findById (coll : list doc) (id : ObjectId) : option doc :=
  List.find (fun a => (_id a =? id)%N) coll.

(** [aggregate([{$match: {sessionId}}, {$group: {_id: '$status',
    count: {$sum: 1}}}])] read at one status. *)
Definition countStatus (coll : list doc) (sess : string) (st : string) : nat :=
  length (List.filter
    (fun a => (sessionId a =? sess)%string && (status a =? st)%string) coll).

(** The records stored under one key. *)
Definition withKey (coll : list doc) (sid cid : ObjectId) (d : Z) (sess : string)
    : list doc :=
  List.filter (matches sid cid d sess) coll.
End Attendance.

(* --------------------------------------------------------------------- *)
(** ** [attendanceController.js]                                          *)
(* --------------------------------------------------------------------- *)

Module Controller.

(** An entry of the in-memory [activeSessions] map. *)
Record ActiveSession := {
  as_classId : ObjectId;
  as_lecturerId : ObjectId;
  as_date : Z;
  as_createdAt : Z
}.

(** The server: the process memory ([activeSessions]), the collections
    and the supply of fresh [ObjectId]s. *)
Record Store := {
  activeSessions : gmap string ActiveSession;
  sessions : list AttendanceSession.doc;
  attendances : list Attendance.doc;
  classes : list Class.doc;
  students : list Student.doc;
  auditLogs : list AuditLog.doc;
  nextObjectId : ObjectId
}.

Definition emptyStore : Store :=
  {| activeSessions := ∅; sessions := []; attendances := []; classes := [];
     students := []; auditLogs := []; nextObjectId := 1%N |}.

Definition setActiveSessions (s : Store) (m : gmap string ActiveSession) : Store :=
  {| activeSessions := m; sessions := sessions s; attendances := attendances s;
     classes := classes s; students := students s; auditLogs := auditLogs s;
     nextObjectId := nextObjectId s |}.

Definition setSessions (s : Store) (l : list AttendanceSession.doc) : Store :=
  {| activeSessions := activeSessions s; sessions := l; attendances := attendances s;
     classes := classes s; students := students s; auditLogs := auditLogs s;
     nextObjectId := nextObjectId s |}.

Definition setAttendances (s : Store) (l : list Attendance.doc) (next : ObjectId) : Store :=
  {| activeSessions := activeSessions s; sessions := sessions s; attendances := l;
     classes := classes s; students := students s; auditLogs := auditLogs s;
     nextObjectId := next |}.

Definition addAuditLog (s : Store) (e : AuditLog.doc) : Store :=
  {| activeSessions := activeSessions s; sessions := sessions s;
     attendances := attendances s; classes := classes s; students := students s;
     auditLogs := auditLogs s ++ [e]; nextObjectId := nextObjectId s |}.

(** One element of [results] in the answer of [markAttendance]. *)
Inductive MarkResult :=
| Saved (studentId attendanceId : ObjectId) (isLate : bool)
    (finalStatus : string) (consecutiveLateCount : nat)
| Duplicate (studentId : ObjectId)
| Failed (studentId : ObjectId).

Definition isSaved (r : MarkResult) : bool :=
  match r with Saved _ _ _ _ _ => true | _ => false end.

(** What a handler answers: [res.status(code).json({error})] or the
    JSON of a success. *)
Inductive Response :=
| Err (code : Z) (error : string)
| SessionStarted (sessionId : string) (classId : ObjectId) (date startTime : Z)
| Marked (results : list MarkResult) (saved : nat)
| Overridden (attendance : Attendance.doc)
| SessionEnded.

(** *** [startSession] *)

(** [sid] is the identifier [`${Date.now()}-${Math.random()...}`] drawn
    for the session. *)
Definition startSession (s : Store) (user : User) (classId : option ObjectId)
    (clock : Clock) (sid : string) : Store * Response :=
  match classId with
  | None => (s, Err 400 "Class ID is required")
  | Some cid =>
      match Class.findById (classes s) cid with
      | None => (s, Err 404 "Class not found")
      | Some classDoc =>
          if bool_decide (role user = lecturer)
             && negb (Class.lecturerId classDoc =? user_id user)%N
          then (s, Err 403 "Access denied to this class")
          else
            let today := isoDate (now clock) in
            let startTime := now clock in
            let totalStudents := Student.countDocuments (students s) cid in
            let sessionDoc :=
              {| AttendanceSession.sessionId := sid;
                 AttendanceSession.classId := cid;
                 AttendanceSession.lecturerId := user_id user;
                 AttendanceSession.startTime := startTime;
                 AttendanceSession.endTime := None;
                 AttendanceSession.date := today;
                 AttendanceSession.totalStudents := totalStudents;
                 AttendanceSession.status := "active";
                 AttendanceSession.presentCount := 0;
                 AttendanceSession.absentCount := 0;
                 AttendanceSession.lateCount := 0 |} in
            let s1 := setSessions s (sessions s ++ [sessionDoc]) in
            let s2 := setActiveSessions s1
              (<[sid := {| as_classId := cid; as_lecturerId := user_id user;
                           as_date := today; as_createdAt := startTime |}]>
                 (activeSessions s1)) in
            (s2, SessionStarted sid cid today startTime)
      end
  end.

(** *** [markAttendance] *)

Definition LATE_THRESHOLD_MINUTES : Q := 5.
Definition MAX_CONSECUTIVE_LATE : nat := 3.

Record RecognizedStudent := {
  r_studentId : ObjectId;
  r_status : option string;
  r_time : option string;
  r_capturedOffline : option bool
}.

(** [(currentTime - sessionStartTime) / (1000 * 60)] *)
Definition minutesLate (currentTime sessionStartTime : Z) : Q :=
  (inject_Z (currentTime - sessionStartTime) / inject_Z (1000 * 60))%Q.

Definition isLate (currentTime sessionStartTime : Z) : bool :=
  Qlt_bool LATE_THRESHOLD_MINUTES (minutesLate currentTime sessionStartTime).

(** The loop over [previousAttendances]: count while the status is
    ['late'], break at the first other status. *)
Fixpoint countConsecutiveLate (previousAttendances : list Attendance.doc) : nat :=
  match previousAttendances with
  | [] => 0
  | a :: rest =>
      if (Attendance.status a =? "late")%string
      then S (countConsecutiveLate rest)
      else 0
  end.

(** The streak [markAttendance] starts from. *)
Definition consecutiveLateCount (coll : list Attendance.doc)
    (sid cid : ObjectId) (today : Z) : nat :=
  countConsecutiveLate (Attendance.findPrevious coll sid cid today).

(** "Determine final status": [(finalStatus, finalConsecutiveLateCount)]. *)
Definition determineFinalStatus (status : option string) (late : bool)
    (consecutiveLate : nat) : string * nat :=
  let finalStatus := orElse status "present" in
  let finalConsecutiveLateCount := consecutiveLate in
  if negb (truthy status) then
    if late then
      let finalConsecutiveLateCount := consecutiveLate + 1 in
      if MAX_CONSECUTIVE_LATE <=? finalConsecutiveLateCount
      then ("absent", 0)
      else ("late", finalConsecutiveLateCount)
    else ("present", 0)
  else if isValue status "present" && late then
    let finalConsecutiveLateCount := consecutiveLate + 1 in
    if MAX_CONSECUTIVE_LATE <=? finalConsecutiveLateCount
    then ("absent", 0)
    else ("late", finalConsecutiveLateCount)
  else if isValue status "present" && negb late then
    (finalStatus, 0)
  else (finalStatus, finalConsecutiveLateCount).

(** The body of the loop over [recognizedStudents], for one record.
    [clock] is the reading of [new Date()] in this iteration. *)
Definition markOne (s : Store) (user : User) (sessionId : string)
    (classId : ObjectId) (today : Z) (sessionStartTime : Z)
    (clock : Clock) (record : RecognizedStudent) : Store * MarkResult :=
  let studentId := r_studentId record in
  let currentTime := now clock in
  let late := isLate currentTime sessionStartTime in
  let consecutiveLate :=
    consecutiveLateCount (attendances s) studentId classId today in
  let '(finalStatus, finalConsecutiveLateCount) :=
    determineFinalStatus (r_status record) late consecutiveLate in
  let u :=
    {| Attendance.u_lecturerId := user_id user;
       Attendance.u_time := orElse (r_time record) (timeString clock);
       Attendance.u_lastScanTime := currentTime;
       Attendance.u_status := finalStatus;
       Attendance.u_consecutiveLateCount := finalConsecutiveLateCount;
       Attendance.u_capturedOffline := default false (r_capturedOffline record) |} in
  match Attendance.findOneAndUpdate (attendances s) (nextObjectId s)
          studentId classId today sessionId u with
  | Some (coll, attendance, inserted) =>
      (setAttendances s coll
         (if inserted then N.succ (nextObjectId s) else nextObjectId s),
       Saved studentId (Attendance._id attendance) late finalStatus
         finalConsecutiveLateCount)
  | None => (s, Failed studentId)
  end.

(** [for (const record of recognizedStudents)]; [clocks i] is the
    clock as read in iteration [i]. *)
Fixpoint markLoop (s : Store) (user : User) (sessionId : string)
    (classId : ObjectId) (today : Z) (sessionStartTime : Z)
    (clocks : nat -> Clock) (i : nat) (records : list RecognizedStudent)
    : Store * list MarkResult :=
  match records with
  | [] => (s, [])
  | record :: rest =>
      let '(s1, r) :=
        markOne s user sessionId classId today sessionStartTime (clocks i) record in
      let '(s2, rs) :=
        markLoop s1 user sessionId classId today sessionStartTime clocks (S i) rest in
      (s2, r :: rs)
  end.

Record MarkBody := {
  b_sessionId : option string;
  b_classId : option ObjectId;
  b_recognizedStudents : option (list RecognizedStudent)
}.

(** [clock0] is the clock when [today] is computed, [clocks] the clock
    in the iterations of the loop. *)
Definition markAttendance (s : Store) (user : User) (body : MarkBody)
    (clock0 : Clock) (clocks : nat -> Clock) : Store * Response :=
  match b_sessionId body, b_classId body, b_recognizedStudents body with
  | Some sessionId, Some classId, Some recognizedStudents =>
      if (sessionId =? "")%string then (s, Err 400 "Invalid request data")
      else
        match activeSessions s !! sessionId with
        | None => (s, Err 404 "Session not found or expired")
        | Some _ =>
            match AttendanceSession.findOne (sessions s) sessionId with
            | None => (s, Err 404 "Session document not found")
            | Some sessionDoc =>
                let today := isoDate (now clock0) in
                let '(s1, results) :=
                  markLoop s user sessionId classId today
                    (AttendanceSession.startTime sessionDoc) clocks 0
                    recognizedStudents in
                let s2 := addAuditLog s1
                  {| AuditLog.actorUserId := user_id user;
                     AuditLog.action := "MARK_ATTENDANCE";
                     AuditLog.sessionId := sessionId;
                     AuditLog.classId := Some classId;
                     AuditLog.count := Some (length recognizedStudents) |} in
                (s2, Marked results (length (List.filter isSaved results)))
            end
        end
  | _, _, _ => (s, Err 400 "Invalid request data")
  end.

(** Whether the record of a request passes the validators: the final
    status is the request's own unless it is missing or ['present']. *)
Definition savable (record : RecognizedStudent) : bool :=
  Attendance.runValidators (orElse (r_status record) "present").

(** The number of records stored under a key. *)
Definition count (s : Store) (sid cid : ObjectId) (d : Z) (sess : string) : nat :=
  length (Attendance.withKey (attendances s) sid cid d sess).

(** A store [s'] extends [s]: the sessions are the same, no key loses a
    record, and a key gains one only when it had none. *)
Definition extends (s s' : Store) : Prop :=
  activeSessions s' = activeSessions s
  /\ sessions s' = sessions s
  /\ forall sid cid d sess,
       count s sid cid d sess <= count s' sid cid d sess
       /\ count s' sid cid d sess <= max 1 (count s sid cid d sess).

(** A [POST /mark] request as the handler receives it, with the clock
    readings of its run. *)
Record MarkCall := {
  c_user : User;
  c_body : MarkBody;
  c_clock0 : Clock;
  c_clocks : nat -> Clock
}.

(** Requests served one after the other. *)
Fixpoint markCalls (s : Store) (calls : list MarkCall) : Store * list Response :=
  match calls with
  | [] => (s, [])
  | c :: rest =>
      let '(s1, r) := markAttendance s (c_user c) (c_body c) (c_clock0 c) (c_clocks c) in
      let '(s2, rs) := markCalls s1 rest in
      (s2, r :: rs)
  end.

(** *** [manualOverride] *)

Definition manualOverride (s : Store) (user : User)
    (attendanceId : option ObjectId) (status : option string)
    (remark : option string) : Store * Response :=
  match attendanceId with
  | None => (s, Err 400 "Attendance ID and status are required")
  | Some id =>
      if negb (truthy status)
      then (s, Err 400 "Attendance ID and status are required")
      else
        let st := orElse status "" in
        if negb (bool_decide (st ∈ Attendance.statusEnum))
        then (s, Err 400 "Invalid status")
        else
          match Attendance.findByIdAndUpdate (attendances s) id st remark with
          | None => (s, Err 404 "Attendance record not found")
          | Some (coll, attendance) =>
              let s1 := setAttendances s coll (nextObjectId s) in
              if bool_decide (role user = lecturer)
                 && negb (Attendance.lecturerId attendance =? user_id user)%N
              then (s1, Err 403 "Access denied")
              else (s1, Overridden attendance)
          end
  end.

(** *** [endSession] *)

Definition endSession (s : Store) (user : User) (sessionId : option string)
    (clock : Clock) : Store * Response :=
  if negb (truthy sessionId) then (s, Err 400 "Session ID is required")
  else
    let sid := orElse sessionId "" in
    match activeSessions s !! sid with
    | None => (s, Err 404 "Session not found")
    | Some session =>
        if negb (as_lecturerId session =? user_id user)%N
        then (s, Err 403 "Access denied")
        else
          let s1 :=
            match AttendanceSession.findOne (sessions s) sid with
            | Some sessionDoc =>
                let endTime := now clock in
                let presentCount := Attendance.countStatus (attendances s) sid "present" in
                let absentCount := Attendance.countStatus (attendances s) sid "absent" in
                let lateCount := Attendance.countStatus (attendances s) sid "late" in
                setSessions s (AttendanceSession.save (sessions s)
                  {| AttendanceSession.sessionId := AttendanceSession.sessionId sessionDoc;
                     AttendanceSession.classId := AttendanceSession.classId sessionDoc;
                     AttendanceSession.lecturerId := AttendanceSession.lecturerId sessionDoc;
                     AttendanceSession.startTime := AttendanceSession.startTime sessionDoc;
                     AttendanceSession.endTime := Some endTime;
                     AttendanceSession.date := AttendanceSession.date sessionDoc;
                     AttendanceSession.totalStudents := AttendanceSession.totalStudents sessionDoc;
                     AttendanceSession.status := "completed";
                     AttendanceSession.presentCount := presentCount;
                     AttendanceSession.absentCount := absentCount;
                     AttendanceSession.lateCount := lateCount |})
            | None => s
            end in
          let s2 := setActiveSessions s1 (delete sid (activeSessions s1)) in
          let s3 := addAuditLog s2
            {| AuditLog.actorUserId := user_id user;
               AuditLog.action := "END_SESSION";
               AuditLog.sessionId := sid;
               AuditLog.classId := Some (as_classId session);
               AuditLog.count := None |} in
          (s3, SessionEnded)
    end.

End Controller.

(* --------------------------------------------------------------------- *)
(** ** The specification's wording, for comparison with the code          *)
(* --------------------------------------------------------------------- *)


Module Spec.


End Spec.

(* --------------------------------------------------------------------- *)
(** ** More of the controllers                                            *)
(* --------------------------------------------------------------------- *)

(** The student an element of [results] is about. *)
Definition resultStudent (r : Controller.MarkResult) : ObjectId :=
  match r with
  | Controller.Saved studentId _ _ _ _ => studentId
  | Controller.Duplicate studentId => studentId
  | Controller.Failed studentId => studentId
  end.

(** [.sort(...)] with [before a b] when [a] must come before [b];
    documents that are not ordered keep their order. *)
Fixpoint insertBy {A} (before : A -> A -> bool) (x : A) (l : list A) : list A :=
  match l with
  | [] => [x]
  | y :: rest => if before y x then y :: insertBy before x rest else x :: l
  end.

Definition sortBy {A} (before : A -> A -> bool) (l : list A) : list A :=
  foldr (insertBy before) [] l.

(** What a read handler answers: an error, or the JSON of a success. *)
Inductive Answer (A : Type) :=
| Refused (code : Z) (error : string)
| Answered (payload : A).
Arguments Refused {A} code error.
Arguments Answered {A} payload.

(** The read handlers of [attendanceController.js].  Names that
    [populate] copies from other collections are not part of the rows. *)
Module Queries.
Import Controller.

(** A condition of a filter on an id: none, a value, or [{$in: [...]}]. *)
Inductive IdCond := AnyId | IdIs (id : ObjectId) | IdIn (ids : list ObjectId).

Definition idHolds (c : IdCond) (id : ObjectId) : bool :=
  match c with
  | AnyId => true
  | IdIs x => (id =? x)%N
  | IdIn ids => bool_decide (id ∈ ids)
  end.

(** [date: {$gte, $lte}] *)
Definition dateHolds (gte lte : option Z) (d : Z) : bool :=
  match gte with Some lo => (lo <=? d)%Z | None => true end
  && match lte with Some hi => (d <=? hi)%Z | None => true end.

(** The [query] object the handlers build for [Attendance.find]. *)
Record Filter := {
  f_classId : IdCond;
  f_studentId : IdCond;
  f_dateGte : option Z;
  f_dateLte : option Z
}.

Definition holds (q : Filter) (a : Attendance.doc) : bool :=
  idHolds (f_classId q) (Attendance.classId a)
  && idHolds (f_studentId q) (Attendance.studentId a)
  && dateHolds (f_dateGte q) (f_dateLte q) (Attendance.date a).

(** [sort({date: -1, time: -1})] *)
Definition laterFirst (a b : Attendance.doc) : bool :=
  (Attendance.date b <? Attendance.date a)%Z
  || ((Attendance.date a =? Attendance.date b)%Z
      && String.ltb (Attendance.time b) (Attendance.time a)).

(** [Class.find({lecturerId: user._id}).select('_id')], the ids. *)
Definition assignedClasses (s : Store) (user : User) : list ObjectId :=
  map Class._id
    (List.filter (fun c => (Class.lecturerId c =? user_id user)%N) (classes s)).

Definition optId (x : option ObjectId) : IdCond :=
  match x with Some id => IdIs id | None => AnyId end.

(** *** [getAttendanceHistory] *)

(** [req.query] *)
Record HistoryQuery := {
  h_classId : option ObjectId;
  h_dateFrom : option Z;
  h_dateTo : option Z;
  h_studentId : option ObjectId
}.

Definition findHistory (s : Store) (q : Filter) : list Attendance.doc :=
  take 1000 (sortBy laterFirst (List.filter (holds q) (attendances s))).

(** [linkedStudentId] is [req.user.linkedStudentId]. *)
Definition getAttendanceHistory (s : Store) (user : User)
    (linkedStudentId : option ObjectId) (q : HistoryQuery)
    : Answer (list Attendance.doc) :=
  let query classCond studentCond :=
    {| f_classId := classCond; f_studentId := studentCond;
       f_dateGte := h_dateFrom q; f_dateLte := h_dateTo q |} in
  match role user with
  | superadmin | admin =>
      Answered (findHistory s (query (optId (h_classId q)) (optId (h_studentId q))))
  | lecturer =>
      let classIds := assignedClasses s user in
      if length classIds =? 0 then Answered []
      else
        match h_classId q with
        | Some classId =>
            if negb (bool_decide (classId ∈ classIds))
            then Refused 403 "Access denied. You do not have access to this class."
            else Answered (findHistory s (query (IdIs classId) (optId (h_studentId q))))
        | None =>
            Answered (findHistory s (query (IdIn classIds) (optId (h_studentId q))))
        end
  | viewer =>
      match linkedStudentId with
      | None =>
          Refused 403
            "Your account is not linked to a student record. Contact administrator."
      | Some me =>
          Answered (findHistory s (query (optId (h_classId q)) (IdIs me)))
      end
  end.

(** *** [getSessionHistory] *)

Definition formatDuration (seconds : Z) : string :=
  if (seconds <? 60)%Z then pretty seconds +:+ "s"
  else
    let minutes := (seconds / 60)%Z in
    let secs := (seconds mod 60)%Z in
    if (minutes <? 60)%Z then pretty minutes +:+ "m " +:+ pretty secs +:+ "s"
    else
      let hours := (minutes / 60)%Z in
      let mins := (minutes mod 60)%Z in
      pretty hours +:+ "h " +:+ pretty mins +:+ "m".

(** [Math.round((endTime - startTime) / 1000)], or 0 without an end. *)
Definition durationSeconds (session : AttendanceSession.doc) : Z :=
  match AttendanceSession.endTime session with
  | Some endTime => ((endTime - AttendanceSession.startTime session + 500) / 1000)%Z
  | None => 0%Z
  end.

Record SessionRow := {
  row_sessionId : string;
  row_date : Z;
  row_classId : ObjectId;
  row_totalStudents : nat;
  row_presentCount : nat;
  row_absentCount : nat;
  row_lateCount : nat;
  row_startTime : Z;
  row_endTime : option Z;
  row_duration : string;
  row_durationSeconds : Z
}.

Definition withCounts (session : AttendanceSession.doc) (p a l : nat)
    : AttendanceSession.doc :=
  {| AttendanceSession.sessionId := AttendanceSession.sessionId session;
     AttendanceSession.classId := AttendanceSession.classId session;
     AttendanceSession.lecturerId := AttendanceSession.lecturerId session;
     AttendanceSession.startTime := AttendanceSession.startTime session;
     AttendanceSession.endTime := AttendanceSession.endTime session;
     AttendanceSession.date := AttendanceSession.date session;
     AttendanceSession.totalStudents := AttendanceSession.totalStudents session;
     AttendanceSession.status := AttendanceSession.status session;
     AttendanceSession.presentCount := p;
     AttendanceSession.absentCount := a;
     AttendanceSession.lateCount := l |}.

(** The function mapped over the sessions found: the counters are taken
    from the document, or counted again from the records when the
    session has no end or its [presentCount] is 0; counted again for an
    ended session, they are saved. *)
Definition sessionRow (s : Store) (session : AttendanceSession.doc)
    : Store * SessionRow :=
  let recount :=
    match AttendanceSession.endTime session with None => true | Some _ => false end
    || (AttendanceSession.presentCount session =? 0) in
  let sid := AttendanceSession.sessionId session in
  let presentCount :=
    if recount then Attendance.countStatus (attendances s) sid "present"
    else AttendanceSession.presentCount session in
  let absentCount :=
    if recount then Attendance.countStatus (attendances s) sid "absent"
    else AttendanceSession.absentCount session in
  let lateCount :=
    if recount then Attendance.countStatus (attendances s) sid "late"
    else AttendanceSession.lateCount session in
  let s1 :=
    if recount
    then match AttendanceSession.endTime session with
         | Some _ =>
             setSessions s (AttendanceSession.save (sessions s)
                              (withCounts session presentCount absentCount lateCount))
         | None => s
         end
    else s in
  let duration := durationSeconds session in
  (s1, {| row_sessionId := sid;
          row_date := AttendanceSession.date session;
          row_classId := AttendanceSession.classId session;
          row_totalStudents := AttendanceSession.totalStudents session;
          row_presentCount := presentCount;
          row_absentCount := absentCount;
          row_lateCount := lateCount;
          row_startTime := AttendanceSession.startTime session;
          row_endTime := AttendanceSession.endTime session;
          row_duration := formatDuration duration;
          row_durationSeconds := duration |}).

Fixpoint sessionRows (s : Store) (found : list AttendanceSession.doc)
    : Store * list SessionRow :=
  match found with
  | [] => (s, [])
  | session :: rest =>
      let '(s1, row) := sessionRow s session in
      let '(s2, rows) := sessionRows s1 rest in
      (s2, row :: rows)
  end.

Record SessionQuery := {
  sq_classId : option ObjectId;
  sq_startDate : option Z;
  sq_endDate : option Z
}.

(** The [query] on [AttendanceSession]: completed sessions, of the
    classes and of the lecturer asked for, in the range of days. *)
Definition sessionHolds (classCond lecturerCond : IdCond) (q : SessionQuery)
    (d : AttendanceSession.doc) : bool :=
  (AttendanceSession.status d =? "completed")%string
  && idHolds classCond (AttendanceSession.classId d)
  && idHolds lecturerCond (AttendanceSession.lecturerId d)
  && dateHolds (sq_startDate q) (sq_endDate q) (AttendanceSession.date d).

(** [sort({date: -1, startTime: -1})] *)
Definition laterSessionFirst (a b : AttendanceSession.doc) : bool :=
  (AttendanceSession.date b <? AttendanceSession.date a)%Z
  || ((AttendanceSession.date a =? AttendanceSession.date b)%Z
      && (AttendanceSession.startTime b <? AttendanceSession.startTime a)%Z).

Definition findSessions (s : Store) (classCond lecturerCond : IdCond)
    (q : SessionQuery) : list AttendanceSession.doc :=
  take 500 (sortBy laterSessionFirst
              (List.filter (sessionHolds classCond lecturerCond q) (sessions s))).

Definition getSessionHistory (s : Store) (user : User) (q : SessionQuery)
    : Store * Answer (list SessionRow) :=
  let answer classCond lecturerCond :=
    let '(s', rows) := sessionRows s (findSessions s classCond lecturerCond q) in
    (s', Answered rows) in
  match role user with
  | superadmin | admin => answer (optId (sq_classId q)) AnyId
  | lecturer =>
      let classIds := assignedClasses s user in
      if length classIds =? 0 then (s, Answered [])
      else
        match sq_classId q with
        | Some classId =>
            if negb (bool_decide (classId ∈ classIds))
            then (s, Refused 403 "Access denied. You do not have access to this class.")
            else answer (IdIs classId) (IdIs (user_id user))
        | None => answer (IdIn classIds) (IdIs (user_id user))
        end
  | viewer => (s, Answered [])
  end.

(** *** [getSessionDetails]: the list of students *)

(** One element of [studentAttendance]. *)
Record StudentRow := {
  sr_studentId : ObjectId;
  sr_status : string;
  sr_timestamp : option (Z * string);
  sr_time : option string;
  sr_lastScanTime : option Z;
  sr_consecutiveLateCount : nat;
  sr_remark : option string
}.

(** [x || null] on a string. *)
Definition orNull (x : option string) : option string :=
  match x with
  | Some r => if (r =? "")%string then None else Some r
  | None => None
  end.

(** [Attendance.find({sessionId}).sort({time: 1})] *)
Definition sessionRecords (s : Store) (sid : string) : list Attendance.doc :=
  sortBy (fun a b => String.ltb (Attendance.time a) (Attendance.time b))
    (List.filter (fun a => (Attendance.sessionId a =? sid)%string) (attendances s)).

(** [attendanceMap]: each record is [set] under its student, in turn. *)
Definition attendanceMap (records : list Attendance.doc) : gmap N Attendance.doc :=
  fold_left (fun m record => <[Attendance.studentId record := record]> m) records ∅.

(** The map over [allStudents]. *)
Definition studentAttendance (records : list Attendance.doc)
    (allStudents : list Student.doc) : list StudentRow :=
  map (fun student =>
         match attendanceMap records !! Student._id student with
         | Some record =>
             {| sr_studentId := Student._id student;
                sr_status := Attendance.status record;
                sr_timestamp := Some (Attendance.date record, Attendance.time record);
                sr_time := Some (Attendance.time record);
                sr_lastScanTime := Some (Attendance.lastScanTime record);
                sr_consecutiveLateCount := Attendance.consecutiveLateCount record;
                sr_remark := orNull (Attendance.remark record) |}
         | None =>
             {| sr_studentId := Student._id student;
                sr_status := "absent"; sr_timestamp := None;
                sr_time := None; sr_lastScanTime := None;
                sr_consecutiveLateCount := 0; sr_remark := None |}
         end) allStudents.

(** [studentAttendance] as [getSessionDetails] computes it for a session
    document.  The records and the session are populated: the student of
    a record that is not in the collection is [null], and
    [r.studentId._id] throws (the request ends in the error handler,
    [None] here); with a class that is not in the collection
    [session.classId] is [null], and no student has that class. *)
Definition sessionStudents (s : Store) (session : AttendanceSession.doc)
    : option (list StudentRow) :=
  let attendanceRecords := sessionRecords s (AttendanceSession.sessionId session) in
  let allStudents :=
    match Class.findById (classes s) (AttendanceSession.classId session) with
    | Some _ =>
        List.filter
          (fun st => (Student.classId st =? AttendanceSession.classId session)%N)
          (students s)
    | None => []
    end in
  if forallb (fun r => bool_decide (Attendance.studentId r
                                    ∈ map Student._id (students s)))
       attendanceRecords
  then Some (studentAttendance attendanceRecords allStudents)
  else None.

(** *** [getCalendarAttendance]: the counts *)

Record DayCount := { present : nat; late : nat; absent : nat }.

(** [byDate] with [totalPresent], [totalLate] and [totalAbsent]. *)
Record Calendar := {
  byDate : gmap Z DayCount;
  totalPresent : nat;
  totalLate : nat;
  totalAbsent : nat
}.

(** The body of [attendance.forEach]. *)
Definition countRecord (c : Calendar) (rec : Attendance.doc) : Calendar :=
  let d := Attendance.date rec in
  let day := default {| present := 0; late := 0; absent := 0 |} (byDate c !! d) in
  let st := if (Attendance.status rec =? "")%string then "present"
            else Attendance.status rec in
  if (st =? "present")%string || (st =? "excused")%string then
    {| byDate := <[d := {| present := present day + 1; late := late day;
                           absent := absent day |}]> (byDate c);
       totalPresent := totalPresent c + 1; totalLate := totalLate c;
       totalAbsent := totalAbsent c |}
  else if (st =? "late")%string then
    {| byDate := <[d := {| present := present day; late := late day + 1;
                           absent := absent day |}]> (byDate c);
       totalPresent := totalPresent c; totalLate := totalLate c + 1;
       totalAbsent := totalAbsent c |}
  else
    {| byDate := <[d := {| present := present day; late := late day;
                           absent := absent day + 1 |}]> (byDate c);
       totalPresent := totalPresent c; totalLate := totalLate c;
       totalAbsent := totalAbsent c + 1 |}.

Definition countCalendar (attendance : list Attendance.doc) : Calendar :=
  fold_left countRecord attendance
    {| byDate := ∅; totalPresent := 0; totalLate := 0; totalAbsent := 0 |}.

(** The three branches of the body, as tests on the stored status:
    [rec.status || 'present'] is ['present'] for a missing status. *)
Definition countedPresent (r : Attendance.doc) : bool :=
  bool_decide (Attendance.status r ∈ [""; "present"; "excused"]).
Definition countedLate (r : Attendance.doc) : bool :=
  bool_decide (Attendance.status r = "late").
Definition countedAbsent (r : Attendance.doc) : bool :=
  bool_decide (Attendance.status r ∉ [""; "present"; "excused"; "late"]).

(** The number of records of the day [d] that pass [test]. *)
Definition onDay (d : Z) (test : Attendance.doc -> bool)
    (attendance : list Attendance.doc) : nat :=
  length (List.filter (fun r => (Attendance.date r =? d)%Z && test r) attendance).

End Queries.

(* --------------------------------------------------------------------- *)
(** ** [livenessChallenges.js]                                            *)
(* --------------------------------------------------------------------- *)

Module Liveness.

Record Point := { x : Q; y : Q }.

(** [detection.detection.box] *)
Record Box := { box_x : Q; box_y : Q; width : Q; height : Q }.

(** The landmark accessors of the provider.  A list is the array the
    accessor returns (empty when it returns nothing); [getMouth] is
    [None] when the accessor is absent ([getMouth?.()]), [positions]
    when the property is. *)
Record Landmarks := {
  getLeftEye : list Point;
  getRightEye : list Point;
  getNose : list Point;
  getMouth : option (list Point);
  positions : option (list Point)
}.

Record Detection := { box : Box; landmarks : option Landmarks }.

Inductive ChallengeType := blink | head_left | smile | unknown.

#[export] Instance ChallengeType_eq_dec : EqDecision ChallengeType.
Proof. solve_decision. Defined.

Record Challenge := { type : ChallengeType; label : string; requiredCount : nat }.

Definition CHALLENGES : list Challenge :=
  [ {| type := blink; label := "Blink Twice"; requiredCount := 2 |};
    {| type := head_left; label := "Turn Head Left"; requiredCount := 1 |};
    {| type := smile; label := "Smile"; requiredCount := 1 |} ].

(** *** Blink *)

Definition EAR_OPEN_THRESHOLD : Q := 0.25.
Definition EAR_CLOSED_THRESHOLD : Q := 0.18.
Definition BLINK_DEBOUNCE_FRAMES : Z := 3.

Definition calculateEAR (eyePoints : list Point) : Q :=
  match eyePoints with
  | p0 :: p1 :: p2 :: p3 :: p4 :: p5 :: _ =>
      let vertical1 := Qabs (y p1 - y p5) in
      let vertical2 := Qabs (y p2 - y p4) in
      let h := Qabs (x p0 - x p3) in
      let horizontal := if Qeq_bool h 0 then 1 else h in
      (vertical1 + vertical2) / (2 * horizontal)
  | _ => 1
  end%Q.

Record BlinkState := {
  blinkCount : nat;
  wasClosed : bool;
  closedFrameCount : nat;
  lastBlinkFrame : Z
}.

(** The state of a new detector, and after [reset]. *)
Definition blinkInit : BlinkState :=
  {| blinkCount := 0; wasClosed := false; closedFrameCount := 0;
     lastBlinkFrame := - BLINK_DEBOUNCE_FRAMES - 1 |}.

Definition avgEAR (landmarks : Landmarks) : Q :=
  ((calculateEAR (getLeftEye landmarks) + calculateEAR (getRightEye landmarks)) / 2)%Q.

Definition isClosed (ear : Q) : bool := Qlt_bool ear EAR_CLOSED_THRESHOLD.
Definition isOpen (ear : Q) : bool := Qlt_bool EAR_OPEN_THRESHOLD ear.

(** The state after [update], from the average EAR of the frame. *)
Definition blinkStep (s : BlinkState) (ear : Q) (frameIndex : Z) : BlinkState :=
  if isClosed ear then
    {| blinkCount := blinkCount s; wasClosed := true;
       closedFrameCount := closedFrameCount s + 1;
       lastBlinkFrame := lastBlinkFrame s |}
  else if isOpen ear && wasClosed s then
    let framesSinceLastBlink := (frameIndex - lastBlinkFrame s)%Z in
    if (2 <=? closedFrameCount s) && (BLINK_DEBOUNCE_FRAMES <? framesSinceLastBlink)%Z
    then {| blinkCount := blinkCount s + 1; wasClosed := false;
            closedFrameCount := 0; lastBlinkFrame := frameIndex |}
    else {| blinkCount := blinkCount s; wasClosed := false;
            closedFrameCount := 0; lastBlinkFrame := lastBlinkFrame s |}
  else if isOpen ear then
    {| blinkCount := blinkCount s; wasClosed := false;
       closedFrameCount := 0; lastBlinkFrame := lastBlinkFrame s |}
  else s.

(** [blinkDetector.update(landmarks, frameIndex)]: the new state and
    [{blinkCount, avgEAR}]. *)
Definition blinkUpdate (s : BlinkState) (landmarks : Landmarks) (frameIndex : Z)
    : BlinkState * (nat * Q) :=
  let ear := avgEAR landmarks in
  let s' := blinkStep s ear frameIndex in
  (s', (blinkCount s', ear)).

(** The detector fed a sequence of frames. *)
Definition blinkRun (s : BlinkState) (frames : list (Landmarks * Z)) : BlinkState :=
  fold_left (fun st fr => (blinkUpdate st fr.1 fr.2).1) frames s.



(** *** Head turn *)

Definition HEAD_TURN_THRESHOLD_RATIO : Q := 0.12.

(** [Math.max] on two numbers. *)
Definition Math_max (a b : Q) : Q := if Qle_bool a b then b else a.

(** [nose[3] || nose[0]]: [None] on the empty array only. *)
Definition noseTipOf (nose : list Point) : option Point :=
  match nose !! 3%nat with
  | Some p => Some p
  | None => nose !! 0%nat
  end.

Definition checkHeadTurnLeft (landmarks : Landmarks) (faceBox : Box) : bool :=
  match noseTipOf (getNose landmarks) with
  | None => false
  | Some noseTip =>
      let noseX := x noseTip in
      let faceCenterX := (box_x faceBox + width faceBox / 2)%Q in
      let threshold := Math_max 30 (width faceBox * HEAD_TURN_THRESHOLD_RATIO)%Q in
      let diff := (noseX - faceCenterX)%Q in
      Qle_bool threshold diff
  end.

(** *** Smile *)

Definition SMILE_EXPANSION_RATIO : Q := 1.15.
Definition MOUTH_CORNER_LEFT : nat := 0.
Definition MOUTH_CORNER_RIGHT : nat := 6.

(** A quotient of two numbers as JavaScript gives it: dividing by zero
    gives an infinity, or NaN for 0/0. *)
Inductive Quotient := Finite (q : Q) | PlusInfinity | MinusInfinity | NaN.

Definition divide (a b : Q) : Quotient :=
  if Qeq_bool b 0 then
    if Qlt_bool 0 a then PlusInfinity
    else if Qlt_bool a 0 then MinusInfinity else NaN
  else Finite (a / b).

(** [q >= c] *)
Definition atLeast (q : Quotient) (c : Q) : bool :=
  match q with
  | Finite v => Qle_bool c v
  | PlusInfinity => true
  | MinusInfinity | NaN => false
  end.

Section Hypot.
(** [Math.hypot], whose values are not rational in general. *)
Variable hypot : Q -> Q -> Q.

Definition getMouthWidth (landmarks : Landmarks) : option Q :=
  let fromMouth :=
    match getMouth landmarks with
    | Some mouth =>
        if 7 <=? length mouth then
          match mouth !! MOUTH_CORNER_LEFT, mouth !! MOUTH_CORNER_RIGHT with
          | Some left_, Some right_ =>
              Some (hypot (x right_ - x left_) (y right_ - y left_))
          | _, _ => None
          end
        else None
    | None => None
    end in
  match fromMouth with
  | Some w => Some w
  | None =>
      match positions landmarks with
      | Some pos =>
          if 54 <? length pos then
            match pos !! 48%nat, pos !! 54%nat with
            | Some left_, Some right_ =>
                Some (hypot (x right_ - x left_) (y right_ - y left_))
            | _, _ => None
            end
          else None
      | None => None
      end
  end.

(** The smile detector's [neutralMouthWidth]. *)
Definition SmileState := option Q.

Definition smileInit : SmileState := None.

(** [smileDetector.update(landmarks)] *)
Definition smileUpdate (neutralMouthWidth : SmileState) (landmarks : Landmarks)
    : SmileState * bool :=
  match getMouthWidth landmarks with
  | None => (neutralMouthWidth, false)
  | Some mouthWidth =>
      match neutralMouthWidth with
      | None => (Some mouthWidth, false)
      | Some neutral =>
          let expansionRatio := divide mouthWidth neutral in
          (neutralMouthWidth, atLeast expansionRatio SMILE_EXPANSION_RATIO)
      end
  end.


(** *** The challenge runner *)

Record Runner := {
  challengeType : ChallengeType;
  blinkDetector : BlinkState;
  smileDetector : SmileState
}.

Definition createChallengeRunner (t : ChallengeType) : Runner :=
  {| challengeType := t; blinkDetector := blinkInit; smileDetector := smileInit |}.

Definition reset (r : Runner) : Runner :=
  {| challengeType := challengeType r; blinkDetector := blinkInit;
     smileDetector := smileInit |}.

(** [{passed, progress, required}]; [required] is absent on a
    detection without landmarks. *)
Record Result := { passed : bool; progress : nat; required : option nat }.

Definition run (r : Runner) (detection : Detection) (frameIndex : Z)
    : Runner * Result :=
  match landmarks detection with
  | None => (r, {| passed := false; progress := 0; required := None |})
  | Some lm =>
      let faceBox := box detection in
      match challengeType r with
      | blink =>
          let '(b, (count, _)) := blinkUpdate (blinkDetector r) lm frameIndex in
          let req :=
            match List.find (fun c => bool_decide (type c = blink)) CHALLENGES with
            | Some c => requiredCount c
            | None => 2
            end in
          ({| challengeType := challengeType r; blinkDetector := b;
              smileDetector := smileDetector r |},
           {| passed := req <=? count; progress := min count req;
              required := Some req |})
      | head_left =>
          let p := checkHeadTurnLeft lm faceBox in
          (r, {| passed := p; progress := if p then 1 else 0; required := Some 1 |})
      | smile =>
          let '(sm, p) := smileUpdate (smileDetector r) lm in
          ({| challengeType := challengeType r; blinkDetector := blinkDetector r;
              smileDetector := sm |},
           {| passed := p; progress := if p then 1 else 0; required := Some 1 |})
      | unknown =>
          (r, {| passed := false; progress := 0; required := Some 1 |})
      end
  end.
End Hypot.

End Liveness.

(** The wording of the specification for the blink detector (Section
    4.1 and the claim drawn from it): closed at or below 0.18, open at or
    above 0.25, a blink counted on closed-to-open after at least 2 closed
    frames when at least 3 frames have elapsed since the last one. *)
Module SpecBlink.
Import Liveness.

Definition isClosed (ear : Q) : bool := Qle_bool ear 0.18.
Definition isOpen (ear : Q) : bool := Qle_bool 0.25 ear.

Definition step (s : BlinkState) (ear : Q) (frameIndex : Z) : BlinkState :=
  if isClosed ear then
    {| blinkCount := blinkCount s; wasClosed := true;
       closedFrameCount := closedFrameCount s + 1;
       lastBlinkFrame := lastBlinkFrame s |}
  else if isOpen ear then
    if wasClosed s && (2 <=? closedFrameCount s)
       && (3 <=? frameIndex - lastBlinkFrame s)%Z
    then {| blinkCount := blinkCount s + 1; wasClosed := false;
            closedFrameCount := 0; lastBlinkFrame := frameIndex |}
    else {| blinkCount := blinkCount s; wasClosed := false;
            closedFrameCount := 0; lastBlinkFrame := lastBlinkFrame s |}
  else s.

Definition run (s : BlinkState) (frames : list (Q * Z)) : BlinkState :=
  fold_left (fun st fr => step st fr.1 fr.2) frames s.
End SpecBlink.

(** The wording of the specification for the smile test: "pass when
    currentWidth / neutralWidth ≥ 1.15".  Over a zero baseline the
    quotient of a positive width is +∞, and 0/0 is not a number. *)
Module SpecSmile.
End SpecSmile.

(* --------------------------------------------------------------------- *)
(** ** [livenessChallenges.js]: the choice of a challenge, an attempt     *)
(* --------------------------------------------------------------------- *)

Module Challenges.
Import Liveness.


(** [detection?.landmarks] is there. *)
Definition hasLandmarks (fr : Detection * Z) : bool :=
  match landmarks fr.1 with Some _ => true | None => false end.

(** The frames of a sequence on which the eyes are closed, and open. *)
Definition closedFrames (frames : list (Landmarks * Z)) : nat :=
  length (List.filter (fun fr => isClosed (avgEAR fr.1)) frames).
Definition openFrames (frames : list (Landmarks * Z)) : nat :=
  length (List.filter (fun fr => isOpen (avgEAR fr.1)) frames).

Section Hypot.
Variable hypot : Q -> Q -> Q.

(** A runner called on the detections of an attempt, each with its
    frame index: the runner after them, and what each call returned. *)
Fixpoint runFrames (r : Runner) (frames : list (Detection * Z))
    : Runner * list Result :=
  match frames with
  | [] => (r, [])
  | fr :: rest =>
      let '(r1, result) := run hypot r fr.1 fr.2 in
      let '(r2, results) := runFrames r1 rest in
      (r2, result :: results)
  end.
End Hypot.

End Challenges.

(* --------------------------------------------------------------------- *)
(** ** [LivenessChallenge.jsx]                                            *)
(* --------------------------------------------------------------------- *)

(** The component runs on one event loop: nothing interleaves inside a
    callback, and the callbacks the browser may run next are the events
    below.  Each run of the detection effect creates its own closure
    [runDetection], with the [status] of the render that created it and
    its own [lastRun] and [rafId]; the effect runs again when [status]
    changes ([videoRef] and [onSuccess] are taken as stable).  The effects
    are re-run as soon as the callback that changed [status] returns,
    which is the earliest their cleanup can run. *)
Module LivenessChallenge.
Import Liveness.

Definition CHALLENGE_TIMEOUT_SEC : Z := 6.
Definition DETECTION_INTERVAL_MS : Q := 80.

Inductive Status := detecting | success | failed.

#[export] Instance Status_eq_dec : EqDecision Status.
Proof. solve_decision. Defined.

(** Where the closure of one run of the detection effect stands. *)
Inductive Phase :=
| Scheduled   (** [requestAnimationFrame(runDetection)] is pending *)
| Awaiting    (** inside [await detectFaceWithLandmarks(...)] *)
| Returned    (** [runDetection] returned without asking for a frame *)
| Cancelled.  (** the pending frame was cancelled by the cleanup *)

#[export] Instance Phase_eq_dec : EqDecision Phase.
Proof. solve_decision. Defined.

Record Loop := {
  closureStatus : Status;
  lastRun : Q;
  phase : Phase
}.

(** What the surroundings of the component see it do. *)
Inductive Action :=
| ProviderCall (shown : Status)   (** [detectFaceWithLandmarks] called *)
| DetectorRun (shown : Status)    (** [runnerRef.current.run] called *)
| OnSuccess
| OnFail
| OnRetry.

#[export] Instance Action_eq_dec : EqDecision Action.
Proof. solve_decision. Defined.

Section Component.
Variable hypot : Q -> Q -> Q.

Record Component := {
  challenge : Challenge;
  (* state *)
  status : Status;
  timeLeft : Z;
  progress : nat * nat;
  noFaceCount : nat;
  (* refs *)
  frameRef : Z;
  timerRef : bool;              (** an interval is running *)
  runnerRef : option Runner;
  videoRef : bool;              (** [videoRef.current] is set *)
  (* the runs of the detection effect, oldest first *)
  loops : list Loop;
  (* what was done so far, oldest first *)
  actions : list Action
}.

Definition requiredOf (c : Challenge) : nat :=
  if requiredCount c =? 0 then 1 else requiredCount c.

(** The cleanup of the current run of the detection effect,
    [cancelAnimationFrame(rafId)]: it removes a pending frame, and
    does nothing to a closure that is awaiting the provider. *)
Definition cleanupLoop (l : Loop) : Loop :=
  match phase l with
  | Scheduled => {| closureStatus := closureStatus l; lastRun := lastRun l;
                    phase := Cancelled |}
  | _ => l
  end.

Fixpoint cleanupLast (ls : list Loop) : list Loop :=
  match ls with
  | [] => []
  | [l] => [cleanupLoop l]
  | l :: rest => l :: cleanupLast rest
  end.

(** The effects that depend on [status], re-run after it changed from
    [before]: the countdown is cleared and restarted when detecting;
    the detection effect is cleaned up and started anew, with the
    new [status] in its closure. *)
Definition rerunEffects (before : Status) (c : Component) : Component :=
  if bool_decide (status c = before) then c
  else
    {| challenge := challenge c; status := status c; timeLeft := timeLeft c;
       progress := progress c; noFaceCount := noFaceCount c;
       frameRef := frameRef c;
       timerRef := bool_decide (status c = detecting);
       runnerRef := runnerRef c; videoRef := videoRef c;
       loops := cleanupLast (loops c)
                ++ [ {| closureStatus := status c; lastRun := 0;
                        phase := Scheduled |} ];
       actions := actions c |}.

(** The component after its first render and effects. *)
Definition mount (ch : Challenge) (video : bool) : Component :=
  {| challenge := ch; status := detecting; timeLeft := CHALLENGE_TIMEOUT_SEC;
     progress := (0, requiredOf ch); noFaceCount := 0;
     frameRef := 0; timerRef := true;
     runnerRef := Some (reset (createChallengeRunner (type ch)));
     videoRef := video;
     loops := [ {| closureStatus := detecting; lastRun := 0; phase := Scheduled |} ];
     actions := [] |}.

Definition setLoop (c : Component) (i : nat) (l : Loop) (frame : Z)
    (acts : list Action) : Component :=
  {| challenge := challenge c; status := status c; timeLeft := timeLeft c;
     progress := progress c; noFaceCount := noFaceCount c;
     frameRef := frame; timerRef := timerRef c;
     runnerRef := runnerRef c; videoRef := videoRef c;
     loops := <[i := l]> (loops c);
     actions := actions c ++ acts |}.

(** [runDetection] of run [i] up to its [await], called by the browser
    at [now] for the frame it had asked. *)
Definition animationFrame (c : Component) (i : nat) (now : Q) : Component :=
  match loops c !! i with
  | Some l =>
      if negb (bool_decide (phase l = Scheduled)) then c
      else if negb (bool_decide (closureStatus l = detecting))
              || negb (videoRef c)
              || negb (bool_decide (is_Some (runnerRef c)))
      then c
      else if Qlt_bool (now - lastRun l) DETECTION_INTERVAL_MS then c
      else
        setLoop c i
          {| closureStatus := closureStatus l; lastRun := now; phase := Awaiting |}
          (frameRef c + 1)
          [ProviderCall (status c)]
  | None => c
  end.

(** [runDetection] of run [i] from its [await] on, when the provider
    answers [detection]. *)
Definition detectionResolved (c : Component) (i : nat)
    (detection : option Detection) : Component :=
  match loops c !! i with
  | Some l =>
      if negb (bool_decide (phase l = Awaiting)) then c
      else
        let again :=
          {| closureStatus := closureStatus l; lastRun := lastRun l;
             phase := Scheduled |} in
        match detection, runnerRef c with
        | None, _ =>
            {| challenge := challenge c; status := status c;
               timeLeft := timeLeft c; progress := progress c;
               noFaceCount := noFaceCount c + 1;
               frameRef := frameRef c; timerRef := timerRef c;
               runnerRef := runnerRef c; videoRef := videoRef c;
               loops := <[i := again]> (loops c);
               actions := actions c |}
        | Some d, None =>
            (* [runnerRef.current.run] throws; the error is caught and
               logged, and the next frame is asked for *)
            {| challenge := challenge c; status := status c;
               timeLeft := timeLeft c; progress := progress c;
               noFaceCount := 0;
               frameRef := frameRef c; timerRef := timerRef c;
               runnerRef := runnerRef c; videoRef := videoRef c;
               loops := <[i := again]> (loops c);
               actions := actions c |}
        | Some d, Some runner =>
            let '(runner', result) := run hypot runner d (frameRef c) in
            let shown := (Liveness.progress result,
                          default 1 (required result)) in
            if passed result then
              rerunEffects (status c)
                {| challenge := challenge c; status := success;
                   timeLeft := timeLeft c; progress := shown;
                   noFaceCount := 0;
                   frameRef := frameRef c; timerRef := false;
                   runnerRef := Some runner'; videoRef := videoRef c;
                   loops := <[i := {| closureStatus := closureStatus l;
                                      lastRun := lastRun l;
                                      phase := Returned |}]> (loops c);
                   actions := actions c ++ [DetectorRun (status c); OnSuccess] |}
            else
              {| challenge := challenge c; status := status c;
                 timeLeft := timeLeft c; progress := shown;
                 noFaceCount := 0;
                 frameRef := frameRef c; timerRef := timerRef c;
                 runnerRef := Some runner'; videoRef := videoRef c;
                 loops := <[i := again]> (loops c);
                 actions := actions c ++ [DetectorRun (status c)] |}
        end
  | None => c
  end.

(** The callback of the one-second interval. *)
Definition tick (c : Component) : Component :=
  if negb (timerRef c) then c
  else if (timeLeft c <=? 1)%Z then
    rerunEffects (status c)
      {| challenge := challenge c; status := failed; timeLeft := 0;
         progress := progress c; noFaceCount := noFaceCount c;
         frameRef := frameRef c; timerRef := false;
         runnerRef := runnerRef c; videoRef := videoRef c;
         loops := loops c; actions := actions c |}
  else
    {| challenge := challenge c; status := status c;
       timeLeft := timeLeft c - 1;
       progress := progress c; noFaceCount := noFaceCount c;
       frameRef := frameRef c; timerRef := timerRef c;
       runnerRef := runnerRef c; videoRef := videoRef c;
       loops := loops c; actions := actions c |}.

(** [handleRetry]; the button is there only when [status] is
    ['failed']. *)
Definition handleRetry (c : Component) : Component :=
  if negb (bool_decide (status c = failed)) then c
  else
    rerunEffects (status c)
      {| challenge := challenge c; status := detecting;
         timeLeft := CHALLENGE_TIMEOUT_SEC;
         progress := (0, requiredOf (challenge c)); noFaceCount := 0;
         frameRef := 0; timerRef := timerRef c;
         runnerRef := reset <$> runnerRef c; videoRef := videoRef c;
         loops := loops c; actions := actions c ++ [OnRetry] |}.

(** [handleCancel], likewise. *)
Definition handleCancel (c : Component) : Component :=
  if negb (bool_decide (status c = failed)) then c
  else
    {| challenge := challenge c; status := status c; timeLeft := timeLeft c;
       progress := progress c; noFaceCount := noFaceCount c;
       frameRef := frameRef c; timerRef := timerRef c;
       runnerRef := runnerRef c; videoRef := videoRef c;
       loops := loops c; actions := actions c ++ [OnFail] |}.

(** What the browser can run next. *)
Inductive Event :=
| AnimationFrame (i : nat) (now : Q)
| DetectionResolved (i : nat) (detection : option Detection)
| Tick
| ClickRetry
| ClickCancel.

Definition step (c : Component) (e : Event) : Component :=
  match e with
  | AnimationFrame i now => animationFrame c i now
  | DetectionResolved i d => detectionResolved c i d
  | Tick => tick c
  | ClickRetry => handleRetry c
  | ClickCancel => handleCancel c
  end.

Definition steps (c : Component) (es : list Event) : Component :=
  fold_left step es c.

(** What was done after the first [OnSuccess]. *)
Fixpoint afterSuccess (acts : list Action) : list Action :=
  match acts with
  | [] => []
  | OnSuccess :: rest => rest
  | _ :: rest => afterSuccess rest
  end.

(** A run of the detection effect that can still reach the provider
    or the detector: it awaits the provider, or it has a frame
    pending and ['detecting'] in its closure. *)
Definition live (l : Loop) : bool :=
  bool_decide (phase l = Awaiting)
  || (bool_decide (closureStatus l = detecting)
      && bool_decide (phase l = Scheduled)).

(** No run of the detection effect is live, and no countdown runs. *)
Definition quiet (c : Component) : Prop :=
  timerRef c = false /\ forall l, l ∈ loops c -> live l = false.
End Component.

End LivenessChallenge.

(* --------------------------------------------------------------------- *)
(** ** [LivenessChallenge.jsx]: what a sequence of callbacks did          *)
(* --------------------------------------------------------------------- *)

Module Callbacks.
Import Liveness LivenessChallenge.

Definition isTick (e : Event) : bool :=
  match e with Tick => true | _ => false end.

(** The number of times the interval's callback ran. *)
Definition ticks (es : list Event) : nat := length (List.filter isTick es).

(** What the countdown has come to after [n] ticks: it runs exactly
    while the component is detecting, and shows the seconds left. *)
Definition counted (c : Component) (n : nat) : Prop :=
  (timerRef c = true -> status c = detecting)
  /\ (status c = detecting ->
      timerRef c = true /\ timeLeft c = (CHALLENGE_TIMEOUT_SEC - Z.of_nat n)%Z
      /\ n < 6)
  /\ (status c = failed -> 6 <= n).




Section Component.
Variable hypot : Q -> Q -> Q.

(** The instants [now] of the frames at which run [i] of the detection
    effect went past the throttle and called the provider. *)
Fixpoint providerCalls (c : Component) (es : list Event) (i : nat) : list Q :=
  match es with
  | [] => []
  | e :: rest =>
      let c' := step hypot c e in
      match e with
      | AnimationFrame j now =>
          if bool_decide (j = i) && (length (actions c) <? length (actions c'))
          then now :: providerCalls c' rest i
          else providerCalls c' rest i
      | _ => providerCalls c' rest i
      end
  end.
End Component.

End Callbacks.

(* --------------------------------------------------------------------- *)
(** ** [AttendanceCalendar.jsx]: the colour of a day                      *)
(* --------------------------------------------------------------------- *)

Module AttendanceCalendar.
Import Queries.

(** [getTileClassName({date, view})], with [byDate] as the server sent
    it; [str] is the key that the function builds from [date], and
    [month] says that [view] is ['month']. *)
Definition getTileClassName (byDate : gmap Z DayCount) (month : bool) (str : Z)
    : string :=
  if negb month then ""
  else
    match byDate !! str with
    | None => ""
    | Some data =>
        if (present data =? 0) && (late data =? 0) && (absent data =? 0) then ""
        else if 0 <? absent data then "!bg-red-500 !text-white"
        else if 0 <? late data then "!bg-yellow-400 !text-gray-900"
        else "!bg-green-500 !text-white"
    end.

End AttendanceCalendar.

(* --------------------------------------------------------------------- *)
(** ** A school, a session and a few requests, to run the handlers on     *)
(* --------------------------------------------------------------------- *)

Module Demo.
Import Controller.

Definition lecturerA : User := {| user_id := 10; role := lecturer |}.
Definition lecturerB : User := {| user_id := 11; role := lecturer |}.

Definition clockAt (ms : Z) : Clock := {| now := ms; timeString := "09:00:00" |}.

Definition minute : Z := 60000.
Definition day : Z := 86400000.

(** The instant the session starts; its UTC day is day 20023. *)
Definition T0 : Z := 1730000000000.

(** Class 1 of lecturer A, with the students 7 and 8. *)
Definition school : Store :=
  {| activeSessions := ∅; sessions := []; attendances := [];
     classes := [ {| Class._id := 1; Class.lecturerId := 10 |} ];
     students := [ {| Student._id := 7; Student.classId := 1 |};
                   {| Student._id := 8; Student.classId := 1 |} ];
     auditLogs := []; nextObjectId := 100 |}.

Definition session1 : string := "1730000000000-k3j9x2m1q".

Definition started : Store :=
  (startSession school lecturerA (Some 1%N) (clockAt T0) session1).1.

Definition scan (student : ObjectId) (status : option string) : RecognizedStudent :=
  {| r_studentId := student; r_status := status; r_time := None;
     r_capturedOffline := None |}.

(** A request of lecturer A for session 1, served at the instant [ms]. *)
Definition markAt (ms : Z) (records : list RecognizedStudent) : MarkCall :=
  {| c_user := lecturerA;
     c_body := {| b_sessionId := Some session1; b_classId := Some 1%N;
                  b_recognizedStudents := Some records |};
     c_clock0 := clockAt ms;
     c_clocks := fun _ => clockAt ms |}.

(** Student 7 scanned twice, student 8 once, in one session. *)
Definition twoFrames : list MarkCall :=
  [ markAt (T0 + 4 * minute) [scan 7 None];
    markAt (T0 + 6 * minute) [scan 7 None; scan 8 None] ].


(** Student 7 scanned on time by lecturer A. *)
Definition oneRecord : Store :=
  (markCalls started [ markAt (T0 + minute) [scan 7 None] ]).1.

(** Class 2 of lecturer B has no student. *)
Definition emptyClass : Store :=
  {| activeSessions := ∅; sessions := []; attendances := [];
     classes := [ {| Class._id := 2; Class.lecturerId := 11 |} ];
     students := []; auditLogs := []; nextObjectId := 100 |}.

(** Session 1 ended by its lecturer. *)
Definition ended : Store :=
  (endSession started lecturerA (Some session1) (clockAt (T0 + 50 * minute))).1.

(** *** Faces *)

Import Liveness.

Definition pt (px py : Q) : Point := {| x := px; y := py |}.

(** An eye one unit wide whose lids are [ear] apart: its EAR is [ear]. *)
Definition eye (ear : Q) : list Point :=
  [ pt 0 0; pt 0.25 ear; pt 0.75 ear; pt 1 0; pt 0.75 0; pt 0.25 0 ].

(** A face whose two eyes have the given EAR, with the nose tip at
    [noseX] and mouth corners [mouth] apart on a horizontal line. *)
Definition face (ear noseX mouth : Q) : Landmarks :=
  {| getLeftEye := eye ear; getRightEye := eye ear;
     getNose := [ pt noseX 80; pt noseX 90; pt noseX 100; pt noseX 110 ];
     getMouth := Some [ pt 100 150; pt 105 148; pt 110 147; pt 115 148;
                        pt 120 147; pt 125 148; pt (100 + mouth) 150 ];
     positions := None |}.


(** Frames whose faces have the given average EAR, with their frame
    indices. *)
Definition eyes (l : list (Q * Z)) : list (Landmarks * Z) :=
  map (fun p => (face p.1 100 50, p.2)) l.




(** Closed, closed, open, open, twice, the second time from frame 9. *)
Definition twoBlinks : list (Q * Z) :=
  [ (0.10%Q, 1%Z); (0.10%Q, 2%Z); (0.30%Q, 3%Z); (0.30%Q, 4%Z);
    (0.10%Q, 9%Z); (0.10%Q, 10%Z); (0.30%Q, 11%Z); (0.30%Q, 12%Z) ].

(** [Math.hypot] on a horizontal or a vertical segment. *)
Definition hypotAxis (dx dy : Q) : Q := (Qabs dx + Qabs dy)%Q.

(** The face box: 100 wide from x = 50, so centred on x = 100. *)
Definition faceBox : Box := {| box_x := 50; box_y := 40; width := 100; height := 130 |}.

(** *** A challenge *)

Import LivenessChallenge.

Definition headLeft : Challenge :=
  {| type := head_left; label := "Turn Head Left"; requiredCount := 1 |}.

(** The face looks straight at the camera; the head is turned. *)
Definition straight : Detection :=
  {| box := faceBox; landmarks := Some (face 0.3 100 50) |}.
Definition turned : Detection :=
  {| box := faceBox; landmarks := Some (face 0.3 140 50) |}.

(** The countdown expires while the provider is working on a frame;
    the user tries again and turns the head. *)
Definition timeoutDuringDetection : list Event :=
  [ AnimationFrame 0 100; DetectionResolved 0 (Some straight);
    Tick; Tick; Tick; Tick; Tick;
    AnimationFrame 0 5990;              (* run 0 calls the provider *)
    Tick;                               (* 'failed'; run 1 starts *)
    DetectionResolved 0 (Some straight);(* run 0 goes on: it asks a frame *)
    ClickRetry;                         (* 'detecting'; run 2 starts *)
    AnimationFrame 2 7000; DetectionResolved 2 (Some turned) ].
                                        (* run 2 passes: 'success' *)

(** The next frame of run 0, after the success. *)
Definition staleFrame : list Event :=
  [ AnimationFrame 0 7016; DetectionResolved 0 (Some turned) ].

End Demo.

(* --------------------------------------------------------------------- *)
(** ** More stores and requests to run the handlers on                    *)
(* --------------------------------------------------------------------- *)

Module Demo2.
Import Controller Queries Demo.

(** Students 7 and 8 were scanned in session 1. *)
Definition marked : Store := (markCalls started twoFrames).1.

Definition adminUser : User := {| user_id := 1; role := admin |}.

(** No filter at all; the records of student 8. *)
Definition everything : HistoryQuery :=
  {| h_classId := None; h_dateFrom := None; h_dateTo := None; h_studentId := None |}.

(** Session 1 with one scan on time, ended after 50 minutes; then the
    record is set to ['absent'] by an administrator. *)
Definition endedWithOne : Store :=
  (endSession oneRecord lecturerA (Some session1) (clockAt (T0 + 50 * minute))).1.
Definition overridden : Store :=
  (manualOverride endedWithOne adminUser (Some 100%N) (Some "absent") None).1.

Definition allSessions : SessionQuery :=
  {| sq_classId := None; sq_startDate := None; sq_endDate := None |}.

(** The document of session 1 when it was started. *)
Definition session1Doc : AttendanceSession.doc :=
  {| AttendanceSession.sessionId := session1;
     AttendanceSession.classId := 1;
     AttendanceSession.lecturerId := 10;
     AttendanceSession.startTime := T0;
     AttendanceSession.endTime := None;
     AttendanceSession.date := 20023;
     AttendanceSession.totalStudents := 2;
     AttendanceSession.status := "active";
     AttendanceSession.presentCount := 0;
     AttendanceSession.absentCount := 0;
     AttendanceSession.lateCount := 0 |}.

Definition session1Active : ActiveSession :=
  {| as_classId := 1; as_lecturerId := 10; as_date := 20023; as_createdAt := T0 |}.

End Demo2.

Module Demo3.
Import Liveness Demo.

(** A face in profile: the left eye has no points, the right eye is
    shut. *)
Definition profile : Landmarks :=
  {| getLeftEye := []; getRightEye := eye 0;
     getNose := [ pt 100 80; pt 100 90; pt 100 100; pt 100 110 ];
     getMouth := None; positions := None |}.

End Demo3.

Module Demo4.
Import Liveness LivenessChallenge Demo.

(** A straight face is seen once, then six seconds pass. *)
Definition sixTicks : list Event :=
  [ AnimationFrame 0 100; DetectionResolved 0 (Some straight);
    Tick; Tick; Tick; Tick; Tick; Tick ].

(** Frames 16 ms apart while the provider answers at once. *)
Definition sixtyHertz : list Event :=
  [ AnimationFrame 0 100; DetectionResolved 0 (Some straight);
    AnimationFrame 0 116; AnimationFrame 0 132; AnimationFrame 0 148;
    AnimationFrame 0 164; AnimationFrame 0 180;
    DetectionResolved 0 (Some straight);
    AnimationFrame 0 196 ].


End Demo4.

(* ===================================================================== *)
(** * Part II: properties                                                 *)
(* ===================================================================== *)

(** ** Lateness and the status decision *)

Section Classifier.
Import Controller.

Lemma Qlt_bool_iff (a b : Q) : Qlt_bool a b = true <-> (a < b)%Q.
Proof.
  unfold Qlt_bool. rewrite negb_true_iff, <- not_true_iff_false, Qle_bool_iff.
  split; [apply Qnot_le_lt | apply Qlt_not_le].
Qed.

Lemma minutesLate_gt (currentTime start : Z) :
  (LATE_THRESHOLD_MINUTES < minutesLate currentTime start)%Q
  <-> (300000 < currentTime - start)%Z.
Proof.
  unfold minutesLate, LATE_THRESHOLD_MINUTES, Qlt, Qdiv, Qmult, Qinv. simpl. lia.
Qed.

Lemma isLate_ms (currentTime start : Z) :
  isLate currentTime start = true <-> (300000 < currentTime - start)%Z.
Proof. unfold isLate. rewrite Qlt_bool_iff. apply minutesLate_gt. Qed.

Lemma determineFinalStatus_auto_late status streak :
  truthy status = false \/ status = Some "present" ->
  determineFinalStatus status true streak =
    if 3 <=? streak + 1 then ("absent", 0) else ("late", streak + 1).
Proof.
  intros [H | ->]; unfold determineFinalStatus; [rewrite H | ]; reflexivity.
Qed.

Lemma determineFinalStatus_auto_on_time status streak :
  truthy status = false ->
  determineFinalStatus status false streak = ("present", 0).
Proof. intros H. unfold determineFinalStatus. rewrite H. reflexivity. Qed.

End Classifier.

(** ** The upsert keyed on [(studentId, classId, date, sessionId)] *)

Section Upsert.
Import Attendance.

Lemma matches_iff sid cid d sess a :
  matches sid cid d sess a = true
  <-> studentId a = sid /\ classId a = cid /\ date a = d /\ sessionId a = sess.
Proof.
  unfold matches. rewrite !andb_true_iff, !N.eqb_eq, Z.eqb_eq, String.eqb_eq.
  tauto.
Qed.

Lemma matches_applyUpdate sid cid d sess u a sid' cid' d' sess' :
  matches sid cid d sess a = true ->
  matches sid' cid' d' sess' (applyUpdate sid cid d sess u a)
  = matches sid' cid' d' sess' a.
Proof.
  intros (<- & <- & <- & <-)%matches_iff. reflexivity.
Qed.

Lemma matches_newDoc id sid cid d sess u :
  matches sid cid d sess (newDoc id sid cid d sess u) = true.
Proof. apply matches_iff. repeat split. Qed.

Lemma updateFirst_None p f coll :
  updateFirst p f coll = None -> List.filter p coll = [].
Proof.
  induction coll as [|a rest IH]; simpl; [reflexivity|].
  destruct (p a); [discriminate|].
  destruct (updateFirst p f rest) as [[rest' a']|]; [discriminate|]. auto.
Qed.

(** An update in place: the record written carries the key, lies in the
    collection, and no key gains or loses a record. *)
Lemma updateFirst_upsert sid cid d sess u coll coll' a :
  updateFirst (matches sid cid d sess) (applyUpdate sid cid d sess u) coll
    = Some (coll', a) ->
  (forall sid' cid' d' sess',
      length (withKey coll' sid' cid' d' sess')
      = length (withKey coll sid' cid' d' sess'))
  /\ length coll' = length coll
  /\ a ∈ coll'
  /\ (exists a0, a0 ∈ coll /\ matches sid cid d sess a0 = true
                 /\ a = applyUpdate sid cid d sess u a0).
Proof.
  revert coll' a. induction coll as [|x rest IH]; simpl; intros coll' a H.
  - discriminate.
  - destruct (matches sid cid d sess x) eqn:Hx.
    + injection H as <- <-. repeat split.
      * intros. unfold withKey. simpl.
        rewrite (matches_applyUpdate _ _ _ _ _ _ _ _ _ _ Hx).
        destruct (matches sid' cid' d' sess' x); reflexivity.
      * left.
      * exists x. split; [left | auto].
    + destruct (updateFirst _ _ rest) as [[rest' a']|] eqn:Hr; [|discriminate].
      injection H as <- <-.
      destruct (IH _ _ eq_refl) as (Hc & Hl & Hin & a0 & Ha0 & Hm & ->).
      repeat split.
      * intros. unfold withKey in *. simpl.
        destruct (matches sid' cid' d' sess' x); simpl; rewrite Hc; reflexivity.
      * simpl. congruence.
      * right. exact Hin.
      * exists a0. split; [right; exact Ha0 | auto].
Qed.

Lemma withKey_app coll a sid cid d sess :
  length (withKey (coll ++ [a]) sid cid d sess)
  = length (withKey coll sid cid d sess)
    + (if matches sid cid d sess a then 1 else 0).
Proof.
  unfold withKey. rewrite List.filter_app, length_app. simpl.
  destruct (matches sid cid d sess a); reflexivity.
Qed.

Lemma matches_other sid cid d sess sid' cid' d' sess' a :
  matches sid cid d sess a = true ->
  (sid', cid', d', sess') <> (sid, cid, d, sess) ->
  matches sid' cid' d' sess' a = false.
Proof.
  intros (H1 & H2 & H3 & H4)%matches_iff Hne.
  apply not_true_is_false. intros (H1' & H2' & H3' & H4')%matches_iff.
  apply Hne. congruence.
Qed.

(** What [findOneAndUpdate] does to the number of records of each key. *)
Lemma findOneAndUpdate_count coll fresh sid cid d sess u coll' a inserted :
  findOneAndUpdate coll fresh sid cid d sess u = Some (coll', a, inserted) ->
  a ∈ coll'
  /\ matches sid cid d sess a = true
  /\ status a = u_status u
  /\ consecutiveLateCount a = u_consecutiveLateCount u
  /\ length (withKey coll' sid cid d sess)
     = (if inserted then 1 else length (withKey coll sid cid d sess))
  /\ (if inserted then length (withKey coll sid cid d sess) = 0
      else 1 <= length (withKey coll sid cid d sess))
  /\ (forall sid' cid' d' sess',
        (sid', cid', d', sess') <> (sid, cid, d, sess) ->
        length (withKey coll' sid' cid' d' sess')
        = length (withKey coll sid' cid' d' sess'))
  /\ length coll' = length coll + (if inserted then 1 else 0).
Proof.
  unfold findOneAndUpdate. destruct (negb _); [discriminate|].
  destruct (updateFirst _ _ coll) as [[c1 a1]|] eqn:Hu; intros H;
    injection H as <- <- <-.
  - destruct (updateFirst_upsert _ _ _ _ _ _ _ _ Hu)
      as (Hc & Hl & Hin & a0 & Ha0 & Hm & ->).
    repeat split; auto.
    + rewrite matches_applyUpdate; auto.
    + unfold withKey.
      assert (a0 ∈ List.filter (matches sid cid d sess) coll) as Hf.
      { apply list_elem_of_In, List.filter_In. split; [apply list_elem_of_In|]; auto. }
      destruct (List.filter _ coll); [inversion Hf | simpl; lia].
    + lia.
  - apply updateFirst_None in Hu.
    repeat split.
    + apply elem_of_app. right. left.
    + apply matches_newDoc.
    + rewrite withKey_app, matches_newDoc. unfold withKey. rewrite Hu. reflexivity.
    + unfold withKey. rewrite Hu. reflexivity.
    + intros sid' cid' d' sess' Hne. rewrite withKey_app.
      rewrite (matches_other sid cid d sess); [lia | apply matches_newDoc | exact Hne].
    + rewrite length_app. reflexivity.
Qed.

Lemma findOneAndUpdate_None coll fresh sid cid d sess u :
  findOneAndUpdate coll fresh sid cid d sess u = None
  <-> runValidators (u_status u) = false.
Proof.
  unfold findOneAndUpdate. destruct (runValidators _); simpl.
  - destruct (updateFirst _ _ coll) as [[? ?]|]; split; discriminate.
  - tauto.
Qed.

End Upsert.

(** ** [markAttendance] and the number of records per key *)

Section MarkAttendance.
Import Controller.


Lemma determineFinalStatus_valid status late streak :
  Attendance.runValidators (determineFinalStatus status late streak).1
  = Attendance.runValidators (orElse status "present").
Proof.
  unfold determineFinalStatus.
  destruct (MAX_CONSECUTIVE_LATE <=? streak + 1);
    destruct late; destruct status as [st|]; cbn [truthy orElse isValue negb andb fst];
    try reflexivity;
    destruct (String.eqb_spec st "") as [->|Hne]; cbn [negb andb fst];
    try reflexivity;
    destruct (String.eqb_spec st "present") as [->|Hp]; cbn [negb andb fst];
    reflexivity.
Qed.

Lemma extends_refl s : extends s s.
Proof. unfold extends. repeat split; lia. Qed.

Lemma extends_trans s1 s2 s3 : extends s1 s2 -> extends s2 s3 -> extends s1 s3.
Proof.
  unfold extends.
  intros (Ha & Hs & H) (Ha' & Hs' & H'). repeat split; try congruence.
  - specialize (H sid cid d sess). specialize (H' sid cid d sess). lia.
  - specialize (H sid cid d sess). specialize (H' sid cid d sess). lia.
Qed.

Lemma key_eq_dec (k k' : N * N * Z * string) : {k = k'} + {k <> k'}.
Proof. apply (decide (k = k')). Qed.

Lemma markOne_spec s user sessionId classId today start clock record s' r :
  markOne s user sessionId classId today start clock record = (s', r) ->
  extends s s'
  /\ (if savable record
      then (exists id late st c, r = Saved (r_studentId record) id late st c)
           /\ 1 <= count s' (r_studentId record) classId today sessionId
           /\ length (attendances s')
              = length (attendances s)
                + (if count s (r_studentId record) classId today sessionId =? 0
                   then 1 else 0)
      else r = Failed (r_studentId record) /\ s' = s).
Proof.
  unfold markOne, savable.
  pose proof (determineFinalStatus_valid (r_status record)
    (isLate (now clock) start)
    (consecutiveLateCount (attendances s) (r_studentId record) classId today)) as Hv.
  destruct (determineFinalStatus _ _ _) as [finalStatus finalCount]. simpl in Hv.
  match goal with |- context [Attendance.findOneAndUpdate ?c ?f ?a ?b ?d ?e ?u] =>
    destruct (Attendance.findOneAndUpdate c f a b d e u) as [[[coll a0] ins]|] eqn:Hup
  end.
  - intros H. injection H as <- <-.
    assert (Attendance.runValidators finalStatus = true) as Hok.
    { destruct (Attendance.runValidators finalStatus) eqn:E; [reflexivity|].
      exfalso.
      match type of Hup with Attendance.findOneAndUpdate _ _ _ _ _ _ ?u = _ =>
        pose proof (proj2 (findOneAndUpdate_None (attendances s) (nextObjectId s)
          (r_studentId record) classId today sessionId u) E) as Hn
      end.
      rewrite Hup in Hn. discriminate. }
    rewrite <- Hv, Hok.
    destruct (findOneAndUpdate_count _ _ _ _ _ _ _ _ _ _ Hup)
      as (Hin & Hm & _ & _ & Hsame & Hbefore & Hother & Hlen).
    unfold extends, count in *. simpl.
    split; [|split; [do 4 eexists; reflexivity|split]].
    + repeat split; simpl; try reflexivity.
      * destruct (key_eq_dec (sid, cid, d, sess)
                    (r_studentId record, classId, today, sessionId)) as [E|E].
        -- injection E as -> -> -> ->. rewrite Hsame. destruct ins; lia.
        -- rewrite (Hother _ _ _ _ E). lia.
      * destruct (key_eq_dec (sid, cid, d, sess)
                    (r_studentId record, classId, today, sessionId)) as [E|E].
        -- injection E as -> -> -> ->. rewrite Hsame. destruct ins; lia.
        -- rewrite (Hother _ _ _ _ E). lia.
    + simpl. rewrite Hsame. destruct ins; lia.
    + simpl. rewrite Hlen. destruct ins.
      * rewrite Hbefore. reflexivity.
      * destruct (length _) eqn:E in Hbefore |- *; [lia|]. simpl. reflexivity.
  - intros H. injection H as <- <-.
    apply findOneAndUpdate_None in Hup. simpl in Hup.
    rewrite <- Hv, Hup. split; [apply extends_refl | split; reflexivity].
Qed.

Lemma markLoop_spec user sessionId classId today start clocks records :
  forall s i s' rs,
  markLoop s user sessionId classId today start clocks i records = (s', rs) ->
  extends s s'
  /\ (forall record, record ∈ records -> savable record = true ->
        1 <= count s' (r_studentId record) classId today sessionId)
  /\ (forall studentId id late st c, Saved studentId id late st c ∈ rs ->
        1 <= count s' studentId classId today sessionId)
  /\ ((forall record, record ∈ records -> savable record = true ->
         1 <= count s (r_studentId record) classId today sessionId) ->
      length (attendances s') = length (attendances s)).
Proof.
  induction records as [|record rest IH]; intros s i s' rs; simpl.
  - intros H. injection H as <- <-. split; [apply extends_refl|].
    repeat split; intros; try reflexivity;
      match goal with H : _ ∈ [] |- _ => inversion H end.
  - destruct (markOne _ _ _ _ _ _ _ record) as [s1 r] eqn:H1.
    destruct (markLoop s1 _ _ _ _ _ _ _ rest) as [s2 rs'] eqn:H2.
    intros H. injection H as <- <-.
    destruct (markOne_spec _ _ _ _ _ _ _ _ _ _ H1) as (He1 & Hr).
    destruct (IH _ _ _ _ H2) as (He2 & Hcov & Hsaved & Hidem).
    split; [eapply extends_trans; eauto|]. split; [|split].
    + intros rcd [E|Hin]%elem_of_cons Hs.
      * subst rcd. rewrite Hs in Hr. destruct Hr as (_ & Hc & _).
        destruct He2 as (_ & _ & He2).
        specialize (He2 (r_studentId record) classId today sessionId). lia.
      * auto.
    + intros studentId id late st c [E|Hin]%elem_of_cons; [|eauto].
      destruct (savable record).
      * destruct Hr as ((id' & late' & st' & c' & ->) & Hc & _).
        injection E as -> _ _ _ _.
        destruct He2 as (_ & _ & He2).
        specialize (He2 (r_studentId record) classId today sessionId). lia.
      * destruct Hr as (-> & _). discriminate.
    + intros Hall.
      assert (length (attendances s1) = length (attendances s)) as Hl1.
      { destruct (savable record) eqn:Hs.
        - destruct Hr as (_ & _ & ->).
          specialize (Hall record (list_elem_of_here _ _) Hs).
          destruct (count s _ _ _ _); [lia|]. simpl. lia.
        - destruct Hr as (_ & ->). reflexivity. }
      rewrite <- Hl1. apply Hidem. intros rcd Hin Hs.
      destruct He1 as (_ & _ & He1).
      specialize (He1 (r_studentId rcd) classId today sessionId).
      specialize (Hall rcd (list_elem_of_further _ _ _ Hin) Hs). lia.
Qed.

(** The two ways a request is answered; which one depends on the
    sessions only, not on the attendance records. *)
Lemma markAttendance_inv s user body clock0 :
  (exists code msg, forall s2 clocks',
      activeSessions s2 = activeSessions s -> sessions s2 = sessions s ->
      markAttendance s2 user body clock0 clocks' = (s2, Err code msg))
  \/ (exists sessionId classId records start,
        b_sessionId body = Some sessionId /\ b_classId body = Some classId
        /\ forall s2 clocks',
             activeSessions s2 = activeSessions s -> sessions s2 = sessions s ->
             exists s3 n,
               let lp := markLoop s2 user sessionId classId (isoDate (now clock0))
                           start clocks' 0 records in
               markAttendance s2 user body clock0 clocks' = (s3, Marked lp.2 n)
               /\ attendances s3 = attendances lp.1
               /\ activeSessions s3 = activeSessions lp.1
               /\ sessions s3 = sessions lp.1).
Proof.
  unfold markAttendance.
  destruct (b_sessionId body) as [sessionId|];
    [|left; do 2 eexists; intros; reflexivity].
  destruct (b_classId body) as [classId|];
    [|left; do 2 eexists; intros; reflexivity].
  destruct (b_recognizedStudents body) as [records|];
    [|left; do 2 eexists; intros; reflexivity].
  destruct (sessionId =? "")%string;
    [left; do 2 eexists; intros; reflexivity|].
  destruct (activeSessions s !! sessionId) eqn:Ha;
    [|left; do 2 eexists; intros s2 c' -> _; rewrite Ha; reflexivity].
  destruct (AttendanceSession.findOne (sessions s) sessionId) as [sessionDoc|] eqn:Hs;
    [|left; do 2 eexists; intros s2 c' -> ->; rewrite Ha, Hs; reflexivity].
  right. exists sessionId, classId, records, (AttendanceSession.startTime sessionDoc).
  split; [reflexivity|]. split; [reflexivity|].
  intros s2 c' -> ->. rewrite Ha, Hs.
  destruct (markLoop s2 _ _ _ _ _ _ _ _) as [s1 results]. simpl.
  do 2 eexists. split; [reflexivity|]. repeat split.
Qed.

Lemma extends_count_le1 s s' :
  extends s s' ->
  (forall sid cid d sess, count s sid cid d sess <= 1) ->
  forall sid cid d sess, count s' sid cid d sess <= 1.
Proof.
  intros (_ & _ & H) Hu sid cid d sess.
  specialize (H sid cid d sess). specialize (Hu sid cid d sess). lia.
Qed.

Lemma extends_count_ge1 s s' sid cid d sess :
  extends s s' -> 1 <= count s sid cid d sess -> 1 <= count s' sid cid d sess.
Proof. intros (_ & _ & H) Hc. specialize (H sid cid d sess). lia. Qed.

(** One request: the store is extended, every saved key holds a record,
    and the same request served again later adds no record. *)
Lemma markAttendance_spec s call s' resp :
  markAttendance s (c_user call) (c_body call) (c_clock0 call) (c_clocks call)
    = (s', resp) ->
  extends s s'
  /\ (forall results n sessionId classId studentId id late st c,
        resp = Marked results n ->
        b_sessionId (c_body call) = Some sessionId ->
        b_classId (c_body call) = Some classId ->
        Saved studentId id late st c ∈ results ->
        1 <= count s' studentId classId (isoDate (now (c_clock0 call))) sessionId)
  /\ (forall s2 clocks', extends s' s2 ->
        length (attendances
          (markAttendance s2 (c_user call) (c_body call) (c_clock0 call) clocks').1)
        = length (attendances s2)).
Proof.
  intros Hrun.
  destruct (markAttendance_inv s (c_user call) (c_body call) (c_clock0 call))
    as [(code & msg & Herr) | (sessionId & classId & records & start & Hb1 & Hb2 & Hok)].
  - rewrite (Herr s (c_clocks call) eq_refl eq_refl) in Hrun.
    injection Hrun as <- <-. split; [apply extends_refl|]. split.
    + intros; discriminate.
    + intros s2 clocks' (Ha & Hs & _). rewrite (Herr s2 clocks' Ha Hs). reflexivity.
  - destruct (Hok s (c_clocks call) eq_refl eq_refl) as (s3 & n & Hm & Hat & Hac & Hse).
    rewrite Hrun in Hm. injection Hm as <- ->.
    destruct (markLoop s _ _ _ _ _ (c_clocks call) 0 records) as [s1 results] eqn:Hloop.
    simpl in *.
    destruct (markLoop_spec _ _ _ _ _ _ _ _ _ _ _ Hloop) as (He & Hcov & Hsaved & _).
    assert (extends s s') as Hext.
    { destruct He as (E1 & E2 & E3). unfold extends, count in *.
      rewrite Hat, Hac, Hse. auto. }
    split; [exact Hext|]. split.
    + intros results' n' sessionId' classId' studentId id late st c E E1 E2 Hin.
      injection E as <- _. rewrite Hb1 in E1. rewrite Hb2 in E2.
      injection E1 as <-. injection E2 as <-.
      unfold count. rewrite Hat. apply (Hsaved _ _ _ _ _ Hin).
    + intros s2 clocks' He2.
      assert (extends s s2) as (Ha & Hs & _) by (eapply extends_trans; eauto).
      destruct (Hok s2 clocks' Ha Hs) as (s4 & n' & Hm & Hat' & _).
      rewrite Hm. simpl. rewrite Hat'.
      destruct (markLoop s2 _ _ _ _ _ clocks' 0 records) as [s5 results'] eqn:Hloop'.
      simpl.
      destruct (markLoop_spec _ _ _ _ _ _ _ _ _ _ _ Hloop') as (_ & _ & _ & Hidem).
      apply Hidem. intros rcd Hin Hsv.
      apply (extends_count_ge1 s'); [exact He2|].
      unfold count. rewrite Hat. apply Hcov; auto.
Qed.

Lemma markCalls_spec calls :
  forall s s' answers,
  markCalls s calls = (s', answers) ->
  extends s s'
  /\ (forall call results n sessionId classId studentId id late st c,
        (call, Marked results n) ∈ zip calls answers ->
        b_sessionId (c_body call) = Some sessionId ->
        b_classId (c_body call) = Some classId ->
        Saved studentId id late st c ∈ results ->
        1 <= count s' studentId classId (isoDate (now (c_clock0 call))) sessionId)
  /\ (forall call s2 clocks', call ∈ calls -> extends s' s2 ->
        length (attendances
          (markAttendance s2 (c_user call) (c_body call) (c_clock0 call) clocks').1)
        = length (attendances s2)).
Proof.
  induction calls as [|call0 rest IH]; intros s s' answers; simpl.
  - intros H. injection H as <- <-. split; [apply extends_refl|].
    split; intros; match goal with H : _ ∈ [] |- _ => inversion H end.
  - destruct (markAttendance s _ _ _ _) as [s1 r] eqn:H1.
    destruct (markCalls s1 rest) as [s2 rs] eqn:H2.
    intros H. injection H as <- <-.
    destruct (markAttendance_spec _ _ _ _ H1) as (He1 & Hs1 & Hr1).
    destruct (IH _ _ _ H2) as (He2 & Hs2 & Hr2).
    split; [eapply extends_trans; eauto|]. split.
    + intros call results n sessionId classId studentId id late st c
        [E|Hin]%elem_of_cons Hb1 Hb2 Hsv.
      * injection E as -> E. symmetry in E.
        eapply extends_count_ge1; [exact He2|]. eapply Hs1; eauto.
      * eapply Hs2; eauto.
    + intros call s3 clocks' [->|Hin]%elem_of_cons He3.
      * apply Hr1. eapply extends_trans; eauto.
      * apply Hr2; auto.
Qed.

(** C1.  Whatever sequence of [markAttendance] requests is served on a
    store with at most one record per (studentId, classId, date,
    sessionId), the store still has at most one record per key; every
    key a request saved holds exactly one record; and serving any of
    the requests once more (same body, same day) adds no record. *)
Theorem markAttendance_one_record_per_key (s : Store) (calls : list MarkCall) :
  (forall sid cid d sess, count s sid cid d sess <= 1) ->
  let s' := (markCalls s calls).1 in
  let answers := (markCalls s calls).2 in
  (forall sid cid d sess, count s' sid cid d sess <= 1)
  /\ (forall call results n sessionId classId studentId id late st c,
        (call, Marked results n) ∈ zip calls answers ->
        b_sessionId (c_body call) = Some sessionId ->
        b_classId (c_body call) = Some classId ->
        Saved studentId id late st c ∈ results ->
        count s' studentId classId (isoDate (now (c_clock0 call))) sessionId = 1)
  /\ (forall call clocks', call ∈ calls ->
        length (attendances
          (markAttendance s' (c_user call) (c_body call) (c_clock0 call) clocks').1)
        = length (attendances s')).
Proof.
  intros Hu s' answers.
  destruct (markCalls_spec calls s s' answers) as (He & Hs & Hr).
  { subst s' answers. destruct (markCalls s calls); reflexivity. }
  pose proof (extends_count_le1 _ _ He Hu) as Hu'.
  split; [exact Hu'|]. split.
  - intros call results n sessionId classId studentId id late st c Hin Hb1 Hb2 Hsv.
    pose proof (Hs _ _ _ _ _ _ _ _ _ _ Hin Hb1 Hb2 Hsv) as Hge.
    pose proof (Hu' studentId classId (isoDate (now (c_clock0 call))) sessionId).
    lia.
  - intros call clocks' Hin. apply Hr; [exact Hin | apply extends_refl].
Qed.

End MarkAttendance.

(** ** The scan of one student *)

Section Scan.
Import Controller.

Lemma markOne_saved s user sessionId classId today start clock record st c :
  determineFinalStatus (r_status record) (isLate (now clock) start)
    (consecutiveLateCount (attendances s) (r_studentId record) classId today)
    = (st, c) ->
  Attendance.runValidators st = true ->
  exists s' a,
    markOne s user sessionId classId today start clock record
      = (s', Saved (r_studentId record) (Attendance._id a)
               (isLate (now clock) start) st c)
    /\ a ∈ attendances s'
    /\ Attendance.matches (r_studentId record) classId today sessionId a = true
    /\ Attendance.status a = st
    /\ Attendance.consecutiveLateCount a = c.
Proof.
  intros Hd Hv. unfold markOne. rewrite Hd.
  match goal with |- context [Attendance.findOneAndUpdate ?x ?f ?a ?b ?d ?e ?u] =>
    destruct (Attendance.findOneAndUpdate x f a b d e u) as [[[coll a0] ins]|] eqn:Hup
  end.
  - destruct (findOneAndUpdate_count _ _ _ _ _ _ _ _ _ _ Hup)
      as (Hin & Hm & Hst & Hc & _).
    eexists _, a0. split; [reflexivity|]. simpl in *. auto.
  - apply findOneAndUpdate_None in Hup. simpl in Hup. congruence.
Qed.

(** C2.  A late scan with no status of its own, or with status
    ['present']: the streak of earlier late days plus one decides.  From
    3 on the record stored is ['absent'] with streak 0; below 3 it is
    ['late'] with the incremented streak. *)
Theorem late_scan_escalates (s : Store) (user : User) (sessionId : string)
    (classId : ObjectId) (today start : Z) (clock : Clock)
    (record : RecognizedStudent) :
  truthy (r_status record) = false \/ r_status record = Some "present" ->
  isLate (now clock) start = true ->
  let streak :=
    consecutiveLateCount (attendances s) (r_studentId record) classId today in
  exists s' a,
    markOne s user sessionId classId today start clock record
      = (s', Saved (r_studentId record) (Attendance._id a) true
               (Attendance.status a) (Attendance.consecutiveLateCount a))
    /\ a ∈ attendances s'
    /\ Attendance.matches (r_studentId record) classId today sessionId a = true
    /\ (3 <= streak + 1 ->
        Attendance.status a = "absent" /\ Attendance.consecutiveLateCount a = 0)
    /\ (streak + 1 < 3 ->
        Attendance.status a = "late"
        /\ Attendance.consecutiveLateCount a = streak + 1).
Proof.
  intros Hst Hlate streak.
  pose proof (determineFinalStatus_auto_late (r_status record) streak Hst) as Hd.
  destruct (Nat.leb_spec 3 (streak + 1)) as [Hge|Hlt].
  - destruct (markOne_saved s user sessionId classId today start clock record
                "absent" 0) as (s' & a & Hm & Hin & Hk & Hs & Hc).
    { rewrite Hlate. exact Hd. } { reflexivity. }
    exists s', a. rewrite Hs, Hc. rewrite Hlate in Hm.
    repeat split; auto; lia.
  - destruct (markOne_saved s user sessionId classId today start clock record
                "late" (streak + 1)) as (s' & a & Hm & Hin & Hk & Hs & Hc).
    { rewrite Hlate. exact Hd. } { reflexivity. }
    exists s', a. rewrite Hs, Hc. rewrite Hlate in Hm.
    repeat split; auto; lia.
Qed.

(** C3.  A scan with no status of its own is late exactly when
    [(now - startTime) / 60000 > 5]; late, it is stored ['late'] or
    ['absent'], otherwise ['present'] with streak 0.  Four minutes after
    the start it is ['present'] with streak 0; six minutes after, with
    no earlier late day, it is ['late'] (streak 1). *)
Theorem late_exactly_after_five_minutes (s : Store) (user : User)
    (sessionId : string) (classId : ObjectId) (today start : Z)
    (clock : Clock) (record : RecognizedStudent) :
  truthy (r_status record) = false ->
  exists s' id late st c,
    markOne s user sessionId classId today start clock record
      = (s', Saved (r_studentId record) id late st c)
    /\ (late = true <-> (5 < inject_Z (now clock - start) / 60000)%Q)
    /\ (late = true -> st = "late" \/ st = "absent")
    /\ (late = false -> st = "present" /\ c = 0)
    /\ (now clock = (start + 4 * 60000)%Z -> st = "present" /\ c = 0)
    /\ (now clock = (start + 6 * 60000)%Z ->
        consecutiveLateCount (attendances s) (r_studentId record) classId today = 0 ->
        st = "late" /\ c = 1).
Proof.
  intros Hst.
  set (streak := consecutiveLateCount (attendances s) (r_studentId record) classId today).
  assert (isLate (now clock) start = true
          <-> (5 < inject_Z (now clock - start) / 60000)%Q) as Hiff.
  { unfold isLate. rewrite Qlt_bool_iff. reflexivity. }
  destruct (isLate (now clock) start) eqn:Hlate.
  - pose proof (determineFinalStatus_auto_late (r_status record) streak (or_introl Hst)) as Hd.
    apply isLate_ms in Hlate as Hms.
    destruct (Nat.leb_spec 3 (streak + 1)) as [Hge|Hlt].
    + destruct (markOne_saved s user sessionId classId today start clock record
                  "absent" 0) as (s' & a & Hm & _).
      { rewrite Hlate. exact Hd. } { reflexivity. }
      rewrite Hlate in Hm. eexists _, _, _, _, _. split; [exact Hm|].
      repeat split; try tauto; try discriminate; try lia.
    + destruct (markOne_saved s user sessionId classId today start clock record
                  "late" (streak + 1)) as (s' & a & Hm & _).
      { rewrite Hlate. exact Hd. } { reflexivity. }
      rewrite Hlate in Hm. eexists _, _, _, _, _. split; [exact Hm|].
      repeat split; try tauto; try discriminate; try lia.
  - pose proof (determineFinalStatus_auto_on_time (r_status record) streak Hst) as Hd.
    assert (~ (300000 < now clock - start)%Z) as Hms.
    { intros H. apply isLate_ms in H. congruence. }
    destruct (markOne_saved s user sessionId classId today start clock record
                "present" 0) as (s' & a & Hm & _).
    { rewrite Hlate. exact Hd. } { reflexivity. }
    rewrite Hlate in Hm. eexists _, _, _, _, _. split; [exact Hm|].
    repeat split; try tauto; try discriminate; try lia.
Qed.

End Scan.

Section Witnesses_scan.
Import Controller Demo.

(** Section 8: a class without students has [totalStudents = 0] at the
    start of its session, and a scan is recorded all the same. *)
Example session_of_empty_class :
  let s1 := (startSession emptyClass lecturerB (Some 2%N) (clockAt T0) session1).1 in
  AttendanceSession.totalStudents <$> AttendanceSession.findOne (sessions s1) session1
  = Some 0
  /\ (markOne s1 lecturerB session1 2 20023 T0 (clockAt (T0 + minute)) (scan 7 None)).2
     = Saved 7 100 false "present" 0.
Proof. vm_compute. split; reflexivity. Qed.

(** Student 7 is scanned in two frames of one session: one record. *)
Lemma markAttendance_one_record_per_key_witness :
  (forall sid cid d sess, count started sid cid d sess <= 1)
  /\ count (markCalls started twoFrames).1 7 1 20023 session1 = 1
  /\ length (attendances (markCalls started twoFrames).1) = 2.
Proof.
  assert (forall sid cid d sess, count started sid cid d sess <= 1) as H.
  { intros. unfold count. simpl. lia. }
  split; [exact H|].
  destruct (markAttendance_one_record_per_key started twoFrames H) as (_ & Hs & _).
  split; [|reflexivity].
  apply (Hs (markAt (T0 + 4 * minute) [scan 7 None])
            [Saved 7 100 false "present" 0] 1 session1 1%N 7%N 100%N false "present" 0).
  - vm_compute. left.
  - reflexivity.
  - reflexivity.
  - left.
Defined.

(** Six minutes after the start, first late day: ['late'], streak 1. *)
Lemma late_scan_escalates_witness :
  exists s' a,
    markOne started lecturerA session1 1 20023 T0 (clockAt (T0 + 6 * minute))
      (scan 7 None)
    = (s', Saved 7 (Attendance._id a) true (Attendance.status a)
             (Attendance.consecutiveLateCount a))
    /\ Attendance.status a = "late" /\ Attendance.consecutiveLateCount a = 1.
Proof.
  destruct (late_scan_escalates started lecturerA session1 1 20023 T0
              (clockAt (T0 + 6 * minute)) (scan 7 None))
    as (s' & a & Hm & _ & _ & _ & Hlt).
  - left. reflexivity.
  - reflexivity.
  - exists s', a. split; [exact Hm|]. apply Hlt. vm_compute. lia.
Defined.

(** Four minutes after the start: ['present'], streak 0. *)
Lemma late_exactly_after_five_minutes_witness :
  exists s' id,
    markOne started lecturerA session1 1 20023 T0 (clockAt (T0 + 4 * minute))
      (scan 7 None)
    = (s', Saved 7 id false "present" 0).
Proof.
  destruct (late_exactly_after_five_minutes started lecturerA session1 1 20023 T0
              (clockAt (T0 + 4 * minute)) (scan 7 None) eq_refl)
    as (s' & id & late & st & c & Hm & Hiff & _ & _ & H4 & _).
  destruct (H4 eq_refl) as [-> ->].
  exists s', id. rewrite Hm. f_equal. f_equal.
  destruct late; [|reflexivity].
  exfalso. apply proj1 in Hiff. specialize (Hiff eq_refl).
  vm_compute in Hiff. discriminate.
Defined.

End Witnesses_scan.

(** ** The streak of late days *)

Section Streak.
Import Controller.




End Streak.

(** ** [endSession] *)

Section EndSession.
Import Controller.

(** C5.  Ending a session whose id is not in [activeSessions] answers
    404 "Session not found" and leaves the whole store as it was: the
    session documents, the attendance records, the active sessions and
    the audit log. *)
Theorem endSession_unknown_session (s : Store) (user : User)
    (sessionId : string) (clock : Clock) :
  sessionId <> "" ->
  activeSessions s !! sessionId = None ->
  endSession s user (Some sessionId) clock = (s, Err 404 "Session not found").
Proof.
  intros Hne Hnone. unfold endSession. simpl.
  destruct (String.eqb_spec sessionId "") as [E|_]; [contradiction|]. simpl.
  rewrite Hnone. reflexivity.
Qed.

(** The session that was ended cannot be ended again. *)
Lemma endSession_unknown_session_witness :
  endSession Demo.ended Demo.lecturerA (Some Demo.session1)
    (Demo.clockAt (Demo.T0 + 51 * Demo.minute))
  = (Demo.ended, Err 404 "Session not found").
Proof.
  apply endSession_unknown_session.
  - discriminate.
  - vm_compute. reflexivity.
Defined.

(** A request without a session id is refused before the lookup, with
    no write either. *)
Lemma endSession_missing_id (s : Store) (user : User) (sessionId : option string)
    (clock : Clock) :
  truthy sessionId = false ->
  endSession s user sessionId clock = (s, Err 400 "Session ID is required").
Proof. intros H. unfold endSession. rewrite H. reflexivity. Qed.

End EndSession.

(** ** [manualOverride] *)

Section ManualOverride.
Import Controller.





End ManualOverride.

(** ** The head-turn test *)

Section HeadTurn.
Import Liveness.





Lemma checkHeadTurnLeft_no_nose (lm : Landmarks) (faceBox : Box) :
  getNose lm = [] -> checkHeadTurnLeft lm faceBox = false.
Proof. intros H. unfold checkHeadTurnLeft. rewrite H. reflexivity. Qed.

End HeadTurn.

(** ** The smile test *)

Section Smile.
Import Liveness.
Variable hypot : Q -> Q -> Q.





End Smile.

Section Smile_witness.
Import Liveness Demo.


End Smile_witness.

(** ** The blink detector *)

Section Blink.
Import Liveness.

Lemma isClosed_iff (ear : Q) : isClosed ear = true <-> (ear < 0.18)%Q.
Proof. unfold isClosed. apply Qlt_bool_iff. Qed.

Lemma isOpen_iff (ear : Q) : isOpen ear = true <-> (0.25 < ear)%Q.
Proof. unfold isOpen. apply Qlt_bool_iff. Qed.

Lemma closed_not_open (ear : Q) : isClosed ear = true -> isOpen ear = false.
Proof.
  intros Hc%isClosed_iff. apply not_true_is_false. intros Ho%isOpen_iff.
  apply (Qlt_irrefl ear). apply Qlt_trans with 0.18%Q; [exact Hc|].
  apply Qlt_trans with 0.25%Q; [reflexivity | exact Ho].
Qed.


Lemma blinkRun_snoc s frames fr :
  blinkRun s (frames ++ [fr]) = (blinkUpdate (blinkRun s frames) fr.1 fr.2).1.
Proof. unfold blinkRun. rewrite fold_left_app. reflexivity. Qed.


(** What one update does to the count. *)
Lemma blinkStep_count s ear f :
  (blinkCount (blinkStep s ear f) = blinkCount s + 1
   /\ lastBlinkFrame (blinkStep s ear f) = f
   /\ isOpen ear = true /\ wasClosed s = true /\ 2 <= closedFrameCount s
   /\ (3 < f - lastBlinkFrame s)%Z)
  \/ (blinkCount (blinkStep s ear f) = blinkCount s
      /\ lastBlinkFrame (blinkStep s ear f) = lastBlinkFrame s
      /\ ~ (isOpen ear = true /\ wasClosed s = true /\ 2 <= closedFrameCount s
            /\ (3 < f - lastBlinkFrame s)%Z)).
Proof.
  unfold blinkStep, BLINK_DEBOUNCE_FRAMES.
  destruct (isClosed ear) eqn:Hc.
  - right. rewrite (closed_not_open _ Hc). repeat split. intros (H & _).
    discriminate.
  - destruct (isOpen ear); destruct (wasClosed s); cbn [andb];
      destruct (Nat.leb_spec 2 (closedFrameCount s));
      destruct (Z.ltb_spec 3 (f - lastBlinkFrame s));
      cbn [andb blinkCount lastBlinkFrame];
      first [ left; repeat split; first [assumption | lia]
            | right; repeat split; intros (? & ? & ? & ?);
              first [discriminate | lia] ].
Qed.

Lemma blinkStep_closed s ear f :
  closedFrameCount (blinkStep s ear f)
  = (if isClosed ear then S (closedFrameCount s)
     else if isOpen ear then 0 else closedFrameCount s)
  /\ wasClosed (blinkStep s ear f)
     = (if isClosed ear then true
        else if isOpen ear then false else wasClosed s).
Proof.
  unfold blinkStep. destruct (isClosed ear); cbn [closedFrameCount wasClosed].
  - split; [lia | reflexivity].
  - destruct (isOpen ear); cbn [andb]; [|auto].
    destruct (wasClosed s); cbn [andb]; [|auto].
    destruct (_ && _); auto.
Qed.



(** Section 8: closed, closed, open, open, repeated after a gap, is two
    blinks; an eye whose lids touch has EAR 0 and is not open. *)
Example two_blinks_counted :
  blinkCount (blinkRun blinkInit (Demo.eyes Demo.twoBlinks)) = 2.
Proof. vm_compute. reflexivity. Qed.

Example shut_eye_not_open :
  (calculateEAR (Demo.eye 0) == 0)%Q /\ isOpen (calculateEAR (Demo.eye 0)) = false.
Proof. split; vm_compute; reflexivity. Qed.


End Blink.

(** ** The detection loop of [LivenessChallenge] *)

Section DetectionLoop.
Import Liveness LivenessChallenge.
Variable hypot : Q -> Q -> Q.



Lemma cleanupLast_not_live (ls : list Loop) :
  (forall l, l ∈ ls -> live l = false) ->
  forall l, l ∈ cleanupLast ls -> live l = false.
Proof.
  induction ls as [|l0 ls IH]; intros Hq l Hin; [inversion Hin|].
  assert (live (cleanupLoop l0) = false) as H0.
  { pose proof (Hq l0 (list_elem_of_here _ _)) as H. unfold cleanupLoop.
    destruct (phase l0) eqn:E; auto.
    unfold live. cbn. apply andb_false_r. }
  simpl in Hin. destruct ls as [|l1 ls].
  - apply list_elem_of_singleton in Hin as ->. exact H0.
  - apply elem_of_cons in Hin as [->|Hin].
    + apply Hq. left.
    + apply IH; [|exact Hin]. intros l' Hl'. apply Hq. right. exact Hl'.
Qed.

(** The run that passes while no other run is live leaves a quiet
    component: [onSuccess] has been called once, and by
    [success_terminal_when_quiet] nothing follows. *)
Lemma success_once_without_stale_loop (c : Component) (i : nat) (l : Loop)
    (runner : Runner) (d : Detection) :
  status c = detecting ->
  loops c !! i = Some l -> phase l = Awaiting ->
  (forall j l', loops c !! j = Some l' -> j <> i -> live l' = false) ->
  runnerRef c = Some runner ->
  passed (run hypot runner d (frameRef c)).2 = true ->
  let c' := detectionResolved hypot c i (Some d) in
  status c' = success /\ quiet c'
  /\ actions c' = actions c ++ [DetectorRun detecting; OnSuccess].
Proof.
  intros Hs Hi Hp Hothers Hr Hpass. unfold detectionResolved.
  rewrite Hi. rewrite bool_decide_true by exact Hp. cbn [negb]. rewrite Hr.
  destruct (run hypot runner d (frameRef c)) as [runner' result]. simpl in Hpass.
  rewrite Hpass. unfold rerunEffects. cbn [status].
  rewrite bool_decide_false by (rewrite Hs; discriminate).
  cbn. rewrite Hs. split; [reflexivity|]. split; [|reflexivity].
  split; [reflexivity|]. cbn.
  intros l' [Hin|Hin]%elem_of_app.
  - revert l' Hin. apply cleanupLast_not_live.
    intros l' (j & Hj)%list_elem_of_lookup_1.
    destruct (decide (j = i)) as [->|Hne].
    + rewrite list_lookup_insert_eq in Hj by (eapply lookup_lt_Some; eauto).
      injection Hj as <-. unfold live. cbn. apply andb_false_r.
    + rewrite list_lookup_insert_ne in Hj by auto. eapply Hothers; eauto.
  - apply list_elem_of_singleton in Hin as ->. reflexivity.
Qed.

End DetectionLoop.

Section StaleLoop.
Import Liveness LivenessChallenge Demo.

(** C9 fails on the code.  The countdown expires while run 0 of the
    detection effect awaits the provider; its cleanup has no frame to
    cancel, and run 0 goes on with ['detecting'] in its closure.  After
    the retry has succeeded (one [OnSuccess]), the next frame of run 0
    calls the provider and the detector although the component shows
    ['success'], and [onSuccess] is called a second time. *)
Lemma success_not_terminal_with_stale_loop :
  let c1 := steps hypotAxis (mount headLeft true) timeoutDuringDetection in
  let c2 := steps hypotAxis c1 staleFrame in
  status c1 = success
  /\ afterSuccess (actions c1) = []
  /\ status c2 = success
  /\ afterSuccess (actions c2)
     = [ProviderCall success; DetectorRun success; OnSuccess]
  /\ length (List.filter (fun a => bool_decide (a = OnSuccess)) (actions c2)) = 2.
Proof. vm_compute. repeat split. Qed.

End StaleLoop.

(* ===================================================================== *)
(** * Part III: further properties of the code                            *)
(* ===================================================================== *)

(** ** Sessions: [startSession], [endSession] and the scans between *)

Section Sessions.
Import Controller.

Lemma markLoop_length user sessionId classId today start clocks records :
  forall s i,
  length (markLoop s user sessionId classId today start clocks i records).2
  = length records.
Proof.
  induction records as [|record rest IH]; intros s i; simpl; [reflexivity|].
  destruct (markOne _ _ _ _ _ _ _ record) as [s1 r].
  specialize (IH s1 (S i)).
  destruct (markLoop s1 _ _ _ _ _ _ _ rest) as [s2 rs]. simpl in *. lia.
Qed.

Lemma findOne_app_fresh coll sid d :
  AttendanceSession.findOne coll sid = None ->
  AttendanceSession.sessionId d = sid ->
  AttendanceSession.findOne (coll ++ [d]) sid = Some d.
Proof.
  unfold AttendanceSession.findOne. intros Hnone <-.
  induction coll as [|x rest IH]; simpl in *.
  - rewrite String.eqb_refl. reflexivity.
  - destruct (AttendanceSession.sessionId x =? AttendanceSession.sessionId d)%string;
      [discriminate | auto].
Qed.

Lemma markAttendance_accepted s sender sid classId records clock0 clocks session doc :
  sid <> "" ->
  activeSessions s !! sid = Some session ->
  AttendanceSession.findOne (sessions s) sid = Some doc ->
  exists s'' results n,
    markAttendance s sender
      {| b_sessionId := Some sid; b_classId := Some classId;
         b_recognizedStudents := Some records |} clock0 clocks
    = (s'', Marked results n)
    /\ length results = length records.
Proof.
  intros Hne Ha Hd. unfold markAttendance.
  cbn [b_sessionId b_classId b_recognizedStudents].
  destruct (String.eqb_spec sid "") as [E|_]; [contradiction|].
  rewrite Ha, Hd.
  match goal with |- context [markLoop ?a ?b ?c ?d ?e ?f ?g ?h ?i] =>
    pose proof (markLoop_length b c d e f g i a h) as Hlen;
    destruct (markLoop a b c d e f g h i) as [s1 results]
  end.
  eexists _, results, _. split; [reflexivity | exact Hlen].
Qed.

(** X1.  A session that [startSession] opened under a fresh, non-empty
    id is in [activeSessions] and has an ['active'] document with the
    start time and the number of students of the class; no attendance is
    written.  From then on a [mark] request that carries this id is
    accepted whoever sends it and whatever class id it names: it gets one
    result per recognized student. *)
Theorem startSession_opens_session (s : Store) (user : User) (cid : ObjectId)
    (clock : Clock) (sid : string) (s' : Store) (sid' : string)
    (cid' : ObjectId) (d t0 : Z) :
  sid <> "" ->
  AttendanceSession.findOne (sessions s) sid = None ->
  startSession s user (Some cid) clock sid = (s', SessionStarted sid' cid' d t0) ->
  activeSessions s' !! sid
    = Some {| as_classId := cid; as_lecturerId := user_id user;
              as_date := isoDate (now clock); as_createdAt := now clock |}
  /\ (exists doc,
        AttendanceSession.findOne (sessions s') sid = Some doc
        /\ AttendanceSession.status doc = "active"
        /\ AttendanceSession.startTime doc = now clock
        /\ AttendanceSession.endTime doc = None
        /\ AttendanceSession.totalStudents doc
           = Student.countDocuments (students s) cid)
  /\ attendances s' = attendances s
  /\ forall (sender : User) (classId : ObjectId) (records : list RecognizedStudent)
       (clock0 : Clock) (clocks : nat -> Clock),
     exists s'' results n,
       markAttendance s' sender
         {| b_sessionId := Some sid; b_classId := Some classId;
            b_recognizedStudents := Some records |} clock0 clocks
       = (s'', Marked results n)
       /\ length results = length records.
Proof.
  intros Hne Hfresh. unfold startSession.
  destruct (Class.findById (classes s) cid) as [classDoc|]; [|discriminate].
  destruct (_ && _); [discriminate|].
  intros H. injection H as <- _ _ _ _.
  cbn [activeSessions sessions attendances setActiveSessions setSessions].
  match goal with |- context [sessions s ++ [?d0]] =>
    assert (AttendanceSession.findOne (sessions s ++ [d0]) sid = Some d0) as Hdoc
      by (apply findOne_app_fresh; [exact Hfresh | reflexivity])
  end.
  split; [apply lookup_insert_eq|]. split.
  { eexists. split; [exact Hdoc|]. repeat split. }
  split; [reflexivity|].
  intros sender classId records clock0 clocks.
  eapply markAttendance_accepted; [exact Hne | apply lookup_insert_eq | exact Hdoc].
Qed.

(** Lecturer A opens session 1 for class 1; lecturer B marks with it. *)
Lemma startSession_opens_session_witness :
  exists s'' results n,
    markAttendance Demo.started Demo.lecturerB
      {| b_sessionId := Some Demo.session1; b_classId := Some 2%N;
         b_recognizedStudents := Some [Demo.scan 7 None; Demo.scan 8 None] |}
      (Demo.clockAt Demo.T0) (fun _ => Demo.clockAt Demo.T0)
    = (s'', Marked results n)
    /\ length results = 2.
Proof.
  destruct (startSession_opens_session Demo.school Demo.lecturerA 1 (Demo.clockAt Demo.T0)
              Demo.session1 Demo.started Demo.session1 1 20023 Demo.T0)
    as (_ & _ & _ & H).
  - discriminate.
  - reflexivity.
  - reflexivity.
  - apply H.
Defined.

(** X2.  [startSession] opens a session exactly when the class exists
    and the actor, if a lecturer, is the lecturer of the class; every
    refusal leaves the store as it was. *)
Theorem startSession_refusal_writes_nothing (s : Store) (user : User)
    (classId : option ObjectId) (clock : Clock) (sid : string) :
  let out := startSession s user classId clock sid in
  ((exists sid' cid' d t0, out.2 = SessionStarted sid' cid' d t0)
   <-> exists cid classDoc,
         classId = Some cid
         /\ Class.findById (classes s) cid = Some classDoc
         /\ (role user = lecturer -> Class.lecturerId classDoc = user_id user))
  /\ (forall code msg, out.2 = Err code msg -> out.1 = s).
Proof.
  unfold startSession. destruct classId as [cid|]; cbv zeta; cbn [fst snd].
  2: { split; [|auto]. split; [intros (? & ? & ? & ? & H); discriminate
                               | intros (? & ? & H & _); discriminate]. }
  destruct (Class.findById (classes s) cid) as [classDoc|] eqn:Hc; cbn [fst snd].
  2: { split; [|auto]. split; [intros (? & ? & ? & ? & H); discriminate|].
       intros (? & ? & E & H & _). injection E as <-. rewrite Hc in H.
       discriminate. }
  destruct (bool_decide (role user = lecturer)) eqn:Hrole;
    [apply bool_decide_eq_true in Hrole | apply bool_decide_eq_false in Hrole];
    cbn [andb].
  - destruct (N.eqb_spec (Class.lecturerId classDoc) (user_id user)) as [Ho|Ho];
      cbn [negb fst snd].
    + split; [|intros; discriminate].
      split; [intros _; exists cid, classDoc; auto | intros _; do 4 eexists; reflexivity].
    + split; [|auto].
      split; [intros (? & ? & ? & ? & H); discriminate|].
      intros (cid0 & c0 & E & Hf & Hown). injection E as <-.
      rewrite Hf in Hc. injection Hc as <-. exfalso. auto.
  - split; [|intros; discriminate].
    split; [intros _; exists cid, classDoc; repeat split; auto; contradiction
           | intros _; do 4 eexists; reflexivity].
Qed.

Lemma findOne_save coll sid doc d :
  AttendanceSession.findOne coll sid = Some doc ->
  AttendanceSession.sessionId d = sid ->
  AttendanceSession.findOne (AttendanceSession.save coll d) sid = Some d.
Proof.
  unfold AttendanceSession.findOne. intros Hf <-.
  induction coll as [|x rest IH]; simpl in *; [discriminate|].
  destruct (AttendanceSession.sessionId x =? AttendanceSession.sessionId d)%string eqn:E.
  - simpl. rewrite String.eqb_refl. reflexivity.
  - simpl. rewrite E. auto.
Qed.

Lemma findOne_sessionId coll sid doc :
  AttendanceSession.findOne coll sid = Some doc ->
  AttendanceSession.sessionId doc = sid.
Proof.
  unfold AttendanceSession.findOne. intros H. apply List.find_some in H as [_ H].
  apply String.eqb_eq. exact H.
Qed.

Lemma countStatus_le coll sid :
  Attendance.countStatus coll sid "present" + Attendance.countStatus coll sid "absent"
  + Attendance.countStatus coll sid "late"
  <= length (List.filter (fun a => (Attendance.sessionId a =? sid)%string) coll).
Proof.
  unfold Attendance.countStatus.
  induction coll as [|a rest IH]; simpl; [lia|].
  destruct (Attendance.sessionId a =? sid)%string; simpl; [|exact IH].
  destruct (String.eqb_spec (Attendance.status a) "present") as [->|_]; simpl; [lia|].
  destruct (String.eqb_spec (Attendance.status a) "absent") as [->|_]; simpl; [lia|].
  destruct (Attendance.status a =? "late")%string; simpl; lia.
Qed.

(** The counters that [endSession] stores in the session document. *)
Lemma endSession_stores_counters (s : Store) (user : User) (sid : string)
    (clock : Clock) (session : ActiveSession) (doc : AttendanceSession.doc) :
  sid <> "" ->
  activeSessions s !! sid = Some session ->
  as_lecturerId session = user_id user ->
  AttendanceSession.findOne (sessions s) sid = Some doc ->
  exists doc',
    AttendanceSession.findOne (sessions (endSession s user (Some sid) clock).1) sid
    = Some doc'
    /\ AttendanceSession.endTime doc' = Some (now clock)
    /\ AttendanceSession.presentCount doc'
       = Attendance.countStatus (attendances s) sid "present"
    /\ AttendanceSession.absentCount doc'
       = Attendance.countStatus (attendances s) sid "absent"
    /\ AttendanceSession.lateCount doc'
       = Attendance.countStatus (attendances s) sid "late".
Proof.
  intros Hne Ha Hown Hdoc. unfold endSession.
  cbn [truthy orElse]. destruct (String.eqb_spec sid "") as [E|_]; [contradiction|].
  cbn [negb]. rewrite Ha, Hown, N.eqb_refl, Hdoc. cbn [negb].
  cbv zeta.
  cbn [fst snd activeSessions sessions attendances setActiveSessions setSessions
       addAuditLog].
  eexists. split.
  { eapply findOne_save; [exact Hdoc|]. cbn.
    eapply findOne_sessionId. exact Hdoc. }
  cbn. repeat split.
Qed.

(** X3.  When the user who started an active session ends it, the
    answer is a success; the session leaves [activeSessions] and no other
    session does; the attendance records are untouched; and the session
    document is ['completed'] with the end time and, as counters, the
    numbers of records of the session that are ['present'], ['absent'] and
    ['late'] at that moment (['excused'] records are in none of them). *)
Theorem endSession_closes_session (s : Store) (user : User) (sid : string)
    (clock : Clock) (session : ActiveSession) (doc : AttendanceSession.doc) :
  sid <> "" ->
  activeSessions s !! sid = Some session ->
  as_lecturerId session = user_id user ->
  AttendanceSession.findOne (sessions s) sid = Some doc ->
  let out := endSession s user (Some sid) clock in
  out.2 = SessionEnded
  /\ activeSessions out.1 !! sid = None
  /\ (forall other, other <> sid ->
        activeSessions out.1 !! other = activeSessions s !! other)
  /\ attendances out.1 = attendances s
  /\ exists doc',
       AttendanceSession.findOne (sessions out.1) sid = Some doc'
       /\ AttendanceSession.status doc' = "completed"
       /\ AttendanceSession.endTime doc' = Some (now clock)
       /\ AttendanceSession.startTime doc' = AttendanceSession.startTime doc
       /\ AttendanceSession.totalStudents doc' = AttendanceSession.totalStudents doc
       /\ AttendanceSession.presentCount doc'
          = Attendance.countStatus (attendances s) sid "present"
       /\ AttendanceSession.absentCount doc'
          = Attendance.countStatus (attendances s) sid "absent"
       /\ AttendanceSession.lateCount doc'
          = Attendance.countStatus (attendances s) sid "late"
       /\ AttendanceSession.presentCount doc' + AttendanceSession.absentCount doc'
          + AttendanceSession.lateCount doc'
          <= length (List.filter (fun a => (Attendance.sessionId a =? sid)%string)
                       (attendances s)).
Proof.
  intros Hne Ha Hown Hdoc. unfold endSession.
  cbn [truthy orElse]. destruct (String.eqb_spec sid "") as [E|_]; [contradiction|].
  cbn [negb]. rewrite Ha, Hown, N.eqb_refl, Hdoc. cbn [negb].
  cbv zeta.
  cbn [fst snd activeSessions sessions attendances setActiveSessions setSessions
       addAuditLog].
  split; [reflexivity|]. split; [apply lookup_delete_eq|].
  split; [intros other Ho; apply lookup_delete_ne; auto|].
  split; [reflexivity|].
  eexists. split.
  { eapply findOne_save; [exact Hdoc|]. cbn.
    eapply findOne_sessionId. exact Hdoc. }
  cbn. repeat split. apply countStatus_le.
Qed.

(** Lecturer A ends session 1 after one scan on time. *)
Lemma endSession_closes_session_witness :
  let out := endSession Demo.oneRecord Demo.lecturerA (Some Demo.session1)
               (Demo.clockAt (Demo.T0 + 50 * Demo.minute)) in
  out.2 = SessionEnded
  /\ activeSessions out.1 !! Demo.session1 = None
  /\ (AttendanceSession.presentCount
        <$> AttendanceSession.findOne (sessions out.1) Demo.session1) = Some 1.
Proof.
  destruct (endSession_closes_session Demo.oneRecord Demo.lecturerA Demo.session1
              (Demo.clockAt (Demo.T0 + 50 * Demo.minute))
              {| as_classId := 1; as_lecturerId := 10; as_date := 20023;
                 as_createdAt := Demo.T0 |}
              {| AttendanceSession.sessionId := Demo.session1;
                 AttendanceSession.classId := 1;
                 AttendanceSession.lecturerId := 10;
                 AttendanceSession.startTime := Demo.T0;
                 AttendanceSession.endTime := None;
                 AttendanceSession.date := 20023;
                 AttendanceSession.totalStudents := 2;
                 AttendanceSession.status := "active";
                 AttendanceSession.presentCount := 0;
                 AttendanceSession.absentCount := 0;
                 AttendanceSession.lateCount := 0 |})
    as (H1 & H2 & _ & _ & doc' & Hf & _ & _ & _ & _ & Hp & _).
  - discriminate.
  - vm_compute. reflexivity.
  - reflexivity.
  - vm_compute. reflexivity.
  - split; [exact H1|]. split; [exact H2|]. rewrite Hf. cbn. rewrite Hp.
    vm_compute. reflexivity.
Defined.

(** X4.  After the session was ended by its starter, a [mark] request
    that carries its id is refused and writes nothing, whoever sends it
    and whatever it holds. *)
Theorem no_mark_after_endSession (s : Store) (user : User) (sid : string)
    (clock : Clock) (session : ActiveSession) (sender : User) (body : MarkBody)
    (clock0 : Clock) (clocks : nat -> Clock) :
  activeSessions s !! sid = Some session ->
  as_lecturerId session = user_id user ->
  b_sessionId body = Some sid ->
  let s' := (endSession s user (Some sid) clock).1 in
  exists code msg, markAttendance s' sender body clock0 clocks = (s', Err code msg).
Proof.
  intros Ha Hown Hb s'.
  assert (sid = "" \/ activeSessions s' !! sid = None) as Hgone.
  { destruct (String.eqb_spec sid "") as [E|Hne]; [left; exact E | right].
    subst s'. unfold endSession. cbn [truthy orElse].
    destruct (String.eqb_spec sid "") as [E|_]; [contradiction|]. cbn [negb].
    rewrite Ha, Hown, N.eqb_refl. cbn [negb]. cbv zeta.
    cbn [fst activeSessions setActiveSessions addAuditLog].
    apply lookup_delete_eq. }
  unfold markAttendance. rewrite Hb.
  destruct (b_classId body); [|eauto].
  destruct (b_recognizedStudents body); [|eauto].
  destruct Hgone as [->|Hnone]; [cbn; eauto|].
  destruct (sid =? "")%string; [eauto|]. rewrite Hnone. eauto.
Qed.

(** A scan sent after session 1 was ended. *)
Lemma no_mark_after_endSession_witness :
  exists code msg,
    markAttendance Demo.ended Demo.lecturerA (c_body (Demo.markAt Demo.T0 [Demo.scan 7 None]))
      (Demo.clockAt Demo.T0) (fun _ => Demo.clockAt Demo.T0)
    = (Demo.ended, Err code msg).
Proof.
  apply (no_mark_after_endSession Demo.started Demo.lecturerA Demo.session1
           (Demo.clockAt (Demo.T0 + 50 * Demo.minute))
           {| as_classId := 1; as_lecturerId := 10; as_date := 20023;
              as_createdAt := Demo.T0 |}).
  - vm_compute. reflexivity.
  - reflexivity.
  - reflexivity.
Defined.

(** X5.  Only the user who started a session can end it: for anyone
    else, an administrator included, the answer is 403 and nothing is
    written; the session stays active. *)
Theorem endSession_only_by_starter (s : Store) (user : User) (sid : string)
    (clock : Clock) (session : ActiveSession) :
  sid <> "" ->
  activeSessions s !! sid = Some session ->
  as_lecturerId session <> user_id user ->
  endSession s user (Some sid) clock = (s, Err 403 "Access denied").
Proof.
  intros Hne Ha Hown. unfold endSession. cbn [truthy orElse].
  destruct (String.eqb_spec sid "") as [E|_]; [contradiction|]. cbn [negb].
  rewrite Ha. destruct (N.eqb_spec (as_lecturerId session) (user_id user));
    [contradiction | reflexivity].
Qed.

(** An administrator tries to end lecturer A's session. *)
Lemma endSession_only_by_starter_witness :
  endSession Demo.started {| user_id := 1; role := admin |} (Some Demo.session1)
    (Demo.clockAt (Demo.T0 + Demo.minute))
  = (Demo.started, Err 403 "Access denied").
Proof.
  apply (endSession_only_by_starter Demo.started {| user_id := 1; role := admin |}
           Demo.session1 (Demo.clockAt (Demo.T0 + Demo.minute))
           {| as_classId := 1; as_lecturerId := 10; as_date := 20023;
              as_createdAt := Demo.T0 |}).
  - discriminate.
  - vm_compute. reflexivity.
  - discriminate.
Defined.

End Sessions.

(** ** [markAttendance]: the batch *)

Section Batch.
Import Controller.

Lemma markLoop_results user sessionId classId today start clocks records :
  forall s i s' rs,
  markLoop s user sessionId classId today start clocks i records = (s', rs) ->
  Forall2 (fun record r =>
             if savable record
             then exists id late st c, r = Saved (r_studentId record) id late st c
             else r = Failed (r_studentId record)) records rs.
Proof.
  induction records as [|record rest IH]; intros s i s' rs; simpl.
  - intros H. injection H as <- <-. constructor.
  - destruct (markOne _ _ _ _ _ _ _ record) as [s1 r] eqn:H1.
    destruct (markLoop s1 _ _ _ _ _ _ _ rest) as [s2 rs'] eqn:H2.
    intros H. injection H as <- <-. constructor; [|eauto].
    destruct (markOne_spec _ _ _ _ _ _ _ _ _ _ H1) as (_ & Hr).
    destruct (savable record); [destruct Hr as (Hr & _) | destruct Hr as (Hr & _)];
      exact Hr.
Qed.

Lemma Forall2_results records rs :
  Forall2 (fun record r =>
             if savable record
             then exists id late st c, r = Saved (r_studentId record) id late st c
             else r = Failed (r_studentId record)) records rs ->
  map resultStudent rs = map r_studentId records
  /\ length (List.filter isSaved rs) = length (List.filter savable records)
  /\ forall i record, records !! i = Some record ->
       (savable record = false <-> rs !! i = Some (Failed (r_studentId record))).
Proof.
  induction 1 as [|record r records rs Hr _ IH]; simpl.
  - repeat split; intros; try discriminate.
  - destruct IH as (Hm & Hl & Hi).
    destruct (savable record) eqn:Hs.
    + destruct Hr as (id & late & st & c & ->). simpl. split; [congruence|].
      split; [lia|]. intros [|i] rcd; simpl.
      * intros E. injection E as <-. rewrite Hs. split; discriminate.
      * apply Hi.
    + subst r. simpl. split; [congruence|]. split; [lia|].
      intros [|i] rcd; simpl.
      * intros E. injection E as <-. rewrite Hs. split; reflexivity.
      * apply Hi.
Qed.

Lemma updateFirst_keeps (p : Attendance.doc -> bool) f coll coll' x a :
  Attendance.updateFirst p f coll = Some (coll', x) ->
  a ∈ coll -> p a = false -> a ∈ coll'.
Proof.
  revert coll' x. induction coll as [|b rest IH]; simpl; intros coll' x H Hin Hp.
  - discriminate.
  - destruct (p b) eqn:Hb.
    + injection H as <- _. apply elem_of_cons in Hin as [->|Hin]; [congruence|].
      right. exact Hin.
    + destruct (Attendance.updateFirst p f rest) as [[rest' x']|]; [|discriminate].
      injection H as <- _. apply elem_of_cons in Hin as [->|Hin]; [left|].
      right. eapply IH; eauto.
Qed.

Lemma markOne_keeps s user sessionId classId today start clock record a :
  let s' := (markOne s user sessionId classId today start clock record).1 in
  (activeSessions s' = activeSessions s /\ sessions s' = sessions s
   /\ classes s' = classes s /\ students s' = students s
   /\ auditLogs s' = auditLogs s)
  /\ (a ∈ attendances s ->
      Attendance.matches (r_studentId record) classId today sessionId a = false ->
      a ∈ attendances s').
Proof.
  unfold markOne. destruct (determineFinalStatus _ _ _) as [st c].
  destruct (Attendance.findOneAndUpdate _ _ _ _ _ _ _) as [[[coll a0] ins]|] eqn:Hup;
    cbn.
  2: { repeat split; auto. }
  split; [repeat split|]. intros Hin Hm.
  unfold Attendance.findOneAndUpdate in Hup.
  destruct (negb _); [discriminate|].
  destruct (Attendance.updateFirst _ _ _) as [[c1 a1]|] eqn:Hu.
  - injection Hup as <- _ _. eapply updateFirst_keeps; eauto.
  - injection Hup as <- _ _. apply elem_of_app. left. exact Hin.
Qed.

Lemma markLoop_keeps user sessionId classId today start clocks records a :
  forall s i,
  let s' := (markLoop s user sessionId classId today start clocks i records).1 in
  (activeSessions s' = activeSessions s /\ sessions s' = sessions s
   /\ classes s' = classes s /\ students s' = students s
   /\ auditLogs s' = auditLogs s)
  /\ (a ∈ attendances s ->
      (forall record, record ∈ records ->
         Attendance.matches (r_studentId record) classId today sessionId a = false) ->
      a ∈ attendances s').
Proof.
  induction records as [|record rest IH]; intros s i; simpl;
    [repeat split; auto|].
  pose proof (markOne_keeps s user sessionId classId today start (clocks i) record a) as H1.
  destruct (markOne _ _ _ _ _ _ _ record) as [s1 r].
  specialize (IH s1 (S i)).
  destruct (markLoop s1 _ _ _ _ _ _ _ rest) as [s2 rs]. simpl in *.
  destruct H1 as ((E1 & E2 & E3 & E4 & E5) & K1).
  destruct IH as ((F1 & F2 & F3 & F4 & F5) & K2).
  split; [repeat split; congruence|].
  intros Hin Hall. apply K2.
  - apply K1; [exact Hin | apply Hall; left].
  - intros rcd Hr. apply Hall. right. exact Hr.
Qed.

(** X6.  An accepted [mark] request answers with one result per
    recognized student, in the order of the request; the result of a
    student is [error] exactly when the status sent for that student is
    not an attendance status, and this does not keep the others from being
    saved: the number of saved records is the number of students whose
    status is missing or valid.  One audit entry is written, with the
    number of students of the request. *)
Theorem markAttendance_one_result_per_student (s : Store) (user : User)
    (body : MarkBody) (clock0 : Clock) (clocks : nat -> Clock) (s' : Store)
    (results : list MarkResult) (n : nat) (records : list RecognizedStudent) :
  markAttendance s user body clock0 clocks = (s', Marked results n) ->
  b_recognizedStudents body = Some records ->
  map resultStudent results = map r_studentId records
  /\ n = length (List.filter savable records)
  /\ (forall i record, records !! i = Some record ->
        (savable record = false <-> results !! i = Some (Failed (r_studentId record))))
  /\ exists entry,
       auditLogs s' = auditLogs s ++ [entry]
       /\ AuditLog.action entry = "MARK_ATTENDANCE"
       /\ AuditLog.count entry = Some (length records).
Proof.
  unfold markAttendance. intros H Hb. rewrite Hb in H.
  destruct (b_sessionId body) as [sessionId|]; [|discriminate].
  destruct (b_classId body) as [classId|]; [|discriminate].
  destruct (sessionId =? "")%string; [discriminate|].
  destruct (activeSessions s !! sessionId); [|discriminate].
  destruct (AttendanceSession.findOne (sessions s) sessionId) as [doc|]; [|discriminate].
  destruct (markLoop s _ _ _ _ _ _ _ _) as [s1 rs] eqn:Hloop.
  injection H as <- <- <-.
  pose proof (markLoop_results _ _ _ _ _ _ _ _ _ _ _ Hloop) as HF.
  destruct (Forall2_results _ _ HF) as (Hm & Hl & Hi).
  split; [exact Hm|]. split; [exact Hl|]. split; [exact Hi|].
  pose proof (markLoop_keeps user sessionId classId (isoDate (now clock0))
                (AttendanceSession.startTime doc) clocks records
                (Attendance.newDoc 0 0 0 0 ""
                   {| Attendance.u_lecturerId := 0; Attendance.u_time := "";
                      Attendance.u_lastScanTime := 0; Attendance.u_status := "";
                      Attendance.u_consecutiveLateCount := 0;
                      Attendance.u_capturedOffline := false |}) s 0) as HK.
  rewrite Hloop in HK. cbn in HK. destruct HK as ((_ & _ & _ & _ & E) & _).
  eexists. cbn [auditLogs addAuditLog]. rewrite E.
  split; [reflexivity|]. split; reflexivity.
Qed.

(** A batch of two students; the status sent for student 8 is not one. *)
Lemma markAttendance_one_result_per_student_witness :
  exists s' results,
    markAttendance Demo.started Demo.lecturerA
      (c_body (Demo.markAt Demo.T0 [Demo.scan 8 (Some "sick"); Demo.scan 7 None]))
      (Demo.clockAt Demo.T0) (fun _ => Demo.clockAt Demo.T0)
    = (s', Marked results 1)
    /\ map resultStudent results = [8%N; 7%N]
    /\ results !! 0 = Some (Failed 8).
Proof.
  eexists _, _. split; [reflexivity|].
  destruct (markAttendance_one_result_per_student Demo.started Demo.lecturerA
              (c_body (Demo.markAt Demo.T0 [Demo.scan 8 (Some "sick"); Demo.scan 7 None]))
              (Demo.clockAt Demo.T0) (fun _ => Demo.clockAt Demo.T0)
              _ _ _ [Demo.scan 8 (Some "sick"); Demo.scan 7 None] eq_refl eq_refl)
    as (Hm & _ & Hi & _).
  split; [exact Hm|].
  apply (Hi 0 (Demo.scan 8 (Some "sick")) eq_refl). reflexivity.
Defined.

(** X7.  A [mark] request writes attendance records and its audit entry
    and nothing else: the sessions, the active sessions, the classes and
    the students are as before, and every record whose key (student,
    class, day, session) is not that of a scan of the request is still in
    the collection, unchanged. *)
Theorem markAttendance_touches_only_scanned_keys (s : Store) (user : User)
    (body : MarkBody) (clock0 : Clock) (clocks : nat -> Clock) :
  let s' := (markAttendance s user body clock0 clocks).1 in
  activeSessions s' = activeSessions s
  /\ sessions s' = sessions s
  /\ classes s' = classes s
  /\ students s' = students s
  /\ forall a, a ∈ attendances s ->
       (forall sessionId classId records record,
          b_sessionId body = Some sessionId -> b_classId body = Some classId ->
          b_recognizedStudents body = Some records -> record ∈ records ->
          Attendance.matches (r_studentId record) classId (isoDate (now clock0))
            sessionId a = false) ->
       a ∈ attendances s'.
Proof.
  unfold markAttendance.
  destruct (b_sessionId body) as [sessionId|]; [|cbn; auto 10].
  destruct (b_classId body) as [classId|]; [|cbn; auto 10].
  destruct (b_recognizedStudents body) as [records|]; [|cbn; auto 10].
  destruct (sessionId =? "")%string; [cbn; auto 10|].
  destruct (activeSessions s !! sessionId) as [sess|]; [|cbn; auto 10].
  destruct (AttendanceSession.findOne (sessions s) sessionId) as [doc|]; [|cbn; auto 10].
  match goal with |- context [markLoop ?x ?b ?c ?d ?e ?f ?g ?h ?i] =>
    pose proof (fun a => markLoop_keeps b c d e f g i a x h) as HK;
    destruct (markLoop x b c d e f g h i) as [s1 rs]
  end.
  cbn in *. destruct (HK (Attendance.newDoc 0 0 0 0 "" 
    {| Attendance.u_lecturerId := 0; Attendance.u_time := "";
       Attendance.u_lastScanTime := 0; Attendance.u_status := "";
       Attendance.u_consecutiveLateCount := 0;
       Attendance.u_capturedOffline := false |})) as ((E1 & E2 & E3 & E4 & _) & _).
  repeat split; auto.
  intros a Hin Hall. apply (HK a); [exact Hin|].
  intros record Hr. eapply Hall; eauto.
Qed.

End Batch.

(** ** [manualOverride]: what it writes *)

Section Override.
Import Controller.

Lemma updateFirst_pointwise (p : Attendance.doc -> bool) f coll coll' x :
  Attendance.updateFirst p f coll = Some (coll', x) ->
  length coll' = length coll
  /\ forall i a, coll !! i = Some a ->
       coll' !! i = Some a \/ (p a = true /\ coll' !! i = Some (f a)).
Proof.
  revert coll' x. induction coll as [|b rest IH]; simpl; intros coll' x H.
  - discriminate.
  - destruct (p b) eqn:Hb.
    + injection H as <- _. split; [reflexivity|].
      intros [|i] a; simpl; [|auto].
      intros E. injection E as <-. right. auto.
    + destruct (Attendance.updateFirst p f rest) as [[rest' x']|]; [|discriminate].
      injection H as <- _. destruct (IH _ _ eq_refl) as (Hl & Hi).
      split; [simpl; congruence|].
      intros [|i] a; simpl; [auto | apply Hi].
Qed.

Lemma withKey_pointwise (coll coll' : list Attendance.doc) :
  length coll' = length coll ->
  (forall i a, coll !! i = Some a ->
     exists a', coll' !! i = Some a'
       /\ Attendance.studentId a' = Attendance.studentId a
       /\ Attendance.classId a' = Attendance.classId a
       /\ Attendance.date a' = Attendance.date a
       /\ Attendance.sessionId a' = Attendance.sessionId a) ->
  forall sid cid d sess,
    length (Attendance.withKey coll' sid cid d sess)
    = length (Attendance.withKey coll sid cid d sess).
Proof.
  revert coll'. induction coll as [|a rest IH]; intros [|a' rest'] Hl Hp sid cid d sess;
    try discriminate; [reflexivity|].
  unfold Attendance.withKey in *. simpl.
  destruct (Hp 0 a eq_refl) as (a0 & E & H1 & H2 & H3 & H4). injection E as <-.
  assert (Attendance.matches sid cid d sess a' = Attendance.matches sid cid d sess a) as ->.
  { unfold Attendance.matches. rewrite H1, H2, H3, H4. reflexivity. }
  assert (length (List.filter (Attendance.matches sid cid d sess) rest')
          = length (List.filter (Attendance.matches sid cid d sess) rest)) as E.
  { apply IH; [simpl in Hl; lia|]. intros i a0 Hi. apply (Hp (S i) a0 Hi). }
  destruct (Attendance.matches sid cid d sess a); simpl; rewrite E; reflexivity.
Qed.

(** X8.  [manualOverride] refuses a request without an id or a status,
    with a status that is not one of the four, or with an unknown id,
    before any write: whenever it answers with an error other than 403,
    the store is as it was. *)
Theorem manualOverride_refusal_before_write (s : Store) (user : User)
    (attendanceId : option ObjectId) (status remark : option string)
    (s' : Store) (code : Z) (msg : string) :
  manualOverride s user attendanceId status remark = (s', Err code msg) ->
  code <> 403%Z ->
  s' = s.
Proof.
  unfold manualOverride. destruct attendanceId as [id|]; [|congruence].
  destruct (negb (truthy status)); [congruence|].
  destruct (negb (bool_decide _)); [congruence|].
  destruct (Attendance.findByIdAndUpdate _ _ _ _) as [[coll a]|]; [|congruence].
  destruct (_ && _); [|discriminate].
  intros H Hc. injection H as _ E _. congruence.
Qed.

(** No record has the id 999. *)
Lemma manualOverride_refusal_before_write_witness :
  manualOverride Demo.oneRecord Demo.lecturerA (Some 999%N) (Some "late") None
  = (Demo.oneRecord, Err 404 "Attendance record not found").
Proof.
  assert (exists s', manualOverride Demo.oneRecord Demo.lecturerA (Some 999%N)
                       (Some "late") None
                     = (s', Err 404 "Attendance record not found")) as (s' & H)
    by (eexists; reflexivity).
  rewrite H. f_equal.
  apply (manualOverride_refusal_before_write _ _ _ _ _ _ _ _ H). discriminate.
Defined.

Lemma manualOverride_sessions (s : Store) (user : User)
    (attendanceId : option ObjectId) (status remark : option string) :
  sessions (manualOverride s user attendanceId status remark).1 = sessions s.
Proof.
  unfold manualOverride. destruct attendanceId as [id|]; [|reflexivity].
  destruct (negb (truthy status)); [reflexivity|].
  destruct (negb (bool_decide _)); [reflexivity|].
  destruct (Attendance.findByIdAndUpdate _ _ _ _) as [[coll a]|]; [|reflexivity].
  destruct (_ && _); reflexivity.
Qed.

(** X9.  Whatever it answers, [manualOverride] leaves the sessions
    (with their counters), the active sessions, the classes, the students
    and the audit log as they were: an override is not logged and does
    not refresh the counters of an ended session.  In the attendance
    collection only records with the requested id can change, and only
    in status and remark; the number of records under each (student,
    class, day, session) stays the same. *)
Theorem manualOverride_changes_one_record (s : Store) (user : User)
    (attendanceId : option ObjectId) (status remark : option string) :
  let s' := (manualOverride s user attendanceId status remark).1 in
  activeSessions s' = activeSessions s
  /\ sessions s' = sessions s
  /\ classes s' = classes s
  /\ students s' = students s
  /\ auditLogs s' = auditLogs s
  /\ length (attendances s') = length (attendances s)
  /\ (forall i a, attendances s !! i = Some a ->
        attendances s' !! i = Some a
        \/ (attendanceId = Some (Attendance._id a)
            /\ attendances s' !! i
               = Some (Attendance.setStatusRemark (orElse status "") remark a)))
  /\ forall sid cid d sess, count s' sid cid d sess = count s sid cid d sess.
Proof.
  unfold manualOverride. destruct attendanceId as [id|]; [|cbn; auto 10].
  destruct (negb (truthy status)); [cbn; auto 10|].
  destruct (negb (bool_decide _)); [cbn; auto 10|].
  unfold Attendance.findByIdAndUpdate.
  destruct (Attendance.updateFirst _ _ _) as [[coll a]|] eqn:Hu; [|cbn; auto 10].
  destruct (updateFirst_pointwise _ _ _ _ _ Hu) as (Hl & Hp).
  assert (forall i a0, attendances s !! i = Some a0 ->
            coll !! i = Some a0
            \/ (Some id = Some (Attendance._id a0)
                /\ coll !! i
                   = Some (Attendance.setStatusRemark (orElse status "") remark a0)))
    as Hpoint.
  { intros i a0 Hi. destruct (Hp i a0 Hi) as [H|[Hid H]]; [left; exact H|].
    right. apply N.eqb_eq in Hid. split; [congruence | exact H]. }
  assert (forall sid cid d sess,
            length (Attendance.withKey coll sid cid d sess)
            = length (Attendance.withKey (attendances s) sid cid d sess)) as Hcount.
  { apply withKey_pointwise; [exact Hl|]. intros i a0 Hi.
    destruct (Hpoint i a0 Hi) as [H|[_ H]]; eexists; (split; [exact H|]);
      repeat split. }
  destruct (_ && _); cbn; unfold count; cbn; repeat split; auto.
Qed.

End Override.

(** ** Who sees which attendance records: [getAttendanceHistory] *)

Section History.
Import Controller Queries.

Lemma insertBy_Permutation {A} (before : A -> A -> bool) x l :
  insertBy before x l ≡ₚ x :: l.
Proof.
  induction l as [|y rest IH]; simpl; [reflexivity|].
  destruct (before y x); [|reflexivity].
  rewrite IH. apply Permutation_swap.
Qed.

Lemma sortBy_Permutation {A} (before : A -> A -> bool) l :
  sortBy before l ≡ₚ l.
Proof.
  induction l as [|x rest IH]; simpl; [reflexivity|].
  rewrite insertBy_Permutation, IH. reflexivity.
Qed.

Lemma sortBy_sorted {A} (before : A -> A -> bool) (R : A -> A -> Prop) l :
  (forall x y z, R x y -> R y z -> R x z) ->
  (forall x y, before y x = true -> R y x) ->
  (forall x y, before y x = false -> R x y) ->
  StronglySorted R (sortBy before l).
Proof.
  intros Htrans Hyes Hno.
  assert (forall x l0, StronglySorted R l0 -> StronglySorted R (insertBy before x l0))
    as Hins.
  { intros x l0 Hs. induction Hs as [|y rest Hs IH Hall]; simpl.
    - constructor; constructor.
    - destruct (before y x) eqn:E.
      + constructor; [exact IH|].
        rewrite insertBy_Permutation. constructor; [apply Hyes; exact E | exact Hall].
      + constructor; [constructor; assumption|].
        constructor; [apply Hno; exact E|].
        eapply Forall_impl; [exact Hall|]. intros z Hz.
        eapply Htrans; [apply Hno; exact E | exact Hz]. }
  induction l as [|x rest IH]; simpl; [constructor | apply Hins, IH].
Qed.

Lemma StronglySorted_take {A} (R : A -> A -> Prop) n l :
  StronglySorted R l -> StronglySorted R (take n l).
Proof.
  intros Hs. revert n. induction Hs as [|x rest Hs IH Hall]; intros [|n]; simpl;
    try constructor; [apply IH | apply Forall_take; exact Hall].
Qed.

Lemma StronglySorted_lookup {A} (R : A -> A -> Prop) l i j a b :
  StronglySorted R l -> i < j -> l !! i = Some a -> l !! j = Some b -> R a b.
Proof.
  intros Hs. revert i j. induction Hs as [|x rest Hs IH Hall]; intros i j Hij Hi Hj.
  - discriminate.
  - destruct j as [|j]; [lia|]. destruct i as [|i]; simpl in *.
    + injection Hi as <-. rewrite Forall_forall in Hall. apply Hall.
      eapply list_elem_of_lookup_2. exact Hj.
    + eapply (IH i j); eauto. lia.
Qed.

Lemma findHistory_elem s q a :
  a ∈ findHistory s q -> a ∈ attendances s /\ holds q a = true.
Proof.
  unfold findHistory. intros H. apply subseteq_take in H.
  rewrite sortBy_Permutation in H.
  apply list_elem_of_In, List.filter_In in H as [H1 H2].
  split; [apply list_elem_of_In; exact H1 | exact H2].
Qed.

Lemma assignedClasses_elem s user cid :
  cid ∈ assignedClasses s user ->
  exists c, c ∈ classes s /\ Class._id c = cid /\ Class.lecturerId c = user_id user.
Proof.
  unfold assignedClasses. intros (c & -> & Hc)%list_elem_of_fmap.
  apply list_elem_of_In, List.filter_In in Hc as [H1 H2].
  exists c. split; [apply list_elem_of_In; exact H1|]. split; [reflexivity|].
  apply N.eqb_eq. exact H2.
Qed.



(** X11.  A lecturer who gets an attendance history gets only records
    of classes of which they are the lecturer; asking for another class
    is refused with 403 (when the lecturer has a class at all). *)
Theorem lecturer_sees_own_classes_only (s : Store) (user : User)
    (linkedStudentId : option ObjectId) (q : HistoryQuery) :
  role user = lecturer ->
  (forall found,
     getAttendanceHistory s user linkedStudentId q = Answered found ->
     forall a, a ∈ found ->
       a ∈ attendances s
       /\ exists c, c ∈ classes s /\ Class._id c = Attendance.classId a
                    /\ Class.lecturerId c = user_id user)
  /\ (forall classId,
        h_classId q = Some classId -> assignedClasses s user <> [] ->
        classId ∉ assignedClasses s user ->
        getAttendanceHistory s user linkedStudentId q
        = Refused 403 "Access denied. You do not have access to this class.").
Proof.
  intros Hrole. unfold getAttendanceHistory. rewrite Hrole. cbv zeta. split.
  - intros found.
    destruct (length (assignedClasses s user) =? 0).
    { intros H. injection H as <-. intros a Ha. inversion Ha. }
    destruct (h_classId q) as [classId|].
    + destruct (bool_decide (classId ∈ assignedClasses s user)) eqn:Hown;
        [|discriminate].
      apply bool_decide_eq_true in Hown. cbn [negb].
      intros H. injection H as <-.
      intros a (Hin & Hh)%findHistory_elem. split; [exact Hin|].
      unfold holds in Hh. cbn in Hh.
      apply andb_true_iff in Hh as [Hh _]. apply andb_true_iff in Hh as [Hh _].
      apply N.eqb_eq in Hh. rewrite Hh. apply assignedClasses_elem. exact Hown.
    + intros H. injection H as <-.
      intros a (Hin & Hh)%findHistory_elem. split; [exact Hin|].
      unfold holds in Hh. cbn in Hh.
      apply andb_true_iff in Hh as [Hh _]. apply andb_true_iff in Hh as [Hh _].
      apply bool_decide_eq_true in Hh. apply assignedClasses_elem. exact Hh.
  - intros classId Hq Hne Hnot. rewrite Hq.
    destruct (assignedClasses s user) as [|c0 rest] eqn:E; [contradiction|].
    cbn [length Nat.eqb]. rewrite bool_decide_false by exact Hnot. reflexivity.
Qed.

(** Lecturer B, who has no class, and lecturer A, who has class 1. *)
Lemma lecturer_sees_own_classes_only_witness :
  getAttendanceHistory Demo2.marked Demo.lecturerB None Demo2.everything = Answered []
  /\ exists found,
       getAttendanceHistory Demo2.marked Demo.lecturerA None Demo2.everything
       = Answered found
       /\ length found = 2
       /\ forall a, a ∈ found -> Attendance.classId a = 1%N.
Proof.
  split; [reflexivity|]. eexists. split; [reflexivity|]. split; [reflexivity|].
  destruct (lecturer_sees_own_classes_only Demo2.marked Demo.lecturerA None
              Demo2.everything eq_refl) as [H _].
  intros a Ha. destruct (H _ eq_refl a Ha) as (_ & c & Hc & <- & _).
  vm_compute in Hc. apply list_elem_of_singleton in Hc. subst c. reflexivity.
Defined.

(** X12.  An attendance history holds at most 1000 records, all of
    them stored records in the range of days asked for, and lists them
    most recent day first. *)
Theorem history_recent_first (s : Store) (user : User)
    (linkedStudentId : option ObjectId) (q : HistoryQuery)
    (found : list Attendance.doc) :
  getAttendanceHistory s user linkedStudentId q = Answered found ->
  length found <= 1000
  /\ (forall a, a ∈ found ->
        a ∈ attendances s
        /\ (forall lo, h_dateFrom q = Some lo -> (lo <= Attendance.date a)%Z)
        /\ (forall hi, h_dateTo q = Some hi -> (Attendance.date a <= hi)%Z))
  /\ forall i j a b, i < j -> found !! i = Some a -> found !! j = Some b ->
       (Attendance.date b <= Attendance.date a)%Z.
Proof.
  assert (forall cc sc,
            let l := findHistory s {| f_classId := cc; f_studentId := sc;
                                      f_dateGte := h_dateFrom q;
                                      f_dateLte := h_dateTo q |} in
            length l <= 1000
            /\ (forall a, a ∈ l ->
                  a ∈ attendances s
                  /\ (forall lo, h_dateFrom q = Some lo -> (lo <= Attendance.date a)%Z)
                  /\ (forall hi, h_dateTo q = Some hi -> (Attendance.date a <= hi)%Z))
            /\ forall i j a b, i < j -> l !! i = Some a -> l !! j = Some b ->
                 (Attendance.date b <= Attendance.date a)%Z) as Hfind.
  { intros cc sc l. split; [|split].
    - subst l. unfold findHistory. rewrite length_take. lia.
    - intros a (Hin & Hh)%findHistory_elem. split; [exact Hin|].
      unfold holds, dateHolds in Hh. cbn in Hh.
      apply andb_true_iff in Hh as [_ Hh]. apply andb_true_iff in Hh as [H1 H2].
      split; intros b E; rewrite E in *; lia.
    - intros i j a b Hij Hi Hj.
      apply (StronglySorted_lookup
               (fun a b => (Attendance.date b <= Attendance.date a)%Z) l i j a b);
        auto.
      subst l. unfold findHistory. apply StronglySorted_take, sortBy_sorted.
      + intros x y z; lia.
      + intros x y. unfold laterFirst. intros H. apply orb_true_iff in H as [H|H]; [lia|].
        apply andb_true_iff in H as [H _]. lia.
      + intros x y. unfold laterFirst. intros H. apply orb_false_iff in H as [H _]. lia. }
  assert (length (@nil Attendance.doc) <= 1000
          /\ (forall a, a ∈ @nil Attendance.doc ->
                a ∈ attendances s
                /\ (forall lo, h_dateFrom q = Some lo -> (lo <= Attendance.date a)%Z)
                /\ (forall hi, h_dateTo q = Some hi -> (Attendance.date a <= hi)%Z))
          /\ forall i j a b, i < j -> @nil Attendance.doc !! i = Some a ->
               @nil Attendance.doc !! j = Some b ->
               (Attendance.date b <= Attendance.date a)%Z) as Hnil.
  { split; [simpl; lia|]. split; [intros a Ha; inversion Ha|].
    intros i j a b _ Hi. discriminate. }
  unfold getAttendanceHistory. cbv zeta.
  destruct (role user).
  - intros H. injection H as <-. apply Hfind.
  - intros H. injection H as <-. apply Hfind.
  - destruct (length (assignedClasses s user) =? 0).
    { intros H. injection H as <-. exact Hnil. }
    destruct (h_classId q) as [classId|].
    + destruct (negb _); [discriminate|]. intros H. injection H as <-. apply Hfind.
    + intros H. injection H as <-. apply Hfind.
  - destruct linkedStudentId; [|discriminate]. intros H. injection H as <-. apply Hfind.
Qed.

(** The administrator lists everything. *)
Lemma history_recent_first_witness :
  exists found,
    getAttendanceHistory Demo2.marked Demo2.adminUser None Demo2.everything
    = Answered found
    /\ length found = 2 /\ length found <= 1000.
Proof.
  eexists. split; [reflexivity|]. split; [reflexivity|].
  apply (history_recent_first Demo2.marked Demo2.adminUser None Demo2.everything _
           eq_refl).
Defined.

End History.

(** ** The list of sessions: [getSessionHistory] *)

Section SessionHistory.
Import Controller Queries.

Lemma sessionRows_rows found :
  forall s,
  Forall2 (fun doc row =>
             row_sessionId row = AttendanceSession.sessionId doc
             /\ row_classId row = AttendanceSession.classId doc
             /\ row_date row = AttendanceSession.date doc
             /\ row_endTime row = AttendanceSession.endTime doc)
    found (sessionRows s found).2.
Proof.
  induction found as [|doc rest IH]; intros s; [constructor|].
  cbn [sessionRows].
  destruct (sessionRow s doc) as [s1 row] eqn:E1.
  specialize (IH s1).
  destruct (sessionRows s1 rest) as [s2 rows] eqn:E2.
  cbn [snd] in *.
  constructor; [|exact IH].
  unfold sessionRow in E1. cbv zeta in E1. injection E1 as _ <-.
  repeat split.
Qed.

Lemma findSessions_elem s cc lc q doc :
  doc ∈ findSessions s cc lc q ->
  doc ∈ sessions s /\ sessionHolds cc lc q doc = true.
Proof.
  unfold findSessions. intros H. apply subseteq_take in H.
  rewrite sortBy_Permutation in H.
  apply list_elem_of_In, List.filter_In in H as [H1 H2].
  split; [apply list_elem_of_In; exact H1 | exact H2].
Qed.

(** X13.  The list of sessions never shows a session that is not
    ['completed'], and holds at most 500 rows.  A viewer gets an empty
    list and nothing is written.  A lecturer gets only sessions that
    they started themselves for a class of which they are the lecturer. *)
Theorem session_history_visibility (s : Store) (user : User) (q : SessionQuery) :
  let out := getSessionHistory s user q in
  (role user = viewer -> out = (s, Answered []))
  /\ forall rows, out.2 = Answered rows ->
       length rows <= 500
       /\ forall row, row ∈ rows ->
            exists doc, doc ∈ sessions s
              /\ AttendanceSession.sessionId doc = row_sessionId row
              /\ AttendanceSession.classId doc = row_classId row
              /\ AttendanceSession.status doc = "completed"
              /\ (role user = lecturer ->
                  AttendanceSession.lecturerId doc = user_id user
                  /\ exists c, c ∈ classes s
                       /\ Class._id c = AttendanceSession.classId doc
                       /\ Class.lecturerId c = user_id user).
Proof.
  assert (forall cc lc,
            (role user = lecturer ->
             forall doc, sessionHolds cc lc q doc = true ->
               AttendanceSession.lecturerId doc = user_id user
               /\ exists c, c ∈ classes s
                    /\ Class._id c = AttendanceSession.classId doc
                    /\ Class.lecturerId c = user_id user) ->
            forall rows,
              (sessionRows s (findSessions s cc lc q)).2 = rows ->
              length rows <= 500
              /\ forall row, row ∈ rows ->
                   exists doc, doc ∈ sessions s
                     /\ AttendanceSession.sessionId doc = row_sessionId row
                     /\ AttendanceSession.classId doc = row_classId row
                     /\ AttendanceSession.status doc = "completed"
                     /\ (role user = lecturer ->
                         AttendanceSession.lecturerId doc = user_id user
                         /\ exists c, c ∈ classes s
                              /\ Class._id c = AttendanceSession.classId doc
                              /\ Class.lecturerId c = user_id user)) as Hrows.
  { intros cc lc Hlec rows <-.
    pose proof (sessionRows_rows (findSessions s cc lc q) s) as HF.
    split.
    - rewrite <- (Forall2_length _ _ _ HF). unfold findSessions.
      rewrite length_take. lia.
    - intros row (i & Hi)%list_elem_of_lookup_1.
      destruct (Forall2_lookup_r _ _ _ _ _ HF Hi) as (doc & Hd & E1 & E2 & _).
      apply list_elem_of_lookup_2 in Hd.
      apply findSessions_elem in Hd as [Hin Hh].
      exists doc. split; [exact Hin|]. split; [auto|]. split; [auto|]. split.
      + unfold sessionHolds in Hh. repeat (apply andb_true_iff in Hh as [Hh _]).
        apply String.eqb_eq. exact Hh.
      + intros Hr. apply Hlec; auto. }
  unfold getSessionHistory. cbv zeta. split.
  { intros ->. reflexivity. }
  destruct (role user) eqn:Hrole.
  - intros rows. destruct (sessionRows _ _) as [s' rs] eqn:E. cbn [snd].
    intros H. injection H as <-. eapply Hrows; [discriminate | rewrite E; reflexivity].
  - intros rows. destruct (sessionRows _ _) as [s' rs] eqn:E. cbn [snd].
    intros H. injection H as <-. eapply Hrows; [discriminate | rewrite E; reflexivity].
  - destruct (length (assignedClasses s user) =? 0).
    { intros rows H. injection H as <-. split; [simpl; lia|].
      intros row Hr. inversion Hr. }
    destruct (sq_classId q) as [classId|].
    + destruct (bool_decide (classId ∈ assignedClasses s user)) eqn:Hown;
        cbn [negb]; [|intros rows H; discriminate].
      apply bool_decide_eq_true in Hown.
      intros rows. destruct (sessionRows _ _) as [s' rs] eqn:E. cbn [snd].
      intros H. injection H as <-. eapply Hrows; [|rewrite E; reflexivity].
      intros _ doc Hh. unfold sessionHolds in Hh.
      apply andb_true_iff in Hh as [Hh _]. apply andb_true_iff in Hh as [Hh Hl].
      apply andb_true_iff in Hh as [_ Hc]. cbn in Hc, Hl.
      apply N.eqb_eq in Hc, Hl. split; [exact Hl|]. rewrite Hc.
      apply assignedClasses_elem. exact Hown.
    + intros rows. destruct (sessionRows _ _) as [s' rs] eqn:E. cbn [snd].
      intros H. injection H as <-. eapply Hrows; [|rewrite E; reflexivity].
      intros _ doc Hh. unfold sessionHolds in Hh.
      apply andb_true_iff in Hh as [Hh _]. apply andb_true_iff in Hh as [Hh Hl].
      apply andb_true_iff in Hh as [_ Hc]. cbn in Hc, Hl.
      apply N.eqb_eq in Hl. apply bool_decide_eq_true in Hc.
      split; [exact Hl|]. apply assignedClasses_elem. exact Hc.
  - intros rows H. injection H as <-. split; [simpl; lia|].
    intros row Hr. inversion Hr.
Qed.

(** Lecturer A asks for all sessions of the store in which session 1 was
    ended: one row, that of session 1 of class 1. *)
Lemma session_history_visibility_witness :
  exists rows,
    (getSessionHistory Demo2.endedWithOne Demo.lecturerA Demo2.allSessions).2
    = Answered rows
    /\ length rows <= 500
    /\ forall row, row ∈ rows ->
         exists doc, doc ∈ sessions Demo2.endedWithOne
           /\ AttendanceSession.sessionId doc = row_sessionId row
           /\ AttendanceSession.status doc = "completed"
           /\ AttendanceSession.lecturerId doc = 10%N.
Proof.
  destruct (getSessionHistory Demo2.endedWithOne Demo.lecturerA Demo2.allSessions).2
    as [code err|rows] eqn:E; [vm_compute in E; discriminate|].
  exists rows. split; [reflexivity|].
  destruct (session_history_visibility Demo2.endedWithOne Demo.lecturerA
              Demo2.allSessions) as [_ H].
  destruct (H rows E) as [Hlen Hrows]. split; [exact Hlen|].
  intros row Hr. destruct (Hrows row Hr) as (doc & H1 & H2 & _ & H4 & H5).
  exists doc. repeat split; auto. apply H5. reflexivity.
Defined.

(** X14.  The counters shown for an ended session whose stored
    [presentCount] is not 0 are the stored ones, and showing them writes
    nothing: after [endSession] has stored them, an override of a record
    of the session changes the records and not what the list of sessions
    shows.  (With a stored [presentCount] of 0 the counters are counted
    again from the records and saved.) *)
Theorem session_counters_fixed_at_end (s : Store) (user : User) (sid : string)
    (clock : Clock) (session : ActiveSession) (doc : AttendanceSession.doc)
    (actor : User) (attendanceId : option ObjectId) (status remark : option string) :
  sid <> "" ->
  activeSessions s !! sid = Some session ->
  as_lecturerId session = user_id user ->
  AttendanceSession.findOne (sessions s) sid = Some doc ->
  Attendance.countStatus (attendances s) sid "present" <> 0 ->
  let s1 := (endSession s user (Some sid) clock).1 in
  let s2 := (manualOverride s1 actor attendanceId status remark).1 in
  exists doc',
    AttendanceSession.findOne (sessions s2) sid = Some doc'
    /\ (sessionRow s2 doc').1 = s2
    /\ row_presentCount (sessionRow s2 doc').2
       = Attendance.countStatus (attendances s) sid "present"
    /\ row_absentCount (sessionRow s2 doc').2
       = Attendance.countStatus (attendances s) sid "absent"
    /\ row_lateCount (sessionRow s2 doc').2
       = Attendance.countStatus (attendances s) sid "late".
Proof.
  intros Hne Ha Hown Hdoc Hpos s1 s2.
  destruct (endSession_stores_counters s user sid clock session doc Hne Ha Hown Hdoc)
    as (doc' & Hf & He & Hp & Hab & Hl).
  fold s1 in Hf.
  pose proof (manualOverride_sessions s1 actor attendanceId status remark) as Hs.
  fold s2 in Hs. exists doc'. rewrite Hs. split; [exact Hf|].
  unfold sessionRow. rewrite He. cbn [orb].
  destruct (Nat.eqb_spec (AttendanceSession.presentCount doc') 0) as [E|_];
    [rewrite Hp in E; contradiction|].
  cbn. auto.
Qed.

(** Session 1 ends with one ['present'] record, which is then set to
    ['absent']: the list still shows 1 present, 0 absent. *)
Lemma session_counters_fixed_at_end_witness :
  exists doc',
    AttendanceSession.findOne (sessions Demo2.overridden) Demo.session1 = Some doc'
    /\ row_presentCount (sessionRow Demo2.overridden doc').2 = 1
    /\ row_absentCount (sessionRow Demo2.overridden doc').2 = 0
    /\ Attendance.countStatus (attendances Demo2.overridden) Demo.session1 "absent" = 1.
Proof.
  destruct (session_counters_fixed_at_end Demo.oneRecord Demo.lecturerA Demo.session1
              (Demo.clockAt (Demo.T0 + 50 * Demo.minute)) Demo2.session1Active
              Demo2.session1Doc Demo2.adminUser (Some 100%N) (Some "absent") None)
    as (doc' & Hf & _ & Hp & Hab & _).
  - discriminate.
  - vm_compute. reflexivity.
  - reflexivity.
  - vm_compute. reflexivity.
  - vm_compute. discriminate.
  - exists doc'. split; [exact Hf|].
    split; [etransitivity; [exact Hp | vm_compute; reflexivity]|].
    split; [etransitivity; [exact Hab | vm_compute; reflexivity]
           | vm_compute; reflexivity].
Defined.

End SessionHistory.

(** ** The students of a session and the calendar counts *)

Section SessionDetails.
Import Controller Queries.

Lemma attendanceMap_snoc records x :
  attendanceMap (records ++ [x])
  = <[Attendance.studentId x := x]> (attendanceMap records).
Proof. unfold attendanceMap. rewrite fold_left_app. reflexivity. Qed.

Lemma attendanceMap_Some records k r :
  attendanceMap records !! k = Some r ->
  r ∈ records /\ Attendance.studentId r = k.
Proof.
  induction records as [|x records IH] using rev_ind.
  - unfold attendanceMap. simpl. rewrite lookup_empty. discriminate.
  - rewrite attendanceMap_snoc.
    destruct (decide (Attendance.studentId x = k)) as [<-|Hne].
    + rewrite lookup_insert_eq. intros [= <-].
      split; [apply elem_of_app; right; left | reflexivity].
    + rewrite lookup_insert_ne by exact Hne. intros H.
      destruct (IH H) as [Hin Hk]. split; [|exact Hk].
      apply elem_of_app. left. exact Hin.
Qed.

Lemma attendanceMap_None records k :
  attendanceMap records !! k = None ->
  forall r, r ∈ records -> Attendance.studentId r <> k.
Proof.
  induction records as [|x records IH] using rev_ind.
  - intros _ r Hr. inversion Hr.
  - rewrite attendanceMap_snoc.
    destruct (decide (Attendance.studentId x = k)) as [<-|Hne].
    + rewrite lookup_insert_eq. discriminate.
    + rewrite lookup_insert_ne by exact Hne. intros H r Hr.
      apply elem_of_app in Hr as [Hr|Hr]; [apply IH; assumption|].
      apply list_elem_of_singleton in Hr. subst r. exact Hne.
Qed.

Lemma sessionRecords_elem s sid r :
  r ∈ sessionRecords s sid <-> r ∈ attendances s /\ Attendance.sessionId r = sid.
Proof.
  unfold sessionRecords. rewrite sortBy_Permutation.
  rewrite list_elem_of_In, List.filter_In, <- list_elem_of_In, String.eqb_eq.
  reflexivity.
Qed.

(** X15.  The list of students of a session is computed exactly when
    the student of every record of the session is in the collection (a
    record of a deleted student makes the request fail).  It then has
    one row for each student of the session's class, in the order of the
    collection, and no row for anybody else: a record of the session for
    a student of another class is not shown.  A student without a record
    in the session is shown ['absent'] with no time; any other student
    is shown with the status, time and remark of one of their records
    in the session. *)
Theorem session_details_one_row_per_student (s : Store)
    (session : AttendanceSession.doc) :
  let sid := AttendanceSession.sessionId session in
  let cid := AttendanceSession.classId session in
  (is_Some (sessionStudents s session)
   <-> forall r, r ∈ attendances s -> Attendance.sessionId r = sid ->
         exists st, st ∈ students s /\ Student._id st = Attendance.studentId r)
  /\ forall rows, sessionStudents s session = Some rows ->
       (is_Some (Class.findById (classes s) cid) ->
        map sr_studentId rows
        = map Student._id
            (List.filter (fun st => (Student.classId st =? cid)%N) (students s)))
       /\ (Class.findById (classes s) cid = None -> rows = [])
       /\ forall row, row ∈ rows ->
            ((forall r, r ∈ attendances s -> Attendance.sessionId r = sid ->
                        Attendance.studentId r <> sr_studentId row)
             /\ sr_status row = "absent" /\ sr_timestamp row = None
             /\ sr_time row = None /\ sr_lastScanTime row = None
             /\ sr_consecutiveLateCount row = 0 /\ sr_remark row = None)
            \/ (exists r, r ∈ attendances s /\ Attendance.sessionId r = sid
                 /\ Attendance.studentId r = sr_studentId row
                 /\ sr_status row = Attendance.status r
                 /\ sr_time row = Some (Attendance.time r)
                 /\ sr_remark row = orNull (Attendance.remark r)).
Proof.
  intros sid cid. unfold sessionStudents. fold sid. fold cid. cbv zeta.
  set (known := forallb _ _).
  assert (known = true
          <-> forall r, r ∈ attendances s -> Attendance.sessionId r = sid ->
                exists st, st ∈ students s /\ Student._id st = Attendance.studentId r)
    as Hknown.
  { unfold known. rewrite forallb_forall. split.
    - intros H r Hr Hs.
      assert (r ∈ sessionRecords s sid) as Hin by (apply sessionRecords_elem; auto).
      apply list_elem_of_In, H, bool_decide_eq_true in Hin.
      apply list_elem_of_fmap in Hin as (st & E & Hst). eauto.
    - intros H r Hr%list_elem_of_In. apply sessionRecords_elem in Hr as [Hr Hs].
      destruct (H r Hr Hs) as (st & Hst & E). apply bool_decide_eq_true.
      apply list_elem_of_fmap. eauto. }
  split.
  { rewrite <- Hknown. destruct known; split; intros H; eauto.
    - destruct H as [x H]. discriminate.
    - discriminate. }
  intros rows Hrows. destruct known; [|discriminate]. injection Hrows as <-.
  split; [|split].
  - intros [c Hc]. rewrite Hc. unfold studentAttendance.
    rewrite map_map. apply map_ext. intros st.
    destruct (attendanceMap _ !! _); reflexivity.
  - intros ->. reflexivity.
  - intros row Hrow. unfold studentAttendance in Hrow.
    apply list_elem_of_In, in_map_iff in Hrow as (st & <- & _).
    destruct (attendanceMap (sessionRecords s sid) !! Student._id st) as [r|] eqn:E.
    + right. apply attendanceMap_Some in E as [Hin Hk].
      apply sessionRecords_elem in Hin as [Hin Hs].
      exists r. cbn. repeat split; auto.
    + left. cbn. repeat split; auto.
      intros r Hin Hs. eapply attendanceMap_None; [exact E|].
      apply sessionRecords_elem. split; assumption.
Qed.

(** Students 7 and 8 of class 1 were scanned in session 1. *)
Lemma session_details_one_row_per_student_witness :
  exists rows,
    sessionStudents Demo2.marked Demo2.session1Doc = Some rows
    /\ map sr_studentId rows = [7; 8]%N.
Proof.
  destruct (sessionStudents Demo2.marked Demo2.session1Doc) as [rows|] eqn:E;
    [|vm_compute in E; discriminate].
  exists rows. split; [reflexivity|].
  destruct (session_details_one_row_per_student Demo2.marked Demo2.session1Doc)
    as [_ H].
  destruct (H rows E) as (Hmap & _). rewrite Hmap; [vm_compute; reflexivity|].
  vm_compute. eauto.
Defined.

Lemma countRecord_cases c r :
  let d := Attendance.date r in
  let day := default {| present := 0; late := 0; absent := 0 |} (byDate c !! d) in
  let p := if countedPresent r then 1 else 0 in
  let l := if countedLate r then 1 else 0 in
  let a := if countedAbsent r then 1 else 0 in
  p + l + a = 1
  /\ countRecord c r
     = {| byDate := <[d := {| present := present day + p; late := late day + l;
                              absent := absent day + a |}]> (byDate c);
          totalPresent := totalPresent c + p; totalLate := totalLate c + l;
          totalAbsent := totalAbsent c + a |}.
Proof.
  intros d day p l a. unfold countRecord. fold d. fold day.
  unfold p, l, a, countedPresent, countedLate, countedAbsent.
  destruct (String.eqb_spec (Attendance.status r) "") as [E|E].
  { rewrite E. cbn. rewrite !Nat.add_0_r. split; reflexivity. }
  destruct (String.eqb_spec (Attendance.status r) "present") as [E1|E1].
  { rewrite E1. cbn. rewrite !Nat.add_0_r. split; reflexivity. }
  destruct (String.eqb_spec (Attendance.status r) "excused") as [E2|E2].
  { rewrite E2. cbn. rewrite !Nat.add_0_r. split; reflexivity. }
  cbn [orb].
  destruct (String.eqb_spec (Attendance.status r) "late") as [E3|E3].
  { rewrite E3. cbn. rewrite !Nat.add_0_r. split; reflexivity. }
  rewrite (bool_decide_eq_false_2 (Attendance.status r ∈ [""; "present"; "excused"])).
  2:{ rewrite !elem_of_cons. intros [?|[?|[?|H]]]; try contradiction. inversion H. }
  rewrite (bool_decide_eq_false_2 (Attendance.status r = "late")) by exact E3.
  rewrite (bool_decide_eq_true_2 (Attendance.status r ∉ [""; "present"; "excused"; "late"])).
  2:{ rewrite !elem_of_cons. intros [?|[?|[?|[?|H]]]]; try contradiction. inversion H. }
  rewrite !Nat.add_0_r. split; reflexivity.
Qed.

Lemma onDay_snoc d test l x :
  onDay d test (l ++ [x])
  = onDay d test l + (if (Attendance.date x =? d)%Z && test x then 1 else 0).
Proof.
  unfold onDay. rewrite List.filter_app, length_app. cbn.
  destruct ((Attendance.date x =? d)%Z && test x); reflexivity.
Qed.

Lemma onDay_none d test l :
  (forall r, r ∈ l -> Attendance.date r <> d) -> onDay d test l = 0.
Proof.
  unfold onDay. induction l as [|x l IH]; intros H; [reflexivity|].
  cbn [List.filter].
  assert (Attendance.date x <> d) as Hx by (apply H; left).
  apply Z.eqb_neq in Hx. rewrite Hx. cbn [andb].
  apply IH. intros r Hr. apply H. right. exact Hr.
Qed.

(** What the fold over the records has counted. *)
Lemma countCalendar_spec (attendance : list Attendance.doc) :
  let c := countCalendar attendance in
  totalPresent c + totalLate c + totalAbsent c = length attendance
  /\ totalPresent c = length (List.filter countedPresent attendance)
  /\ totalLate c = length (List.filter countedLate attendance)
  /\ totalAbsent c = length (List.filter countedAbsent attendance)
  /\ forall d,
       match byDate c !! d with
       | None => forall r, r ∈ attendance -> Attendance.date r <> d
       | Some day =>
           (exists r, r ∈ attendance /\ Attendance.date r = d)
           /\ present day = onDay d countedPresent attendance
           /\ late day = onDay d countedLate attendance
           /\ absent day = onDay d countedAbsent attendance
       end.
Proof.
  induction attendance as [|x l IH] using rev_ind.
  - cbn. repeat split; try reflexivity. intros d. rewrite lookup_empty.
    intros r Hr. inversion Hr.
  - unfold countCalendar in *. rewrite fold_left_app. cbn [fold_left].
    set (c0 := fold_left countRecord l _) in *. cbv zeta in IH.
    destruct IH as (Hsum & Hp & Hl & Ha & Hday).
    destruct (countRecord_cases c0 x) as [Hone ->]. cbv zeta. cbn [byDate totalPresent totalLate totalAbsent].
    rewrite !List.filter_app, !length_app. cbn [List.filter].
    split; [cbn; lia|].
    split; [rewrite Hp; destruct (countedPresent x); reflexivity|].
    split; [rewrite Hl; destruct (countedLate x); reflexivity|].
    split; [rewrite Ha; destruct (countedAbsent x); reflexivity|].
    intros d. specialize (Hday d).
    destruct (decide (Attendance.date x = d)) as [<-|Hne].
    + rewrite lookup_insert_eq.
      split; [exists x; split; [apply elem_of_app; right; left | reflexivity]|].
      rewrite !onDay_snoc, Z.eqb_refl. cbn [andb present late absent].
      destruct (byDate c0 !! Attendance.date x) as [day|] eqn:E.
      * destruct Hday as (_ & H1 & H2 & H3). cbn [default].
        rewrite <- H1, <- H2, <- H3. repeat split.
      * cbn [default present late absent].
        assert (forall test, onDay (Attendance.date x) test l = 0) as Hz.
        { intros test. apply onDay_none. exact Hday. }
        rewrite !Hz. repeat split.
    + rewrite lookup_insert_ne by exact Hne.
      destruct (byDate c0 !! d) as [day|].
      * destruct Hday as ((r & Hr & Hd) & H1 & H2 & H3).
        split; [exists r; split; [apply elem_of_app; left; exact Hr | exact Hd]|].
        rewrite !onDay_snoc. apply Z.eqb_neq in Hne. rewrite Hne. cbn [andb].
        rewrite !Nat.add_0_r. auto.
      * intros r Hr. apply elem_of_app in Hr as [Hr|Hr]; [apply Hday; exact Hr|].
        apply list_elem_of_singleton in Hr. subst r. exact Hne.
Qed.

(** X16.  The calendar counts every record once: the three totals add up
    to the number of records, a record with status ['excused'] or with
    no status is counted present, and one with a status other than
    ['present'], ['excused'] and ['late'] is counted absent.  A day has
    an entry exactly when it has a record, and the entry holds the counts
    of that day's records. *)
Theorem calendar_counts_every_record_once (attendance : list Attendance.doc) :
  let c := countCalendar attendance in
  totalPresent c + totalLate c + totalAbsent c = length attendance
  /\ totalPresent c = length (List.filter countedPresent attendance)
  /\ totalLate c = length (List.filter countedLate attendance)
  /\ totalAbsent c = length (List.filter countedAbsent attendance)
  /\ forall d,
       match byDate c !! d with
       | None => forall r, r ∈ attendance -> Attendance.date r <> d
       | Some day =>
           (exists r, r ∈ attendance /\ Attendance.date r = d)
           /\ present day = onDay d countedPresent attendance
           /\ late day = onDay d countedLate attendance
           /\ absent day = onDay d countedAbsent attendance
       end.
Proof. exact (countCalendar_spec attendance). Qed.

Lemma onDay_pos d test l :
  0 < onDay d test l
  <-> exists r, r ∈ l /\ Attendance.date r = d /\ test r = true.
Proof.
  unfold onDay. induction l as [|x l IH]; cbn [List.filter].
  - cbn. split; [lia|]. intros (r & H & _). inversion H.
  - destruct (Z.eqb_spec (Attendance.date x) d) as [E|E]; cbn [andb].
    + destruct (test x) eqn:T; cbn [length].
      * split; [|lia]. intros _. exists x. split; [left|]. auto.
      * rewrite IH. split; intros (r & Hr & Hd & Ht).
        -- exists r. split; [right; exact Hr|]. auto.
        -- apply elem_of_cons in Hr as [->|Hr]; [congruence|]. eauto.
    + rewrite IH. split; intros (r & Hr & Hd & Ht).
      * exists r. split; [right; exact Hr|]. auto.
      * apply elem_of_cons in Hr as [->|Hr]; [contradiction|]. eauto.
Qed.

Lemma counted_cases r :
  countedPresent r = true \/ countedLate r = true \/ countedAbsent r = true.
Proof.
  unfold countedPresent, countedLate, countedAbsent.
  destruct (decide (Attendance.status r ∈ [""; "present"; "excused"])) as [H|H].
  - left. apply bool_decide_eq_true_2. exact H.
  - right. destruct (decide (Attendance.status r = "late")) as [E|E].
    + left. apply bool_decide_eq_true_2. exact E.
    + right. apply bool_decide_eq_true_2. intros Hin. apply H.
      rewrite !elem_of_cons in Hin. rewrite !elem_of_cons.
      destruct Hin as [?|[?|[?|[?|Hin]]]]; auto. contradiction.
Qed.

(** X17.  The colour of a day of the calendar, from the records the
    server counted: no colour exactly when the day has no record; red
    exactly when a record of the day is counted absent; yellow exactly
    when none is counted absent and one is late; green exactly when the
    day has records and all are counted present. *)
Theorem tile_colour_of_day (attendance : list Attendance.doc) (d : Z) :
  let tile :=
    AttendanceCalendar.getTileClassName (byDate (countCalendar attendance)) true d in
  let some test :=
    exists r, r ∈ attendance /\ Attendance.date r = d /\ test r = true in
  (tile = "" <-> forall r, r ∈ attendance -> Attendance.date r <> d)
  /\ (tile = "!bg-red-500 !text-white" <-> some countedAbsent)
  /\ (tile = "!bg-yellow-400 !text-gray-900"
      <-> some countedLate /\ ~ some countedAbsent)
  /\ (tile = "!bg-green-500 !text-white"
      <-> some countedPresent /\ ~ some countedLate /\ ~ some countedAbsent).
Proof.
  cbv zeta. unfold AttendanceCalendar.getTileClassName. cbn [negb].
  destruct (countCalendar_spec attendance) as (_ & _ & _ & _ & Hday).
  specialize (Hday d).
  destruct (byDate (countCalendar attendance) !! d) as [day|].
  - destruct Hday as ((r0 & Hr0 & Hd0) & Hp & Hl & Ha).
    pose proof (onDay_pos d countedPresent attendance) as Pp.
    pose proof (onDay_pos d countedLate attendance) as Pl.
    pose proof (onDay_pos d countedAbsent attendance) as Pa.
    rewrite <- Hp in Pp. rewrite <- Hl in Pl. rewrite <- Ha in Pa.
    assert (0 < present day \/ 0 < late day \/ 0 < absent day) as Hsome.
    { destruct (counted_cases r0) as [T|[T|T]].
      - left. apply Pp. eauto.
      - right. left. apply Pl. eauto.
      - right. right. apply Pa. eauto. }
    rewrite <- Pp, <- Pl, <- Pa.
    destruct (Nat.eqb_spec (present day) 0) as [E1|E1];
      destruct (Nat.eqb_spec (late day) 0) as [E2|E2];
      destruct (Nat.eqb_spec (absent day) 0) as [E3|E3]; cbn [andb];
      try (exfalso; lia);
      destruct (Nat.ltb_spec 0 (absent day));
      destruct (Nat.ltb_spec 0 (late day)); try (exfalso; lia);
      (split; [split; [discriminate | intros H'; exfalso; eapply H'; eauto]|]);
      (split; [split; first [discriminate | reflexivity | lia | intros; lia]|]);
      (split; split; first [discriminate | reflexivity | lia | intros; lia]).
  - assert (forall test, ~ exists r, r ∈ attendance /\ Attendance.date r = d
                                     /\ test r = true) as Hnone.
    { intros test (r & Hr & Hd & _). exact (Hday r Hr Hd). }
    split; [split; [intros _; exact Hday | reflexivity]|].
    split; [split; [discriminate | intros H; destruct (Hnone _ H)]|].
    split; split; try discriminate; intros [H _]; destruct (Hnone _ H).
Qed.

End SessionDetails.

(** ** The challenge runner over an attempt *)

Section Attempt.
Import Liveness Challenges.
Variable hypot : Q -> Q -> Q.

Lemma run_challengeType (r : Runner) (d : Detection) (i : Z) :
  challengeType (run hypot r d i).1 = challengeType r.
Proof.
  unfold run. destruct (landmarks d) as [lm|]; [|reflexivity].
  destruct (challengeType r) eqn:E; try exact E.
  - destruct (blinkUpdate (blinkDetector r) lm i) as [b [count ear]]. reflexivity.
  - destruct (smileUpdate hypot (smileDetector r) lm) as [sm p]. reflexivity.
Qed.

Lemma run_no_landmarks (r : Runner) (d : Detection) (i : Z) :
  landmarks d = None ->
  run hypot r d i = (r, {| passed := false; progress := 0; required := None |}).
Proof. intros H. unfold run. rewrite H. reflexivity. Qed.

Lemma blink_required :
  match List.find (fun c => bool_decide (type c = blink)) CHALLENGES with
  | Some c => requiredCount c
  | None => 2
  end = 2.
Proof. reflexivity. Qed.

(** X18.  What [run] returns is consistent: [progress] never exceeds
    the required count (1 when [required] is absent, as the component
    reads it), and [passed] holds exactly when [progress] has reached
    it.  The required count is 2 for the blink challenge on a detection
    with landmarks, and 1 otherwise. *)
Theorem run_passed_iff_progress_complete (r : Runner) (d : Detection) (i : Z) :
  let result := (run hypot r d i).2 in
  let req := default 1 (required result) in
  progress result <= req
  /\ (passed result = true <-> progress result = req)
  /\ req = match challengeType r, landmarks d with
           | blink, Some _ => 2
           | _, _ => 1
           end.
Proof.
  unfold run. destruct (landmarks d) as [lm|].
  2:{ cbn. destruct (challengeType r); repeat split; try lia; discriminate. }
  destruct (challengeType r) eqn:E.
  - destruct (blinkUpdate (blinkDetector r) lm i) as [b [count ear]].
    cbv zeta. rewrite blink_required.
    cbn [snd passed progress required default id]. unfold id.
    split; [lia|]. split; [|reflexivity].
    rewrite Nat.leb_le. lia.
  - cbn. destruct (checkHeadTurnLeft lm (box d)); cbn;
      repeat split; try lia; try discriminate.
  - destruct (smileUpdate hypot (smileDetector r) lm) as [sm p]. cbn.
    destruct p; cbn; repeat split; try lia; try discriminate.
  - cbn. repeat split; try lia; discriminate.
Qed.

Lemma runFrames_challengeType (frames : list (Detection * Z)) :
  forall r, challengeType (runFrames hypot r frames).1 = challengeType r.
Proof.
  induction frames as [|fr rest IH]; intros r; [reflexivity|].
  cbn [runFrames]. pose proof (run_challengeType r fr.1 fr.2) as H.
  destruct (run hypot r fr.1 fr.2) as [r1 result]. specialize (IH r1).
  destruct (runFrames hypot r1 rest) as [r2 results]. cbn [fst] in *.
  congruence.
Qed.

(** X19.  A detection without landmarks changes nothing in the runner
    and never passes: with such frames left out of an attempt, the
    runner ends in the same state, so every later call returns the
    same. *)
Theorem frames_without_landmarks_are_ignored (r : Runner)
    (frames : list (Detection * Z)) :
  (runFrames hypot r (List.filter hasLandmarks frames)).1
  = (runFrames hypot r frames).1
  /\ (forall d i, run hypot (runFrames hypot r (List.filter hasLandmarks frames)).1 d i
                  = run hypot (runFrames hypot r frames).1 d i)
  /\ forall k fr result,
       frames !! k = Some fr -> hasLandmarks fr = false ->
       (runFrames hypot r frames).2 !! k = Some result ->
       passed result = false /\ progress result = 0.
Proof.
  assert (forall fs r0, (runFrames hypot r0 (List.filter hasLandmarks fs)).1
                        = (runFrames hypot r0 fs).1) as Hsame.
  { induction fs as [|fr rest IH]; intros r0; [reflexivity|].
    cbn [List.filter runFrames]. unfold hasLandmarks at 1.
    destruct (landmarks fr.1) as [lm|] eqn:E.
    - cbn [runFrames]. destruct (run hypot r0 fr.1 fr.2) as [r1 result].
      specialize (IH r1).
      destruct (runFrames hypot r1 (List.filter hasLandmarks rest)) as [r2 results].
      destruct (runFrames hypot r1 rest) as [r2' results']. exact IH.
    - rewrite (run_no_landmarks r0 fr.1 fr.2 E). specialize (IH r0).
      destruct (runFrames hypot r0 rest) as [r2' results']. exact IH. }
  split; [apply Hsame|]. split; [intros d i; rewrite Hsame; reflexivity|].
  revert r. induction frames as [|fr0 rest IH]; intros r k fr result Hk Hno Hres.
  - discriminate.
  - cbn [runFrames] in Hres.
    destruct (run hypot r fr0.1 fr0.2) as [r1 res0] eqn:E0.
    specialize (IH r1).
    destruct (runFrames hypot r1 rest) as [r2 results]. cbn [snd] in *.
    destruct k as [|k]; cbn in Hk, Hres.
    + injection Hk as ->. injection Hres as ->.
      unfold hasLandmarks in Hno. destruct (landmarks fr.1) eqn:El; [discriminate|].
      rewrite (run_no_landmarks r fr.1 fr.2 El) in E0. injection E0 as _ <-.
      split; reflexivity.
    + eapply IH; eassumption.
Qed.

(** X20.  [reset] forgets the attempt: after any calls, the reset
    runner is the runner that [createChallengeRunner] makes for the
    same type (no blink counted, no mouth width kept), so a new attempt
    does not depend on the frames seen before. *)
Theorem reset_forgets_attempt (r : Runner) (frames : list (Detection * Z)) :
  reset (runFrames hypot r frames).1 = createChallengeRunner (challengeType r)
  /\ forall later,
       runFrames hypot (reset (runFrames hypot r frames).1) later
       = runFrames hypot (createChallengeRunner (challengeType r)) later.
Proof.
  assert (reset (runFrames hypot r frames).1 = createChallengeRunner (challengeType r))
    as H.
  { unfold reset, createChallengeRunner. rewrite runFrames_challengeType.
    reflexivity. }
  split; [exact H|]. intros later. rewrite H. reflexivity.
Qed.

End Attempt.

(** ** Blinks over a sequence of frames *)

Section BlinkBounds.
Import Liveness Challenges.

Lemma calculateEAR_nonneg (eye : list Point) : (0 <= calculateEAR eye)%Q.
Proof.
  unfold calculateEAR.
  destruct eye as [|p0 [|p1 [|p2 [|p3 [|p4 [|p5 rest]]]]]]; try (cbn; lra).
  cbv zeta.
  set (v1 := Qabs (y p1 - y p5)). set (v2 := Qabs (y p2 - y p4)).
  set (h := Qabs (x p0 - x p3)).
  pose proof (Qabs_nonneg (y p1 - y p5)) as H1. fold v1 in H1.
  pose proof (Qabs_nonneg (y p2 - y p4)) as H2. fold v2 in H2.
  pose proof (Qabs_nonneg (x p0 - x p3)) as H3. fold h in H3.
  apply Qle_shift_div_l.
  - destruct (Qeq_bool h 0) eqn:E; [lra|].
    apply Qeq_bool_neq in E. lra.
  - lra.
Qed.

Lemma calculateEAR_short (eye : list Point) :
  length eye < 6 -> calculateEAR eye = 1%Q.
Proof.
  destruct eye as [|p0 [|p1 [|p2 [|p3 [|p4 [|p5 rest]]]]]]; cbn; intros H;
    try reflexivity. lia.
Qed.

(** X21.  A frame counts as closed eyes only when both eyes have their
    six points: an eye with fewer points has the ratio 1, and the
    average with the other eye (never negative) is then at least 0.5,
    which is an open frame. *)
Theorem closed_frame_needs_both_eyes (lm : Landmarks) :
  (isClosed (avgEAR lm) = true ->
   6 <= length (getLeftEye lm) /\ 6 <= length (getRightEye lm))
  /\ (length (getLeftEye lm) < 6 \/ length (getRightEye lm) < 6 ->
      isOpen (avgEAR lm) = true).
Proof.
  pose proof (calculateEAR_nonneg (getLeftEye lm)) as Hl.
  pose proof (calculateEAR_nonneg (getRightEye lm)) as Hr.
  assert (length (getLeftEye lm) < 6 \/ length (getRightEye lm) < 6 ->
          (1 # 2 <= avgEAR lm)%Q) as Hhalf.
  { unfold avgEAR, Qdiv. change (/ 2)%Q with (1 # 2)%Q.
    intros [H|H]; rewrite (calculateEAR_short _ H) in *; lra. }
  split.
  - intros Hc%isClosed_iff. change 0.18%Q with (18 # 100)%Q in Hc.
    destruct (Nat.lt_ge_cases (length (getLeftEye lm)) 6) as [H|H];
      [specialize (Hhalf (or_introl H)); lra|].
    destruct (Nat.lt_ge_cases (length (getRightEye lm)) 6) as [H'|H'];
      [specialize (Hhalf (or_intror H')); lra|].
    split; assumption.
  - intros H. apply isOpen_iff. change 0.25%Q with (25 # 100)%Q.
    specialize (Hhalf H). lra.
Qed.

(** A shut right eye with no left eye is an open frame. *)
Lemma closed_frame_needs_both_eyes_witness :
  (calculateEAR (getRightEye Demo3.profile) == 0)%Q
  /\ isOpen (avgEAR Demo3.profile) = true.
Proof.
  split; [vm_compute; reflexivity|].
  apply (closed_frame_needs_both_eyes Demo3.profile).
  left. cbn. lia.
Defined.

Lemma closedFrames_snoc frames fr :
  closedFrames (frames ++ [fr])
  = closedFrames frames + (if isClosed (avgEAR fr.1) then 1 else 0).
Proof.
  unfold closedFrames. rewrite List.filter_app, length_app. cbn.
  destruct (isClosed _); reflexivity.
Qed.

Lemma openFrames_snoc frames fr :
  openFrames (frames ++ [fr])
  = openFrames frames + (if isOpen (avgEAR fr.1) then 1 else 0).
Proof.
  unfold openFrames. rewrite List.filter_app, length_app. cbn.
  destruct (isOpen _); reflexivity.
Qed.

(** X22.  The blink count never goes down and goes up by at most one a
    frame.  From a new detector, every counted blink has used up two
    closed frames and one open frame of its own: twice the count is at
    most the number of closed frames, and the count at most the number
    of open frames.  'Blink Twice' therefore needs at least four closed
    and two open frames. *)
Theorem blink_count_bounds (s : BlinkState) (frames : list (Landmarks * Z)) :
  blinkCount s <= blinkCount (blinkRun s frames)
  /\ blinkCount (blinkRun s frames) <= blinkCount s + length frames
  /\ 2 * blinkCount (blinkRun blinkInit frames) <= closedFrames frames
  /\ blinkCount (blinkRun blinkInit frames) <= openFrames frames.
Proof.
  assert (forall st ear f,
            blinkCount st <= blinkCount (blinkStep st ear f) <= blinkCount st + 1)
    as Hstep.
  { intros st ear f. destruct (blinkStep_count st ear f) as [(-> & _)|(-> & _)]; lia. }
  split; [|split].
  - induction frames as [|fr frames IH] using rev_ind; [cbn; lia|].
    rewrite blinkRun_snoc. unfold blinkUpdate. cbn [fst].
    specialize (Hstep (blinkRun s frames) (avgEAR fr.1) fr.2). lia.
  - induction frames as [|fr frames IH] using rev_ind; [cbn; lia|].
    rewrite blinkRun_snoc, length_app. unfold blinkUpdate. cbn [fst length].
    specialize (Hstep (blinkRun s frames) (avgEAR fr.1) fr.2). lia.
  - assert (2 * blinkCount (blinkRun blinkInit frames)
            + closedFrameCount (blinkRun blinkInit frames) <= closedFrames frames
            /\ blinkCount (blinkRun blinkInit frames) <= openFrames frames) as H;
      [|split; lia].
    induction frames as [|fr frames IH] using rev_ind; [cbn; lia|].
    rewrite blinkRun_snoc, closedFrames_snoc, openFrames_snoc.
    unfold blinkUpdate. cbn [fst].
    set (st := blinkRun blinkInit frames) in *.
    destruct (blinkStep_closed st (avgEAR fr.1) fr.2) as [Hc _].
    destruct (blinkStep_count st (avgEAR fr.1) fr.2)
      as [(Hn & _ & Ho & _ & H2 & _)|(Hn & _)]; rewrite Hn, Hc.
    + rewrite Ho. destruct (isClosed (avgEAR fr.1)) eqn:Ec;
        [rewrite (closed_not_open _ Ec) in Ho; discriminate|]. lia.
    + destruct (isClosed (avgEAR fr.1)); [lia|].
      destruct (isOpen (avgEAR fr.1)); lia.
Qed.

End BlinkBounds.

(** ** The head turn on a small face, and the choice of a challenge *)

Section SmallFace.
Import Liveness Challenges.

(** X23.  A face narrower than 60 pixels whose nose tip is not right of
    the face box never passes the head turn: the nose is then less than
    30 pixels from the centre, and the threshold is never below 30. *)
Theorem small_face_never_turns (lm : Landmarks) (faceBox : Box) (noseTip : Point) :
  noseTipOf (getNose lm) = Some noseTip ->
  (width faceBox < 60)%Q ->
  (x noseTip <= box_x faceBox + width faceBox)%Q ->
  checkHeadTurnLeft lm faceBox = false.
Proof.
  intros Hnose Hw Hin. unfold checkHeadTurnLeft. rewrite Hnose. cbv zeta.
  apply not_true_is_false. intros H%Qle_bool_iff.
  assert (30 <= Math_max 30 (width faceBox * HEAD_TURN_THRESHOLD_RATIO))%Q as Hmax.
  { unfold Math_max. destruct (Qle_bool 30 _) eqn:E; [|lra].
    apply Qle_bool_iff in E. exact E. }
  unfold Qdiv in H. change (/ 2)%Q with (1 # 2)%Q in H. lra.
Qed.

(** A box 50 wide at x = 50, nose at its right edge. *)
Lemma small_face_never_turns_witness :
  checkHeadTurnLeft (Demo.face 0.3 100 50)
    {| box_x := 50; box_y := 50; width := 50; height := 50 |} = false.
Proof.
  apply (small_face_never_turns (Demo.face 0.3 100 50) _ (Demo.pt 100 110) eq_refl).
  - reflexivity.
  - apply Qle_bool_iff. vm_compute. reflexivity.
Defined.



End SmallFace.

(** ** The countdown, the callbacks and the throttle of [LivenessChallenge] *)

Section Countdown.
Import Liveness LivenessChallenge Callbacks.
Variable hypot : Q -> Q -> Q.

Lemma rerunEffects_state before c :
  status (rerunEffects before c) = status c
  /\ timeLeft (rerunEffects before c) = timeLeft c
  /\ actions (rerunEffects before c) = actions c
  /\ (status c <> before ->
      timerRef (rerunEffects before c) = bool_decide (status c = detecting))
  /\ (status c = before -> timerRef (rerunEffects before c) = timerRef c).
Proof.
  unfold rerunEffects. destruct (bool_decide_reflect (status c = before)); cbn;
    repeat split; auto; intros; contradiction.
Qed.

Lemma animationFrame_state c i now :
  status (animationFrame c i now) = status c
  /\ timeLeft (animationFrame c i now) = timeLeft c
  /\ timerRef (animationFrame c i now) = timerRef c.
Proof.
  unfold animationFrame. destruct (loops c !! i) as [l|]; [|auto].
  destruct (negb _); [auto|]. destruct (_ || _); [auto|].
  destruct (Qlt_bool _ _); auto.
Qed.

Lemma detectionResolved_state c i d :
  status (detectionResolved hypot c i d) = success
  \/ (status (detectionResolved hypot c i d) = status c
      /\ timeLeft (detectionResolved hypot c i d) = timeLeft c
      /\ timerRef (detectionResolved hypot c i d) = timerRef c).
Proof.
  unfold detectionResolved. destruct (loops c !! i) as [l|]; [|auto].
  destruct (negb _); [auto|].
  destruct d as [d|]; [|auto]. destruct (runnerRef c) as [runner|]; [|auto].
  destruct (run hypot runner d (frameRef c)) as [runner' result].
  destruct (passed result); [|auto].
  left. apply rerunEffects_state.
Qed.

Lemma step_counted c e n :
  e <> ClickRetry -> counted c n ->
  counted (step hypot c e) (n + (if isTick e then 1 else 0)).
Proof.
  intros He (Ht & Hd & Hf). unfold counted, CHALLENGE_TIMEOUT_SEC in *.
  destruct e as [i now|i d| | |]; cbn [step isTick].
  - destruct (animationFrame_state c i now) as (-> & -> & ->).
    rewrite Nat.add_0_r. auto.
  - destruct (detectionResolved_state c i d) as [E|(-> & -> & ->)].
    + rewrite E. repeat split; try discriminate.
      intros H. exfalso. revert H E. unfold detectionResolved.
      destruct (loops c !! i) as [l|]; [|intros H E; apply Ht in H; congruence].
      destruct (negb _); [intros H E; apply Ht in H; congruence|].
      destruct d as [d|]; [|cbn; intros H E; apply Ht in H; congruence].
      destruct (runnerRef c) as [runner|];
        [|cbn; intros H E; apply Ht in H; congruence].
      destruct (run hypot runner d (frameRef c)) as [runner' result].
      destruct (passed result); [|cbn; intros H E; apply Ht in H; congruence].
      unfold rerunEffects. cbn [status].
      destruct (bool_decide_reflect (success = status c)); cbn; discriminate.
    + rewrite Nat.add_0_r. auto.
  - unfold tick. destruct (timerRef c) eqn:Etimer; cbn [negb].
    + specialize (Ht eq_refl). destruct (Hd Ht) as (_ & Hleft & Hn).
      destruct (Z.leb_spec (timeLeft c) 1) as [Hle|Hgt].
      * unfold rerunEffects. cbn [status]. rewrite Ht.
        rewrite bool_decide_false by discriminate. cbn.
        repeat split; try discriminate. lia.
      * cbn. repeat split; auto; try lia. intros E. congruence.
    + split; [|split].
      * intros H. congruence.
      * intros H. destruct (Hd H) as (H1 & _). discriminate.
      * intros H. specialize (Hf H). lia.
  - contradiction.
  - unfold handleCancel. destruct (negb _); cbn; rewrite Nat.add_0_r; auto.
Qed.

Lemma ticks_cons e es : ticks (e :: es) = (if isTick e then 1 else 0) + ticks es.
Proof. unfold ticks. cbn. destruct (isTick e); reflexivity. Qed.

Lemma steps_counted es :
  forall c n, ClickRetry ∉ es -> counted c n ->
  counted (steps hypot c es) (n + ticks es).
Proof.
  induction es as [|e es IH]; intros c n Hno Hc.
  - cbn. rewrite Nat.add_0_r. exact Hc.
  - apply not_elem_of_cons in Hno as [He Hno].
    rewrite ticks_cons, Nat.add_assoc. unfold steps. cbn [fold_left].
    apply IH; [exact Hno|]. apply step_counted; auto.
Qed.

(** X25.  The countdown: from the first render, as long as 'Try Again'
    is not clicked, the component never shows ['failed'] before the
    sixth tick and never shows ['detecting'] from the sixth tick on,
    whatever frames and detections come in between; while it detects,
    the time left is 6 minus the number of ticks, and the interval
    runs. *)
Theorem countdown_fails_on_sixth_tick (ch : Challenge) (video : bool)
    (es : list Event) :
  ClickRetry ∉ es ->
  let c := steps hypot (mount ch video) es in
  (ticks es < 6 -> status c <> failed)
  /\ (6 <= ticks es -> status c <> detecting)
  /\ (status c = detecting ->
      timeLeft c = (6 - Z.of_nat (ticks es))%Z /\ timerRef c = true).
Proof.
  intros Hno c.
  assert (counted (mount ch video) 0) as H0.
  { unfold counted. cbn. repeat split; try discriminate. lia. }
  pose proof (steps_counted es _ _ Hno H0) as (Ht & Hd & Hf).
  cbn [Nat.add] in *. fold c in Ht, Hd, Hf. unfold CHALLENGE_TIMEOUT_SEC in Hd.
  split; [intros Hlt E; specialize (Hf E); lia|].
  split; [intros Hge E; destruct (Hd E) as (_ & _ & ?); lia|].
  intros E. destruct (Hd E) as (? & ? & _). auto.
Qed.

End Countdown.

Section Countdown_witness.
Import Liveness LivenessChallenge Callbacks Demo.

(** Six ticks after a straight face was seen once: ['failed']. *)
Lemma countdown_fails_on_sixth_tick_witness :
  status (steps hypotAxis (mount headLeft true) Demo4.sixTicks) = failed.
Proof.
  destruct (countdown_fails_on_sixth_tick hypotAxis headLeft true Demo4.sixTicks)
    as (_ & H & _).
  - intros Hin. vm_compute in Hin. repeat (apply elem_of_cons in Hin as [Hin|Hin];
      [discriminate|]). inversion Hin.
  - specialize (H (Nat.le_refl 6)).
    destruct (status (steps hypotAxis (mount headLeft true) Demo4.sixTicks)) eqn:E;
      [contradiction | vm_compute in E; discriminate | reflexivity].
Defined.

End Countdown_witness.

Section Callbacks.
Import Liveness LivenessChallenge Callbacks.
Variable hypot : Q -> Q -> Q.

Ltac no_such_action :=
  let H := fresh in
  intros H; repeat (apply elem_of_cons in H as [H|H]; [discriminate|]);
  inversion H.

(** What one callback adds to what was done. *)
Lemma step_actions (c : Component) (e : Event) :
  exists acts,
    actions (step hypot c e) = actions c ++ acts
    /\ (OnFail ∈ acts -> e = ClickCancel /\ status c = failed)
    /\ (OnRetry ∈ acts -> e = ClickRetry /\ status c = failed)
    /\ (OnSuccess ∈ acts -> exists i d, e = DetectionResolved i (Some d))
    /\ (forall st, DetectorRun st ∈ acts ->
          exists i d, e = DetectionResolved i (Some d))
    /\ (forall st, ProviderCall st ∈ acts -> exists i now, e = AnimationFrame i now).
Proof.
  assert (exists acts, actions c = actions c ++ acts
            /\ (OnFail ∈ acts -> e = ClickCancel /\ status c = failed)
            /\ (OnRetry ∈ acts -> e = ClickRetry /\ status c = failed)
            /\ (OnSuccess ∈ acts -> exists i d, e = DetectionResolved i (Some d))
            /\ (forall st, DetectorRun st ∈ acts ->
                  exists i d, e = DetectionResolved i (Some d))
            /\ (forall st, ProviderCall st ∈ acts ->
                  exists i now, e = AnimationFrame i now)) as Hsame.
  { exists []. split; [rewrite app_nil_r; reflexivity|].
    split; [no_such_action|]. split; [no_such_action|]. split; [no_such_action|].
    split; intros st; no_such_action. }
  destruct e as [i now|i d| | |]; cbn [step].
  - unfold animationFrame. destruct (loops c !! i) as [l|]; [|exact Hsame].
    destruct (negb _); [exact Hsame|]. destruct (_ || _); [exact Hsame|].
    destruct (Qlt_bool _ _); [exact Hsame|].
    exists [ProviderCall (status c)]. split; [reflexivity|].
    split; [no_such_action|]. split; [no_such_action|]. split; [no_such_action|].
    split; intros st; [no_such_action|]. intros _. eauto.
  - unfold detectionResolved. destruct (loops c !! i) as [l|]; [|exact Hsame].
    destruct (negb _); [exact Hsame|].
    destruct d as [d|]; [|exact Hsame].
    destruct (runnerRef c) as [runner|]; [|exact Hsame].
    destruct (run hypot runner d (frameRef c)) as [runner' result].
    destruct (passed result).
    + exists [DetectorRun (status c); OnSuccess].
      split; [rewrite (proj1 (proj2 (proj2 (rerunEffects_state _ _)))); reflexivity|].
      split; [no_such_action|]. split; [no_such_action|].
      split; [intros _; eauto|].
      split; intros st; [intros _; eauto | no_such_action].
    + exists [DetectorRun (status c)]. split; [reflexivity|].
      split; [no_such_action|]. split; [no_such_action|]. split; [no_such_action|].
      split; intros st; [intros _; eauto | no_such_action].
  - unfold tick. destruct (negb _); [exact Hsame|].
    destruct (_ <=? _)%Z; [|exact Hsame].
    rewrite (proj1 (proj2 (proj2 (rerunEffects_state _ _)))). exact Hsame.
  - unfold handleRetry.
    destruct (bool_decide_reflect (status c = failed)) as [Hf|]; cbn [negb];
      [|exact Hsame].
    exists [OnRetry].
    split; [rewrite (proj1 (proj2 (proj2 (rerunEffects_state _ _)))); reflexivity|].
    split; [no_such_action|]. split; [auto|]. split; [no_such_action|].
    split; intros st; no_such_action.
  - unfold handleCancel.
    destruct (bool_decide_reflect (status c = failed)) as [Hf|]; cbn [negb];
      [|exact Hsame].
    exists [OnFail]. split; [reflexivity|].
    split; [auto|]. split; [no_such_action|]. split; [no_such_action|].
    split; intros st; no_such_action.
Qed.

(** X26.  Each callback of the parent has one cause.  [onFail] is
    called only by a click on Cancel: the countdown running out shows
    ['failed'] and calls nothing.  [onRetry] is called only by a click
    on Try Again; [onSuccess] and the detector only when the provider
    answers with a detection; the provider only on an animation
    frame. *)
Theorem callbacks_have_one_cause (c : Component) (es : list Event) :
  exists acts,
    actions (steps hypot c es) = actions c ++ acts
    /\ (ClickCancel ∉ es -> OnFail ∉ acts)
    /\ (ClickRetry ∉ es -> OnRetry ∉ acts)
    /\ ((forall i d, DetectionResolved i (Some d) ∉ es) ->
        (OnSuccess ∉ acts) /\ (forall st, DetectorRun st ∉ acts))
    /\ ((forall i now, AnimationFrame i now ∉ es) ->
        forall st, ProviderCall st ∉ acts).
Proof.
  revert c. induction es as [|e es IH]; intros c.
  - exists []. split; [cbn; rewrite app_nil_r; reflexivity|].
    split; [intros _; apply not_elem_of_nil|].
    split; [intros _; apply not_elem_of_nil|].
    split; [intros _; split; [|intros st]; apply not_elem_of_nil|].
    intros _ st. apply not_elem_of_nil.
  - unfold steps. cbn [fold_left].
    destruct (step_actions c e) as (a1 & E1 & Hf1 & Hr1 & Hs1 & Hd1 & Hp1).
    destruct (IH (step hypot c e)) as (a2 & E2 & Hf2 & Hr2 & Hs2 & Hp2).
    exists (a1 ++ a2). unfold steps in E2. rewrite E2, E1, app_assoc.
    split; [reflexivity|].
    split; [|split; [|split]].
    + intros Hno [H|H]%elem_of_app.
      * apply Hf1 in H as [-> _]. apply Hno. left.
      * revert H. apply Hf2. intros H. apply Hno. right. exact H.
    + intros Hno [H|H]%elem_of_app.
      * apply Hr1 in H as [-> _]. apply Hno. left.
      * revert H. apply Hr2. intros H. apply Hno. right. exact H.
    + intros Hno.
      assert (forall i d, DetectionResolved i (Some d) ∉ es) as Hno'.
      { intros i d Hin. apply (Hno i d). right. exact Hin. }
      destruct (Hs2 Hno') as [Hs Hd]. split.
      * intros [H|H]%elem_of_app; [|exact (Hs H)].
        destruct (Hs1 H) as (i & d & ->). apply (Hno i d). left.
      * intros st [H|H]%elem_of_app; [|exact (Hd st H)].
        destruct (Hd1 st H) as (i & d & ->). apply (Hno i d). left.
    + intros Hno st [Hin|Hin]%elem_of_app.
      * destruct (Hp1 _ Hin) as (i & now & ->). apply (Hno i now). left.
      * revert Hin. apply Hp2. intros i now Hin. apply (Hno i now). right.
        exact Hin.
Qed.

End Callbacks.

Section Callbacks_witness.
Import Liveness LivenessChallenge Callbacks Demo.

(** The countdown runs out: ['failed'] is shown and [onFail] was not
    called. *)
Lemma callbacks_have_one_cause_witness :
  status (steps hypotAxis (mount headLeft true) Demo4.sixTicks) = failed
  /\ OnFail ∉ actions (steps hypotAxis (mount headLeft true) Demo4.sixTicks).
Proof.
  split; [vm_compute; reflexivity|].
  destruct (callbacks_have_one_cause hypotAxis (mount headLeft true) Demo4.sixTicks)
    as (acts & E & Hf & _).
  rewrite E. cbn [mount actions app]. apply Hf.
  intros Hin. vm_compute in Hin.
  repeat (apply elem_of_cons in Hin as [Hin|Hin]; [discriminate|]). inversion Hin.
Defined.

End Callbacks_witness.

Section Throttle.
Import Liveness LivenessChallenge Callbacks.
Variable hypot : Q -> Q -> Q.

Lemma cleanupLast_lastRun (ls : list Loop) (i : nat) (l : Loop) :
  ls !! i = Some l ->
  exists l', cleanupLast ls !! i = Some l' /\ lastRun l' = lastRun l.
Proof.
  revert i. induction ls as [|l0 ls IH]; intros i Hi; [discriminate|].
  assert (lastRun (cleanupLoop l0) = lastRun l0) as H0.
  { unfold cleanupLoop. destruct (phase l0); reflexivity. }
  destruct ls as [|l1 ls].
  - destruct i as [|i]; [|discriminate]. injection Hi as <-.
    exists (cleanupLoop l0). split; [reflexivity | exact H0].
  - destruct i as [|i].
    + injection Hi as <-. exists l0. split; reflexivity.
    + apply (IH i Hi).
Qed.

Lemma rerunEffects_lastRun before (c : Component) (i : nat) (l : Loop) :
  loops c !! i = Some l ->
  exists l', loops (rerunEffects before c) !! i = Some l'
             /\ lastRun l' = lastRun l.
Proof.
  intros Hi. unfold rerunEffects. destruct (bool_decide _); [eauto|].
  cbn [loops]. destruct (cleanupLast_lastRun _ _ _ Hi) as (l' & H1 & H2).
  exists l'. split; [|exact H2]. apply lookup_app_l_Some. exact H1.
Qed.

Lemma insert_lastRun (ls : list Loop) (i j : nat) (l lj new : Loop) :
  ls !! i = Some l -> ls !! j = Some lj -> lastRun new = lastRun lj ->
  exists l', <[j := new]> ls !! i = Some l' /\ lastRun l' = lastRun l.
Proof.
  intros Hi Hj Hnew. destruct (decide (j = i)) as [->|Hne].
  - exists new. split; [|congruence].
    apply list_lookup_insert_eq. eapply lookup_lt_Some; eauto.
  - exists l. split; [|reflexivity]. rewrite list_lookup_insert_ne; auto.
Qed.

(** What one callback does to the [lastRun] of a run of the detection
    effect. *)
Lemma step_lastRun (c : Component) (e : Event) (i : nat) (l : Loop) :
  loops c !! i = Some l ->
  exists l', loops (step hypot c e) !! i = Some l'
    /\ match e with
       | AnimationFrame j now =>
           if bool_decide (j = i)
              && (length (actions c) <? length (actions (step hypot c e)))
           then lastRun l' = now /\ (80 <= now - lastRun l)%Q
           else lastRun l' = lastRun l
       | _ => lastRun l' = lastRun l
       end.
Proof.
  intros Hi. destruct e as [j now|j d| | |]; cbn [step].
  - assert (exists l', loops c !! i = Some l'
              /\ (if bool_decide (j = i) && (length (actions c) <? length (actions c))
                  then lastRun l' = now /\ (80 <= now - lastRun l)%Q
                  else lastRun l' = lastRun l)) as Hsame.
    { exists l. split; [exact Hi|]. rewrite Nat.ltb_irrefl, andb_false_r.
      reflexivity. }
    unfold animationFrame. destruct (loops c !! j) as [lj|] eqn:Hj; [|exact Hsame].
    destruct (negb _); [exact Hsame|]. destruct (_ || _); [exact Hsame|].
    destruct (Qlt_bool (now - lastRun lj) DETECTION_INTERVAL_MS) eqn:Hq;
      [exact Hsame|].
    cbn [setLoop loops actions]. rewrite length_app. cbn [length].
    replace (length (actions c) <? length (actions c) + 1) with true
      by (symmetry; apply Nat.ltb_lt; lia).
    rewrite andb_true_r.
    destruct (bool_decide_reflect (j = i)) as [->|Hne].
    + eexists. split; [apply list_lookup_insert_eq; eapply lookup_lt_Some; eauto|].
      cbn [lastRun]. split; [reflexivity|].
      assert (lj = l) as -> by congruence.
      unfold Qlt_bool in Hq. apply negb_false_iff, Qle_bool_iff in Hq. exact Hq.
    + exists l. split; [|reflexivity]. rewrite list_lookup_insert_ne; auto.
  - unfold detectionResolved. destruct (loops c !! j) as [lj|] eqn:Hj; [|eauto].
    destruct (negb _); [eauto|].
    destruct d as [d|]; [|cbn [loops]; eapply insert_lastRun; eauto].
    destruct (runnerRef c) as [runner|];
      [|cbn [loops]; eapply insert_lastRun; eauto].
    destruct (run hypot runner d (frameRef c)) as [runner' result].
    destruct (passed result); [|cbn [loops]; eapply insert_lastRun; eauto].
    match goal with
    | |- context [rerunEffects ?b ?c'] =>
        destruct (insert_lastRun (loops c) i j l lj
                    {| closureStatus := closureStatus lj; lastRun := lastRun lj;
                       phase := Returned |} Hi Hj eq_refl) as (l1 & H1 & H2);
        destruct (rerunEffects_lastRun b c' i l1 H1) as (l2 & H3 & H4)
    end.
    exists l2. split; [exact H3 | congruence].
  - unfold tick. destruct (negb _); [eauto|]. destruct (_ <=? _)%Z; [|eauto].
    apply rerunEffects_lastRun. exact Hi.
  - unfold handleRetry. destruct (negb _); [eauto|].
    apply rerunEffects_lastRun. exact Hi.
  - unfold handleCancel. destruct (negb _); eauto.
Qed.

(** X27.  The throttle: a run of the detection effect calls the
    provider at most once in 80 ms.  Of the frames at which a run went
    on to call the provider, each is at least 80 ms after the one
    before, and the first at least 80 ms after the run's [lastRun]
    (0 for a new run), whatever else happens in between. *)
Theorem provider_calls_throttled (c : Component) (es : list Event)
    (i : nat) (l : Loop) :
  loops c !! i = Some l ->
  forall k t1 t2,
    (lastRun l :: providerCalls hypot c es i) !! k = Some t1 ->
    (lastRun l :: providerCalls hypot c es i) !! S k = Some t2 ->
    (80 <= t2 - t1)%Q.
Proof.
  revert c l. induction es as [|e es IH]; intros c l Hi k t1 t2 H1 H2.
  - destruct k; discriminate.
  - destruct (step_lastRun c e i l Hi) as (l' & Hi' & He).
    specialize (IH (step hypot c e) l' Hi').
    cbn [providerCalls] in H1, H2. cbv zeta in H1, H2.
    assert (forall rest,
              rest = providerCalls hypot (step hypot c e) es i ->
              lastRun l' = lastRun l ->
              (lastRun l :: rest) !! k = Some t1 ->
              (lastRun l :: rest) !! S k = Some t2 -> (80 <= t2 - t1)%Q) as Hkeep.
    { intros rest -> E. rewrite <- E. apply IH. }
    destruct e as [j now|j d| | |]; try (eapply Hkeep; eauto; fail).
    destruct (bool_decide (j = i) && _); [|eapply Hkeep; eauto].
    destruct He as [E Hge]. destruct k as [|k].
    + cbn in H1, H2. injection H1 as <-. injection H2 as <-. exact Hge.
    + cbn [lookup list_lookup] in H1, H2. subst now.
      apply (IH k t1 t2); [exact H1 | exact H2].
Qed.

End Throttle.

Section Throttle_witness.
Import Liveness LivenessChallenge Callbacks Demo.

(** Frames come every 16 ms from 100 ms on: the first run calls the
    provider at 100 ms and at 180 ms only. *)
Lemma provider_calls_throttled_witness :
  providerCalls hypotAxis (mount headLeft true) Demo4.sixtyHertz 0 = [100; 180]%Q
  /\ (80 <= 180 - 100)%Q.
Proof.
  split; [vm_compute; reflexivity|].
  apply (provider_calls_throttled hypotAxis (mount headLeft true) Demo4.sixtyHertz 0
           {| closureStatus := detecting; lastRun := 0; phase := Scheduled |}
           eq_refl 1 100%Q 180%Q); vm_compute; reflexivity.
Defined.

End Throttle_witness.

(** ** Without a retry, success is terminal *)

Section NoRetry.
Import Liveness LivenessChallenge Callbacks.
Variable hypot : Q -> Q -> Q.










End NoRetry.

Section NoRetry_witness.
Import Liveness LivenessChallenge Callbacks Demo.


End NoRetry_witness.
